(** * Copy-trading core: timestamp normalizer, retrying fetch client,
      batch de-duplication and the follower fan-out endpoint.

    The development embeds four pieces of the TypeScript sources:
    - [parseTradeTimestamp], [fetchWithRetry], [pushOrderToAccount] and the
      de-duplication step of [getMasterTrades]   (lib/alice.ts);
    - the de-duplication and sorting step of [fetchTrades]   (trades table);
    - the [POST] handler of /api/followers/execute-copy-trade.

    Conventions of the embedding.
    - JavaScript strings are [string]s of 8-bit characters; white space is the
      ASCII white space (tab, LF, VT, FF, CR, space).
    - JavaScript numbers are exact rationals extended with NaN and the two
      infinities; IEEE-754 rounding is not modelled.
    - What the JavaScript engine and the machine decide (the legacy [Date]
      string parser, [Number] of a string, the printing of a number, the local
      time zone, the clock) is gathered in a [Host] record and every statement
      is made for an arbitrary host.
    - A thrown exception is a value of the [Result] type.
    - The relational store is a pair of in-memory tables whose queries always
      answer; the network and the broker are an oracle over the history of
      events, so that two calls with equal arguments may be answered
      differently. *)

From Stdlib Require Import ZArith QArith Qabs Qround List Bool String Ascii Lia.
From Stdlib Require Import DecimalString Sorted Permutation.
Import ListNotations.

Local Open Scope string_scope.
Local Open Scope Z_scope.

(** ** Results of computations that may throw *)

Inductive Result (A : Type) : Type :=
| Ok (a : A)
| Threw (message : string).
Arguments Ok {A} a.
Arguments Threw {A} message.

(** ** Strings *)

Module Str.

Definition is_digit (c : ascii) : bool :=
  let n := nat_of_ascii c in (48 <=? n)%nat && (n <=? 57)%nat.

(** The characters [\s] and [trim] recognise, restricted to ASCII. *)
Definition is_space (c : ascii) : bool :=
  let n := nat_of_ascii c in
  ((9 <=? n)%nat && (n <=? 13)%nat) || (n =? 32)%nat.

Definition is_char (x c : ascii) : bool := Ascii.eqb x c.

Fixpoint drop_spaces (l : list ascii) : list ascii :=
  match l with
  | c :: l' => if is_space c then drop_spaces l' else l
  | [] => []
  end.

(** [String.prototype.trim] *)
Definition trim (s : string) : string :=
  string_of_list_ascii
    (rev (drop_spaces (rev (drop_spaces (list_ascii_of_string s))))).

(** [String.prototype.split] with a one-character separator. *)
Fixpoint split_chars (sep : ascii) (cur : list ascii) (l : list ascii)
  : list string :=
  match l with
  | [] => [string_of_list_ascii (rev cur)]
  | c :: l' =>
      if Ascii.eqb c sep
      then string_of_list_ascii (rev cur) :: split_chars sep [] l'
      else split_chars sep (c :: cur) l'
  end.

Definition split (sep : ascii) (s : string) : list string :=
  split_chars sep [] (list_ascii_of_string s).

Definition upper_char (c : ascii) : ascii :=
  let n := nat_of_ascii c in
  if (97 <=? n)%nat && (n <=? 122)%nat then ascii_of_nat (n - 32) else c.

(** [String.prototype.toUpperCase] on ASCII letters. *)
Fixpoint toUpperCase (s : string) : string :=
  match s with
  | EmptyString => EmptyString
  | String c s' => String (upper_char c) (toUpperCase s')
  end.

Definition lower_char (c : ascii) : ascii :=
  let n := nat_of_ascii c in
  if (65 <=? n)%nat && (n <=? 90)%nat then ascii_of_nat (n + 32) else c.

(** [String.prototype.toLowerCase] on ASCII letters. *)
Fixpoint toLowerCase (s : string) : string :=
  match s with
  | EmptyString => EmptyString
  | String c s' => String (lower_char c) (toLowerCase s')
  end.

(** [s.replace(/\/$/, '')]: drop one trailing slash. *)
Definition strip_trailing_slash (s : string) : string :=
  match rev (list_ascii_of_string s) with
  | "/"%char :: l => string_of_list_ascii (rev l)
  | _ => s
  end.

Definition is_empty (s : string) : bool :=
  match s with EmptyString => true | _ => false end.

Definition of_nat (n : nat) : string :=
  NilEmpty.string_of_uint (Nat.to_uint n).

Definition digit (n : Z) : ascii := ascii_of_nat (48 + Z.to_nat (n mod 10)).

(** The last [width] decimal digits of [n], zero padded ([padStart]). *)
Fixpoint pad (width : nat) (n : Z) : string :=
  match width with
  | O => EmptyString
  | S w => pad w (n / 10) ++ String (digit n) EmptyString
  end.

Definition digit_value (c : ascii) : Z := Z.of_nat (nat_of_ascii c) - 48.

Fixpoint digits_prefix (acc : option Z) (l : list ascii) : option Z :=
  match l with
  | c :: l' =>
      if is_digit c
      then digits_prefix
             (Some (10 * match acc with Some a => a | None => 0 end
                    + digit_value c)) l'
      else acc
  | [] => acc
  end.

(** [parseInt(s, 10)]: leading white space, an optional sign, then the
    longest run of digits; [None] stands for NaN. *)
Definition parseInt (s : string) : option Z :=
  match drop_spaces (list_ascii_of_string s) with
  | "-"%char :: l => option_map Z.opp (digits_prefix None l)
  | "+"%char :: l => digits_prefix None l
  | l => digits_prefix None l
  end.

End Str.

(** ** Regular expressions without iteration

    Enough for the two patterns of the normalizer; the matcher is the usual
    backtracking one, written with a continuation. *)

Module Regex.

Inductive t : Type :=
| Eps
| Class (p : ascii -> bool)
| Seq (r1 r2 : t)
| Alt (r1 r2 : t).

Fixpoint run (r : t) (l : list ascii) (k : list ascii -> bool) : bool :=
  match r with
  | Eps => k l
  | Class p => match l with c :: l' => p c && k l' | [] => false end
  | Seq r1 r2 => run r1 l (fun l' => run r2 l' k)
  | Alt r1 r2 => run r1 l k || run r2 l k
  end.

Definition at_end (l : list ascii) : bool :=
  match l with [] => true | _ => false end.

(** [/^r$/.test(s)] *)
Definition test (r : t) (s : string) : bool :=
  run r (list_ascii_of_string s) at_end.

Definition d : t := Class Str.is_digit.
Definition s : t := Class Str.is_space.
Definition lit (c : ascii) : t := Class (Str.is_char c).
Definition opt (r : t) : t := Alt r Eps.

Fixpoint seqs (rs : list t) : t :=
  match rs with
  | [] => Eps
  | r :: rs' => Seq r (seqs rs')
  end.

(** [/^\d{4}-\d{2}-\d{2}\s\d{1,2}:\d{2}:\d{2}$/] *)
Definition ist_datetime : t :=
  seqs [d; d; d; d; lit "-"; d; d; lit "-"; d; d; s;
        d; opt d; lit ":"; d; d; lit ":"; d; d].

(** [/^\d{1,2}:\d{2}(?::\d{2})?$/] *)
Definition time_of_day : t :=
  seqs [d; opt d; lit ":"; d; d; opt (seqs [lit ":"; d; d])].

End Regex.

(** ** Numbers and JSON values *)

Local Set Warnings "-register-all".

Inductive JsNum : Type :=
| NaN
| PosInf
| NegInf
| Fin (q : Q).

Inductive JsVal : Type :=
| JUndefined
| JNull
| JBool (b : bool)
| JNum (n : JsNum)
| JStr (s : string)
| JArr (items : list JsVal)
| JObj (fields : list (string * JsVal)).

(** A record is the property table of a plain object. *)
Definition JsRecord : Type := list (string * JsVal).

Fixpoint has_own {A} (key : string) (fields : list (string * A)) : bool :=
  match fields with
  | [] => false
  | (k, _) :: rest => String.eqb k key || has_own key rest
  end.

(** Property read [d.key]: [undefined] when the key is not there. *)
Fixpoint get (key : string) (fields : JsRecord) : JsVal :=
  match fields with
  | [] => JUndefined
  | (k, v) :: rest => if String.eqb k key then v else get key rest
  end.

(** ** What the engine and the machine decide *)

Record Host : Type := {
  (** [Date.parse]: the time value in milliseconds, [None] for NaN. *)
  Date_parse : string -> option Z;
  (** [Number(s)] on a string. *)
  Number_of_string : string -> JsNum;
  (** [Number.prototype.toString]. *)
  Number_toString : JsNum -> string;
  (** Offset of local time from UTC, in milliseconds, at a local time value. *)
  LocalTZA : Z -> Z;
  (** [Date.now()]. *)
  now : Z
}.

(** ** Dates: the ECMAScript time-value arithmetic *)

Module JsDate.

Definition msPerDay : Z := 86400000.
Definition maxTime : Z := 8640000000000000.

(** Day number of a civil date, month in 1..12, day 1 January 1970 is 0. *)
Definition days_from_civil (y m dd : Z) : Z :=
  let y' := if m <=? 2 then y - 1 else y in
  let era := y' / 400 in
  let yoe := y' - era * 400 in
  let mp := (m + 9) mod 12 in
  let doy := (153 * mp + 2) / 5 + dd - 1 in
  let doe := yoe * 365 + yoe / 4 - yoe / 100 + doy in
  era * 146097 + doe - 719468.

(** Civil date (year, month 1..12, day) of a day number. *)
Definition civil_from_days (z : Z) : Z * Z * Z :=
  let z' := z + 719468 in
  let era := z' / 146097 in
  let doe := z' - era * 146097 in
  let yoe := (doe - doe / 1460 + doe / 36524 - doe / 146096) / 365 in
  let y := yoe + era * 400 in
  let doy := doe - (365 * yoe + yoe / 4 - yoe / 100) in
  let mp := (5 * doy + 2) / 153 in
  let dd := doy - (153 * mp + 2) / 5 + 1 in
  let m := if mp <? 10 then mp + 3 else mp - 9 in
  (if m <=? 2 then y + 1 else y, m, dd).

(** [MakeDay(year, month, date)], month counted from 0 and free to
    overflow. *)
Definition MakeDay (year month date : Z) : Z :=
  days_from_civil (year + month / 12) (month mod 12 + 1) 1 + date - 1.

Definition MakeTime (hour minute second ms : Z) : Z :=
  hour * 3600000 + minute * 60000 + second * 1000 + ms.

Definition MakeDate (day time : Z) : Z := day * msPerDay + time.

(** [TimeClip]: a time value out of range is NaN. *)
Definition TimeClip (t : Z) : option Z :=
  if Z.abs t <=? maxTime then Some t else None.

(** Years 0..99 mean 1900..1999 in the constructor and in [Date.UTC]. *)
Definition MakeFullYear (year : Z) : Z :=
  if (0 <=? year) && (year <=? 99) then 1900 + year else year.

Definition components (year month date hour minute second : Z) : Z :=
  MakeDate (MakeDay (MakeFullYear year) month date)
           (MakeTime hour minute second 0).

(** [Date.UTC(year, month, date, hour, minute, second)] *)
Definition UTC (year month date hour minute second : Z) : option Z :=
  TimeClip (components year month date hour minute second).

(** [new Date(year, month, date, hour, minute, second).getTime()]: the
    components are read in the local time zone of the host. *)
Definition local (h : Host) (year month date hour minute second : Z)
  : option Z :=
  let t := components year month date hour minute second in
  TimeClip (t - LocalTZA h t).

Definition year_string (y : Z) : string :=
  if (0 <=? y) && (y <=? 9999) then Str.pad 4 y
  else (if y <? 0 then "-" else "+") ++ Str.pad 6 (Z.abs y).

(** [Date.prototype.toISOString] of a valid time value. *)
Definition toISOString (t : Z) : string :=
  let day := t / msPerDay in
  let r := t mod msPerDay in
  let '(y, m, dd) := civil_from_days day in
  year_string y ++ "-" ++ Str.pad 2 m ++ "-" ++ Str.pad 2 dd ++ "T"
    ++ Str.pad 2 (r / 3600000) ++ ":" ++ Str.pad 2 (r / 60000 mod 60) ++ ":"
    ++ Str.pad 2 (r / 1000 mod 60) ++ "." ++ Str.pad 3 (r mod 1000) ++ "Z".

(** [new Date(n).getTime()] for a number: out of range is NaN, the rest
    is cut to an integer. *)
Definition of_number (n : JsNum) : option Z :=
  match n with
  | Fin q =>
      if Qle_bool (Qabs q) (inject_Z maxTime)
      then Some (if Qle_bool 0 q then Qfloor q else Qceiling q)
      else None
  | _ => None
  end.

(** Midnight UTC of the day of [t] as (year, month from 0, day):
    [setUTCHours(0,0,0,0)] then [getUTCFullYear], [getUTCMonth],
    [getUTCDate]. *)
Definition utc_date (t : Z) : Z * Z * Z :=
  let '(y, m, dd) := civil_from_days (t / msPerDay) in (y, m - 1, dd).

End JsDate.

(** ** String conversion of JSON values *)

Definition bind {A B} (r : Result A) (f : A -> Result B) : Result B :=
  match r with
  | Ok a => f a
  | Threw m => Threw m
  end.

(** The abstract operation [ToString] on a value that came out of
    [JSON.parse].  A plain object is printed by [Object.prototype.toString]
    unless it has an own property named [toString]: that property is never
    callable, [valueOf] gives the object back, and the conversion throws.
    An array is joined with commas, [null] and [undefined] items printing as
    the empty string. *)
Fixpoint ToString (h : Host) (v : JsVal) {struct v} : Result string :=
  match v with
  | JUndefined => Ok "undefined"
  | JNull => Ok "null"
  | JBool b => Ok (if b then "true" else "false")
  | JNum n => Ok (Number_toString h n)
  | JStr s => Ok s
  | JArr items =>
      (fix join (l : list JsVal) : Result string :=
         match l with
         | [] => Ok ""
         | x :: l' =>
             bind (match x with
                   | JUndefined | JNull => Ok ""
                   | _ => ToString h x
                   end)
                  (fun sx =>
                     match l' with
                     | [] => Ok sx
                     | _ => bind (join l') (fun r => Ok (sx ++ "," ++ r))
                     end)
         end) items
  | JObj fields =>
      if has_own "toString" fields
      then Threw "TypeError: Cannot convert object to primitive value"
      else Ok "[object Object]"
  end.

(** The method call [v.toString()]. *)
Definition call_toString (h : Host) (v : JsVal) : Result string :=
  match v with
  | JUndefined | JNull =>
      Threw "TypeError: Cannot read properties of undefined"
  | JObj fields =>
      if has_own "toString" fields
      then Threw "TypeError: candidate.value.toString is not a function"
      else Ok "[object Object]"
  | _ => ToString h v
  end.

(** ** The timestamp normalizer: [parseTradeTimestamp] *)

Module Timestamp.

(** The candidate fields, in the order the source lists them. *)
Definition candidate_keys : list string :=
  [ "FillTime"; "fillTime"; "FILL_TIME";
    "exchangeTimestamp"; "ExchangeTimestamp"; "exchange_timestamp";
    "Exch_Timestamp";
    "TradedTime"; "tradedTime"; "Ttime";
    "OrderTime"; "orderTime"; "OrderCreateTime"; "CreatedTime";
    "UpdatedTime";
    "time"; "Time"; "timestamp"; "Timestamp"; "tradeTime";
    "executionTime" ].

(** [5.5 * 60 * 60 * 1000] *)
Definition istOffsetMs : Z := 19800000.

Definition epoch_iso : string := JsDate.toISOString 0.

(** [parseInt(part, 10)] of a part that may be [undefined]. *)
Definition parseInt_part (part : option string) : option Z :=
  match part with
  | Some s => Str.parseInt s
  | None => None
  end.

(** [new Date(t - offset).toISOString()] inside a [try]: [None] when the
    date is invalid and [toISOString] raises a RangeError. *)
Definition shifted_iso (t : option Z) : option string :=
  match t with
  | Some ms => option_map JsDate.toISOString
                 (JsDate.TimeClip (ms - istOffsetMs))
  | None => None
  end.

(** First format, [YYYY-MM-DD HH:MM:SS].  [None] means that control
    leaves the [if] without returning: the pattern does not match, or an
    exception was caught. *)
Definition parse_ist (h : Host) (val : string) : option string :=
  if Regex.test Regex.ist_datetime val then
    let parts := Str.split " " val in
    match nth_error parts 0, nth_error parts 1 with
    | Some datePart, Some timePart =>
        let dp := Str.split "-" datePart in
        let tp := Str.split ":" timePart in
        match parseInt_part (nth_error dp 0), parseInt_part (nth_error dp 1),
              parseInt_part (nth_error dp 2), parseInt_part (nth_error tp 0),
              parseInt_part (nth_error tp 1), parseInt_part (nth_error tp 2)
        with
        | Some year, Some month, Some day,
          Some hour, Some minute, Some second =>
            shifted_iso (JsDate.local h year (month - 1) day
                                      hour minute second)
        | _, _, _, _, _, _ => None
        end
    | _, _ => None
    end
  else None.

(** Second format: whatever [new Date(val)] accepts. *)
Definition parse_date (h : Host) (val : string) : option string :=
  option_map JsDate.toISOString (Date_parse h val).

(** [num > 9999999999 ? num : num * 1000] *)
Definition unix_ms (num : JsNum) : JsNum :=
  match num with
  | Fin q => if Qle_bool q 9999999999 then Fin (q * 1000) else Fin q
  | other => other
  end.

Definition positive (num : JsNum) : bool :=
  match num with
  | Fin q => negb (Qle_bool q 0)
  | PosInf => true
  | NaN | NegInf => false
  end.

(** Third format: a Unix time in seconds or milliseconds. *)
Definition parse_unix (h : Host) (val : string) : option string :=
  let num := Number_of_string h val in
  if positive num
  then option_map JsDate.toISOString (JsDate.of_number (unix_ms num))
  else None.

(** Fourth format: a time of day on the current UTC date. *)
Definition parse_time_of_day (h : Host) (val : string) : option string :=
  if Regex.test Regex.time_of_day val then
    let '(y, m, dd) := JsDate.utc_date (now h) in
    let parts := Str.split ":" val in
    let third := match nth_error parts 2 with
                 | Some s => if Str.is_empty s then "0" else s
                 | None => "0"
                 end in
    match parseInt_part (nth_error parts 0),
          parseInt_part (nth_error parts 1), Str.parseInt third with
    | Some hour, Some minute, Some second =>
        shifted_iso (JsDate.UTC y m dd hour minute second)
    | _, _, _ => None
    end
  else None.

Definition first_some {A} (a b : option A) : option A :=
  match a with Some _ => a | None => b end.

(** The four formats in the order of the loop body. *)
Definition parse_value (h : Host) (val : string) : option string :=
  first_some (parse_ist h val)
    (first_some (parse_date h val)
       (first_some (parse_unix h val) (parse_time_of_day h val))).

Inductive Attempt : Type :=
| Parsed (iso : string)
| Skipped
| Raised (message : string).

(** One turn of the loop over the candidates. *)
Definition try_candidate (h : Host) (value : JsVal) : Attempt :=
  match value with
  | JNull | JUndefined => Skipped
  | JStr EmptyString => Skipped
  | _ =>
      match call_toString h value with
      | Threw m => Raised m
      | Ok s =>
          let val := Str.trim s in
          if Str.is_empty val then Skipped
          else match parse_value h val with
               | Some iso => Parsed iso
               | None => Skipped
               end
      end
  end.

Fixpoint scan (h : Host) (d : JsRecord) (keys : list string)
  : Result (option string) :=
  match keys with
  | [] => Ok None
  | key :: rest =>
      match try_candidate h (get key d) with
      | Parsed iso => Ok (Some iso)
      | Raised m => Threw m
      | Skipped => scan h d rest
      end
  end.

(** [if (fallbackTime)] *)
Definition truthy_string (s : option string) : bool :=
  match s with
  | Some s' => negb (Str.is_empty s')
  | None => false
  end.

Definition parseTradeTimestamp (h : Host) (d : JsRecord)
           (fallbackTime : option string) : Result string :=
  bind (scan h d candidate_keys)
       (fun found =>
          match found with
          | Some iso => Ok iso
          | None =>
              match fallbackTime with
              | Some fb => if truthy_string fallbackTime then Ok fb
                           else Ok epoch_iso
              | None => Ok epoch_iso
              end
          end).

End Timestamp.

(** ** Truthiness *)

Definition truthy (v : JsVal) : bool :=
  match v with
  | JUndefined | JNull => false
  | JBool b => b
  | JNum NaN => false
  | JNum (Fin q) => negb (Qeq_bool q 0)
  | JNum _ => true
  | JStr s => negb (Str.is_empty s)
  | JArr _ | JObj _ => true
  end.

(** An optional string or number as a condition: absent, empty and zero are
    false. *)
Definition truthy_str (s : option string) : bool :=
  match s with Some s' => negb (Str.is_empty s') | None => false end.

Definition truthy_num (q : option Q) : bool :=
  match q with Some q' => negb (Qeq_bool q' 0) | None => false end.

(** [a || b] on optional strings. *)
Definition or_str (a b : option string) : option string :=
  if truthy_str a then a else b.

(** Optional property read [v?.key]. *)
Definition get_opt (key : string) (v : JsVal) : JsVal :=
  match v with
  | JObj fields => get key fields
  | _ => JUndefined
  end.

(** ** The network: requests, responses and the history of events *)

Inductive Auth : Type :=
| Bearer (token : string)
| Basic (apiKey apiSecret : string)
| Hmac (apiKey apiSecret : string)
| ApiKeyHeaders (apiKey apiSecret : string).

(** The order as it is put in the request body. *)
Record OrderBody : Type := {
  ob_symbol : string;
  ob_transactionType : string;
  ob_quantity : Z;
  ob_orderType : string;
  ob_price : Q
}.

Record Request : Type := {
  req_url : string;
  req_method : string;
  req_auth : option Auth;
  req_body : option OrderBody
}.

Record Response : Type := {
  res_status : nat;
  (** [res.text()] *)
  res_text : Result string;
  (** [res.json()] *)
  res_json : Result JsVal
}.

Inductive FetchOutcome : Type :=
| Responded (res : Response)
| Rejected (message : string).

Inductive Query : Type :=
| SelectFollowerById (followerId : string)
| SelectFollowersIn (ids : list string)
| SelectActiveFollowers
| SelectCopied (tradeId followerId : string)
| InsertCopied (tradeId followerId : string)
| InsertCopyTrade (logId : string).

(** What a run does to the outside, newest first. *)
Inductive Event : Type :=
| EvFetch (req : Request)
| EvSleep (ms : nat)
| EvQuery (q : Query)
| EvPushOrder (followerId : string) (quantity : Z).

(** Process environment, token file and the network.  The network answers
    from the whole history, so nothing is assumed about it. *)
Record Env : Type := {
  ALICE_ORDER_ENDPOINT : option string;
  ALICE_API_BASE_URL : option string;
  ALICE_API_KEY : option string;
  ALICE_API_SECRET : option string;
  ALICE_AUTH_METHOD : option string;
  (** [getAccountToken] *)
  getAccountToken : string -> option string;
  (** [fetch(url, options)] after the given history. *)
  fetch : list Event -> Request -> FetchOutcome
}.

(** ** The retrying client: [fetchWithRetry] *)

Module Retry.

Definition default_retries : nat := 3.
Definition default_backoff : nat := 500.

(** [res.ok] *)
Definition res_ok (res : Response) : bool :=
  ((200 <=? res_status res) && (res_status res <=? 299))%nat.

(** [await res.text().catch(() => '')] *)
Definition body_text (res : Response) : string :=
  match res_text res with Ok t => t | Threw _ => "" end.

(** The message of [new Error(`HTTP ${res.status}: ${text}`)]. *)
Definition http_error (res : Response) : string :=
  "HTTP " ++ Str.of_nat (res_status res) ++ ": " ++ body_text res.

(** What one fetch is worth to the loop: the response, or the error the
    [try] block raises. *)
Definition verdict (out : FetchOutcome) : Result Response :=
  match out with
  | Responded res => if res_ok res then Ok res else Threw (http_error res)
  | Rejected m => Threw m
  end.

(** [backoff * Math.pow(2, attempt)] *)
Definition delay (backoff attempt : nat) : nat :=
  (backoff * 2 ^ attempt)%nat.

Section Loop.
Variable env : Env.
Variable req : Request.
Variables retries backoff : nat.

(** The [while] loop from the state [attempt], at most [fuel] turns;
    [None] when the turns run out. *)
Fixpoint loop (fuel attempt : nat) (tr : list Event)
  : option (Result Response * list Event) :=
  match fuel with
  | O => None
  | S fuel' =>
      if (attempt <=? retries)%nat then
        let tr1 := EvFetch req :: tr in
        match verdict (fetch env tr req) with
        | Ok res => Some (Ok res, tr1)
        | Threw err =>
            if (attempt =? retries)%nat then Some (Threw err, tr1)
            else loop fuel' (S attempt)
                      (EvSleep (delay backoff attempt) :: tr1)
        end
      else Some (Threw "Unreachable", tr)
  end.

End Loop.

(** The client.  The loop is given [retries + 2] turns and stops before
    they run out, whatever the network does. *)
Definition fetchWithRetry (env : Env) (req : Request)
           (retries backoff : nat) (tr : list Event)
  : Result Response * list Event :=
  match loop env req retries backoff (retries + 2) 0 tr with
  | Some r => r
  | None => (Threw "Unreachable", tr)
  end.

End Retry.

(** ** Order placement: [buildAuthHeaders] and [pushOrderToAccount] *)

Module Broker.

(** The order object the endpoint hands over. *)
Record Order : Type := {
  o_symbol : string;
  o_side : string;
  o_quantity : Z;
  o_price : Q;
  o_productType : string;
  o_orderType : string
}.

Record FollowerAuth : Type := {
  fa_apiKey : option string;
  fa_clientId : option string
}.

Definition str_or_empty (s : option string) : string :=
  match s with Some s' => s' | None => "" end.

Definition buildAuthHeaders (apiKey apiSecret : string)
           (method : option string) (bearerToken : option string) : Auth :=
  if truthy_str bearerToken then Bearer (str_or_empty bearerToken)
  else
    let authMethod :=
      Str.toLowerCase (str_or_empty (or_str method (Some "headers"))) in
    if String.eqb authMethod "basic" then Basic apiKey apiSecret
    else if String.eqb authMethod "hmac" then Hmac apiKey apiSecret
    else ApiKeyHeaders apiKey apiSecret.

Definition orderEndpoint (env : Env) : option string :=
  or_str (ALICE_ORDER_ENDPOINT env)
         (if truthy_str (ALICE_API_BASE_URL env)
          then Some (Str.strip_trailing_slash
                       (str_or_empty (ALICE_API_BASE_URL env)) ++ "/orders")
          else None).

Definition order_body (order : Order) : OrderBody :=
  {| ob_symbol := o_symbol order;
     ob_transactionType :=
       if String.eqb
            (Str.toUpperCase
               (str_or_empty (or_str (Some (o_side order)) (Some "Buy"))))
            "SELL"
       then "SELL" else "BUY";
     ob_quantity := o_quantity order;
     (* [order.type] is not a field of the object handed over *)
     ob_orderType := Str.toUpperCase "Market";
     ob_price := o_price order |}.

(** [getAccountToken(accountId)], which answers nothing for an empty id. *)
Definition account_token (env : Env) (accountId : string) : option string :=
  if Str.is_empty accountId then None else getAccountToken env accountId.

Definition pushOrderToAccount (env : Env) (accountId : string)
           (order : Order) (follower : FollowerAuth) (tr : list Event)
  : Result JsVal * list Event :=
  match orderEndpoint env with
  | None => (Threw "ALICE_ORDER_ENDPOINT not configured", tr)
  | Some endpoint =>
      if Str.is_empty endpoint
      then (Threw "ALICE_ORDER_ENDPOINT not configured", tr)
      else
        let token := account_token env accountId in
        let apiKey :=
          str_or_empty (or_str (fa_apiKey follower)
                               (or_str (ALICE_API_KEY env) (Some ""))) in
        let apiSecret :=
          str_or_empty (or_str (fa_clientId follower)
                               (or_str (ALICE_API_SECRET env) (Some ""))) in
        let headers :=
          buildAuthHeaders apiKey apiSecret (ALICE_AUTH_METHOD env) token in
        let req := {| req_url := endpoint; req_method := "POST";
                      req_auth := Some headers;
                      req_body := Some (order_body order) |} in
        match Retry.fetchWithRetry env req Retry.default_retries
                                   Retry.default_backoff tr with
        | (Ok res, tr') =>
            (Ok (match res_json res with
                 | Ok parsed => parsed
                 | Threw _ => JObj []
                 end), tr')
        | (Threw m, tr') => (Threw m, tr')
        end
  end.

End Broker.

(** ** De-duplication of a mapped batch *)

Module Batch.

(** The canonical trade, as far as both consumers read it. *)
Record Trade : Type := {
  id : string;
  timestamp : string;
  account : string;
  symbol : string;
  side : string;
  quantity : Q;
  price : Q;
  status : string
}.

Definition has (seen : list string) (key : string) : bool :=
  existsb (String.eqb key) seen.

(** [getMasterTrades]: [mapped.filter] against the [seen] set. *)
Fixpoint filter_seen (seen : list string) (mapped : list Trade)
  : list Trade :=
  match mapped with
  | [] => []
  | trade :: rest =>
      if has seen (id trade) then filter_seen seen rest
      else trade :: filter_seen (id trade :: seen) rest
  end.

Definition deduped (mapped : list Trade) : list Trade :=
  filter_seen [] mapped.

(** [Map.prototype.set]: a new key goes last, an old key keeps its place
    and takes the new value. *)
Fixpoint map_set (key : string) (value : Trade)
         (m : list (string * Trade)) : list (string * Trade) :=
  match m with
  | [] => [(key, value)]
  | (k, v) :: m' =>
      if String.eqb k key then (k, value) :: m'
      else (k, v) :: map_set key value m'
  end.

(** [for (const trade of mapped) uniqueMap.set(trade.id, trade)] *)
Definition uniqueMap (mapped : list Trade) : list (string * Trade) :=
  fold_left (fun m trade => map_set (id trade) trade m) mapped [].

(** [new Date(ts).getTime()], [None] for NaN. *)
Definition getTime (h : Host) (trade : Trade) : option Z :=
  Date_parse h (timestamp trade).

(** The comparator [(a, b) => time(b) - time(a)]; a NaN difference counts
    as zero. *)
Definition compare_desc (h : Host) (a b : Trade) : Z :=
  match getTime h b, getTime h a with
  | Some tb, Some ta => tb - ta
  | _, _ => 0
  end.

(** [Array.prototype.sort] as the stable insertion sort. *)
Fixpoint insert (cmp : Trade -> Trade -> Z) (x : Trade) (l : list Trade)
  : list Trade :=
  match l with
  | [] => [x]
  | y :: l' => if cmp x y <=? 0 then x :: l else y :: insert cmp x l'
  end.

Fixpoint sort (cmp : Trade -> Trade -> Z) (l : list Trade) : list Trade :=
  match l with
  | [] => []
  | x :: l' => insert cmp x (sort cmp l')
  end.

(** [fetchTrades]: the list handed to [setMasterTrades]. *)
Definition sorted (h : Host) (mapped : list Trade) : list Trade :=
  sort (compare_desc h) (map snd (uniqueMap mapped)).

End Batch.

(** ** The fan-out endpoint: [POST /api/followers/execute-copy-trade]

    The handler at requests of the shape the client sends and over a store
    whose [query] hands back the rows it selects.  The pool of [lib/db.ts]
    hands back the pair [[rows, fields]] instead: the handler over that
    pool is [Route], further down, and what is said about its loop is said
    there. *)

Module FanOut.

(** A row of [followers LEFT JOIN follower_credentials]. *)
Record Follower : Type := {
  id : string;
  follower_name : string;
  status : string;
  client_id : option string;
  api_key : option string;
  lot_multiplier : option Q;
  max_order_quantity : option Z;
  copy_trading_enabled : option bool
}.

(** A row of [copied_trade_history]. *)
Record Copied : Type := {
  master_trade_id : string;
  follower_id : string;
  c_symbol : string;
  c_side : string;
  c_master_qty : Q;
  c_follower_qty : Z;
  c_price : Q
}.

Inductive Status : Type := SUCCESS | FAILED | SKIPPED.

(** A row of [copy_trades]. *)
Record CopyTrade : Type := {
  t_id : string;
  t_master_id : string;
  t_follower_id : string;
  t_symbol : string;
  t_side : string;
  t_master_qty : Q;
  t_follower_qty : Z;
  t_price : Q;
  t_status : Status;
  t_reason : option JsVal
}.

(** The store and the history; tables list their newest row first. *)
Record World : Type := {
  followers : list Follower;
  copied_trade_history : list Copied;
  copy_trades : list CopyTrade;
  trace : list Event
}.

(** The request body, at the shape the client sends it; [None] is an
    absent field. *)
Record Body : Type := {
  masterId : option string;
  followerId : option string;
  listenerFollowers : option (list string);
  symbol : option string;
  side : option string;
  masterQty : option Q;
  price : option Q;
  productType : option string;
  orderType : option string;
  tradeId : option string
}.

Record FollowerResult : Type := {
  r_followerId : string;
  r_followerName : string;
  r_status : Status;
  r_reason : option JsVal;
  r_followerQty : option Z;
  r_orderId : option JsVal
}.

Record Summary : Type := {
  successCount : nat;
  failedCount : nat;
  skippedDuplicateCount : nat;
  totalFollowers : nat
}.

Record HttpResponse : Type := {
  http_status : nat;
  ok : bool;
  message : string;
  copyTradeId : option string;
  masterTradeId : option string;
  results : list FollowerResult;
  summary : option Summary
}.

Definition missing_fields : string :=
  "Missing required trade fields: symbol, side, masterQty, price".
Definition missing_tradeId : string :=
  "Missing tradeId - required to prevent duplicate copies".
Definition no_followers : string :=
  "No active followers found for copy trading".
Definition duplicate_reason : string :=
  "Trade already copied to this follower (duplicate prevention)".
Definition too_small_reason : string :=
  "Quantity too small after multiplier".
Definition push_failed_reason : string := "Failed to push order".

Definition reject (code : nat) (msg : string) : HttpResponse :=
  {| http_status := code; ok := false; message := msg;
     copyTradeId := None; masterTradeId := None;
     results := []; summary := None |}.

Definition log (e : Event) (w : World) : World :=
  {| followers := followers w;
     copied_trade_history := copied_trade_history w;
     copy_trades := copy_trades w;
     trace := e :: trace w |}.

Definition with_trace (tr : list Event) (w : World) : World :=
  {| followers := followers w;
     copied_trade_history := copied_trade_history w;
     copy_trades := copy_trades w;
     trace := tr |}.

Definition enabled (f : Follower) : bool :=
  match copy_trading_enabled f with Some true => true | _ => false end.

(** The three [SELECT]s over the joined follower rows. *)
Definition select_followers (body : Body) (w : World)
  : list Follower * World :=
  if truthy_str (followerId body) then
    let fid := Broker.str_or_empty (followerId body) in
    (filter (fun f => String.eqb (id f) fid && enabled f) (followers w),
     log (EvQuery (SelectFollowerById fid)) w)
  else
    match listenerFollowers body with
    | Some ids =>
        (filter (fun f => existsb (String.eqb (id f)) ids && enabled f)
                (followers w),
         log (EvQuery (SelectFollowersIn ids)) w)
    | None =>
        (filter (fun f => String.eqb (status f) "active" && enabled f)
                (followers w),
         log (EvQuery SelectActiveFollowers) w)
    end.

(** [SELECT id FROM copied_trade_history WHERE master_trade_id = ? AND
    follower_id = ?] *)
Definition matches (trade fid : string) (row : Copied) : bool :=
  String.eqb (master_trade_id row) trade && String.eqb (follower_id row) fid.

Definition existingCopy (trade fid : string) (w : World) : list Copied :=
  filter (matches trade fid) (copied_trade_history w).

(** [follower.lot_multiplier || 1] *)
Definition lotMultiplier (f : Follower) : Q :=
  if truthy_num (lot_multiplier f)
  then match lot_multiplier f with Some m => m | None => 1 end
  else 1.

(** [follower.max_order_quantity || 1000] *)
Definition maxQty (f : Follower) : Z :=
  match max_order_quantity f with
  | Some c => if c =? 0 then 1000 else c
  | None => 1000
  end.

(** The quantity after [Math.floor] and the cap. *)
Definition followerQty (master : Q) (f : Follower) : Z :=
  let q := Qfloor (master * lotMultiplier f) in
  if maxQty f <? q then maxQty f else q.

(** The validated fields of the request. *)
Record Trade : Type := {
  tr_masterId : string;
  tr_symbol : string;
  tr_side : string;
  tr_masterQty : Q;
  tr_price : Q;
  tr_productType : string;
  tr_orderType : string;
  tr_tradeId : string
}.

Definition skip (f : Follower) (why : string) : FollowerResult :=
  {| r_followerId := id f; r_followerName := follower_name f;
     r_status := SKIPPED; r_reason := Some (JStr why);
     r_followerQty := None; r_orderId := None |}.

Definition failure (f : Follower) (why : JsVal) : FollowerResult :=
  {| r_followerId := id f; r_followerName := follower_name f;
     r_status := FAILED; r_reason := Some why;
     r_followerQty := None; r_orderId := None |}.

Definition success (f : Follower) (qty : Z) (order_id : JsVal)
  : FollowerResult :=
  {| r_followerId := id f; r_followerName := follower_name f;
     r_status := SUCCESS; r_reason := None;
     r_followerQty := Some qty; r_orderId := Some order_id |}.

Definition copy_log (nonce : string) (t : Trade) (f : Follower)
           (qty : Z) (st : Status) (why : option JsVal) : CopyTrade :=
  {| t_id := nonce ++ "_" ++ id f;
     t_master_id := tr_masterId t;
     t_follower_id := id f;
     t_symbol := Str.toUpperCase (tr_symbol t);
     t_side := Str.toUpperCase (tr_side t);
     t_master_qty := tr_masterQty t;
     t_follower_qty := qty;
     t_price := tr_price t;
     t_status := st;
     t_reason := why |}.

Definition insert_copy_trade (row : CopyTrade) (w : World) : World :=
  {| followers := followers w;
     copied_trade_history := copied_trade_history w;
     copy_trades := row :: copy_trades w;
     trace := EvQuery (InsertCopyTrade (t_id row)) :: trace w |}.

Definition insert_copied (row : Copied) (w : World) : World :=
  {| followers := followers w;
     copied_trade_history := row :: copied_trade_history w;
     copy_trades := copy_trades w;
     trace := EvQuery (InsertCopied (master_trade_id row) (follower_id row))
                :: trace w |}.

(** [orderResponse?.error || 'Failed to push order'] *)
Definition failure_reason (orderResponse : JsVal) : JsVal :=
  if truthy (get_opt "error" orderResponse)
  then get_opt "error" orderResponse
  else JStr push_failed_reason.

(** [orderResponse?.ok || orderResponse?.order_id] *)
Definition accepted (orderResponse : JsVal) : bool :=
  truthy (get_opt "ok" orderResponse)
  || truthy (get_opt "order_id" orderResponse).

(** The call [pushOrderToAccount(symbol, {...}, {apiKey, clientId})] of
    the loop body; the history records for which follower it is made. *)
Definition place_order (env : Env) (t : Trade) (f : Follower) (qty : Z)
           (w : World) : Result JsVal * World :=
  let order :=
    {| Broker.o_symbol := tr_symbol t;
       Broker.o_side := Str.toUpperCase (tr_side t);
       Broker.o_quantity := qty;
       Broker.o_price := tr_price t;
       Broker.o_productType := tr_productType t;
       Broker.o_orderType := tr_orderType t |} in
  let auth := {| Broker.fa_apiKey := api_key f;
                 Broker.fa_clientId := client_id f |} in
  let w' := log (EvPushOrder (id f) qty) w in
  let '(answer, tr') :=
    Broker.pushOrderToAccount env (tr_symbol t) order auth (trace w') in
  (answer, with_trace tr' w').

Definition copied_row (t : Trade) (f : Follower) (qty : Z) : Copied :=
  {| master_trade_id := tr_tradeId t;
     follower_id := id f;
     c_symbol := Str.toUpperCase (tr_symbol t);
     c_side := Str.toUpperCase (tr_side t);
     c_master_qty := tr_masterQty t;
     c_follower_qty := qty;
     c_price := tr_price t |}.

(** The body of the loop for one follower, its [try] and its [catch]. *)
Definition process_follower (env : Env) (nonce : string) (t : Trade)
           (f : Follower) (w : World) : FollowerResult * World :=
  let w1 := log (EvQuery (SelectCopied (tr_tradeId t) (id f))) w in
  match existingCopy (tr_tradeId t) (id f) w1 with
  | _ :: _ => (skip f duplicate_reason, w1)
  | [] =>
      let qty := followerQty (tr_masterQty t) f in
      if qty =? 0 then (skip f too_small_reason, w1)
      else
        match place_order env t f qty w1 with
        | (Ok orderResponse, w2) =>
            if accepted orderResponse then
              (success f qty (get_opt "order_id" orderResponse),
               insert_copy_trade
                 (copy_log nonce t f qty SUCCESS None)
                 (insert_copied (copied_row t f qty) w2))
            else
              (failure f (failure_reason orderResponse),
               insert_copy_trade
                 (copy_log nonce t f 0 FAILED
                           (Some (failure_reason orderResponse))) w2)
        | (Threw msg, w2) =>
            (failure f (JStr msg),
             insert_copy_trade
               (copy_log nonce t f 0 FAILED (Some (JStr msg))) w2)
        end
  end.

(** The accumulators of the loop. *)
Record Acc : Type := {
  a_results : list FollowerResult;
  a_success : nat;
  a_skipped : nat;
  a_failed : nat
}.

Definition acc0 : Acc :=
  {| a_results := []; a_success := 0; a_skipped := 0; a_failed := 0 |}.

(** [results.push(r)] and the counter that goes with its status. *)
Definition push (acc : Acc) (r : FollowerResult) : Acc :=
  {| a_results := a_results acc ++ [r];
     a_success := match r_status r with
                  | SUCCESS => S (a_success acc) | _ => a_success acc end;
     a_skipped := match r_status r with
                  | SKIPPED => S (a_skipped acc) | _ => a_skipped acc end;
     a_failed := match r_status r with
                 | FAILED => S (a_failed acc) | _ => a_failed acc end |}.

(** [for (const follower of followers)] *)
Fixpoint run (env : Env) (nonce : string) (t : Trade)
         (fs : list Follower) (acc : Acc) (w : World) : Acc * World :=
  match fs with
  | [] => (acc, w)
  | f :: rest =>
      let '(r, w') := process_follower env nonce t f w in
      run env nonce t rest (push acc r) w'
  end.

Definition default (d : string) (s : option string) : string :=
  match s with Some s' => s' | None => d end.

Definition done_message (acc : Acc) : string :=
  "Copy trade executed: " ++ Str.of_nat (a_success acc) ++ " successful, "
    ++ Str.of_nat (a_skipped acc) ++ " skipped (already copied), "
    ++ Str.of_nat (a_failed acc) ++ " failed".

(** The two presence checks that open the handler; the fields are read
    by their truth value. *)
Definition validate (body : Body) : string + Trade :=
  match symbol body, side body, masterQty body, price body with
  | Some sym, Some sd, Some qty, Some prc =>
      if negb (truthy_str (symbol body)) || negb (truthy_str (side body))
         || negb (truthy_num (masterQty body))
         || negb (truthy_num (price body))
      then inl missing_fields
      else
        match tradeId body with
        | None => inl missing_tradeId
        | Some tid =>
            if Str.is_empty tid then inl missing_tradeId
            else inr {| tr_masterId :=
                          default "master_account" (masterId body);
                        tr_symbol := sym; tr_side := sd;
                        tr_masterQty := qty; tr_price := prc;
                        tr_productType := default "MIS" (productType body);
                        tr_orderType :=
                          default "REGULAR" (orderType body);
                        tr_tradeId := tid |}
        end
  | _, _, _, _ => inl missing_fields
  end.

Definition report (nonce : string) (t : Trade) (total : nat)
           (acc : Acc) : HttpResponse :=
  {| http_status := 200; ok := true;
     message := done_message acc;
     copyTradeId := Some nonce;
     masterTradeId := Some (tr_tradeId t);
     results := a_results acc;
     summary := Some {| successCount := a_success acc;
                        failedCount := a_failed acc;
                        skippedDuplicateCount := a_skipped acc;
                        totalFollowers := total |} |}.

(** The handler.  [nonce] is the identifier the handler draws from the
    clock and the random generator.  [getDatabase] hands over the pool
    itself, so the check of its result never fires; the store answers
    every query, so the outer [catch] is not entered. *)
Definition POST (env : Env) (nonce : string) (body : Body) (w : World)
  : HttpResponse * World :=
  match validate body with
  | inl msg => (reject 400 msg, w)
  | inr t =>
      let '(fs, w1) := select_followers body w in
      match fs with
      | [] => (reject 400 no_followers, w1)
      | _ :: _ =>
          let '(acc, w2) := run env nonce t fs acc0 w1 in
          (report nonce t (List.length fs) acc, w2)
      end
  end.

End FanOut.

(** ** Predicates the statements use *)

(** A value [JSON.parse] can produce that converts to a string without
    raising: no object in it, reached through arrays, carries an own
    property named [toString]. *)
Fixpoint printable (v : JsVal) : bool :=
  match v with
  | JArr items =>
      (fix all (l : list JsVal) : bool :=
         match l with
         | [] => true
         | x :: l' => printable x && all l'
         end) items
  | JObj fields => negb (has_own "toString" fields)
  | _ => true
  end.

(** No format of the normalizer accepts the text. *)
Definition no_format_accepts (h : Host) (val : string) : Prop :=
  Timestamp.parse_ist h val = None
  /\ Timestamp.parse_date h val = None
  /\ Timestamp.parse_unix h val = None
  /\ Timestamp.parse_time_of_day h val = None.

(** A candidate value that does not parse: it is not there, or its text is
    blank, or its text is refused by the four formats. *)
Definition unparsed (h : Host) (v : JsVal) : Prop :=
  v = JUndefined \/ v = JNull
  \/ exists s, call_toString h v = Ok s
               /\ (Str.trim s = "" \/ no_format_accepts h (Str.trim s)).

(** The host [h] moved to a zone at a fixed offset from UTC. *)
Definition in_zone (offset : Z) (h : Host) : Host :=
  {| Date_parse := Date_parse h;
     Number_of_string := Number_of_string h;
     Number_toString := Number_toString h;
     LocalTZA := fun _ => offset;
     now := now h |}.

(** A host whose engine accepts no free-form date and no number. *)
Definition strict_host : Host :=
  {| Date_parse := fun _ => None;
     Number_of_string := fun _ => NaN;
     Number_toString := fun _ => "0";
     LocalTZA := fun _ => 0;
     now := 1707565845000 |}.

Definition fill_time_record : JsRecord :=
  [("FillTime", JStr "2024-02-10 14:30:45")].

Definition shadowed_record : JsRecord :=
  [("FillTime", JObj [("toString", JNull)])].


(** The history just before attempt [k] of a call that started after [tr]:
    every earlier attempt left a fetch and the pause that followed it. *)
Fixpoint history (req : Request) (backoff : nat) (tr : list Event) (k : nat)
  : list Event :=
  match k with
  | O => tr
  | S k' =>
      EvSleep (Retry.delay backoff k') :: EvFetch req
              :: history req backoff tr k'
  end.

Definition is_fetch (e : Event) : bool :=
  match e with EvFetch _ => true | _ => false end.

Definition count_fetches (tr : list Event) : nat :=
  List.length (filter is_fetch tr).

(** The pauses of a history, oldest first. *)
Definition pauses (tr : list Event) : list nat :=
  rev (flat_map (fun e => match e with EvSleep ms => [ms] | _ => [] end) tr).

Definition server_error : Response :=
  {| res_status := 500; res_text := Ok "down"; res_json := Threw "no body" |}.

(** An environment whose broker endpoint answers 500 to everything. *)
Definition down_env : Env :=
  {| ALICE_ORDER_ENDPOINT := Some "https://broker.test/orders";
     ALICE_API_BASE_URL := None;
     ALICE_API_KEY := None;
     ALICE_API_SECRET := None;
     ALICE_AUTH_METHOD := None;
     getAccountToken := fun _ => None;
     fetch := fun _ _ => Responded server_error |}.

Definition ping : Request :=
  {| req_url := "https://broker.test/orders"; req_method := "GET";
     req_auth := None; req_body := None |}.

(** Induction on JSON values that reaches the items of an array. *)
Section NestedInduction.

Variable P : JsVal -> Prop.
Hypothesis P_undefined : P JUndefined.
Hypothesis P_null : P JNull.
Hypothesis P_bool : forall b, P (JBool b).
Hypothesis P_num : forall n, P (JNum n).
Hypothesis P_str : forall s, P (JStr s).
Hypothesis P_arr : forall items, Forall P items -> P (JArr items).
Hypothesis P_obj : forall fields, P (JObj fields).

Fixpoint JsVal_nested_ind (v : JsVal) : P v :=
  match v with
  | JUndefined => P_undefined
  | JNull => P_null
  | JBool b => P_bool b
  | JNum n => P_num n
  | JStr s => P_str s
  | JArr items =>
      P_arr items
            ((fix all (l : list JsVal) : Forall P l :=
                match l with
                | [] => Forall_nil P
                | x :: l' => Forall_cons x (JsVal_nested_ind x) (all l')
                end) items)
  | JObj fields => P_obj fields
  end.

End NestedInduction.

(** ** Predicates on batches *)

Definition with_id (k : string) (t : Batch.Trade) : bool :=
  String.eqb (Batch.id t) k.

(** The first, and the last, record of a batch that carries an identifier. *)
Definition first_with (k : string) (l : list Batch.Trade)
  : option Batch.Trade := find (with_id k) l.

Definition last_with (k : string) (l : list Batch.Trade)
  : option Batch.Trade := find (with_id k) (rev l).

(** [a] was executed no earlier than [b]; both timestamps are read. *)
Definition not_older (h : Host) (a b : Batch.Trade) : Prop :=
  exists ta tb, Batch.getTime h a = Some ta /\ Batch.getTime h b = Some tb
                /\ tb <= ta.

Definition newest_first (h : Host) (l : list Batch.Trade) : Prop :=
  StronglySorted (not_older h) l.

(** The timestamp of the trade is one the host reads. *)
Definition readable (h : Host) (t : Batch.Trade) : Prop :=
  Batch.getTime h t <> None.

(** Lookup in the map of [fetchTrades], and the fact that every record sits
    under its own identifier. *)
Definition assoc (k : string) (m : list (string * Batch.Trade))
  : option Batch.Trade :=
  option_map snd (find (fun p => String.eqb (fst p) k) m).

Definition well_keyed (m : list (string * Batch.Trade)) : Prop :=
  Forall (fun p => Batch.id (snd p) = fst p) m.

(** [l] is [m] with some records left out, the order kept. *)
Inductive kept_in_order : list Batch.Trade -> list Batch.Trade -> Prop :=
| kept_nil : kept_in_order [] []
| kept_take t l m : kept_in_order l m -> kept_in_order (t :: l) (t :: m)
| kept_drop t l m : kept_in_order l m -> kept_in_order l (t :: m).

(** A host that reads two instants and nothing else. *)
Definition two_instant_host : Host :=
  {| Date_parse := fun s =>
       if String.eqb s "2024-02-10T09:00:45.000Z" then Some 1707555645000
       else if String.eqb s "2024-02-11T09:00:45.000Z"
            then Some 1707642045000
            else None;
     Number_of_string := fun _ => NaN;
     Number_toString := fun _ => "0";
     LocalTZA := fun _ => 0;
     now := 1707700000000 |}.

Definition trade_at (ident ts : string) (prc : Q) : Batch.Trade :=
  {| Batch.id := ident; Batch.timestamp := ts; Batch.account := "Master";
     Batch.symbol := "INFY"; Batch.side := "Buy"; Batch.quantity := 10;
     Batch.price := prc; Batch.status := "Filled" |}.

(** Two trades, the older one first. *)
Definition older_first : list Batch.Trade :=
  [trade_at "T1" "2024-02-10T09:00:45.000Z" 100;
   trade_at "T2" "2024-02-11T09:00:45.000Z" 100].

(** One identifier twice, with different prices. *)
Definition repeated : list Batch.Trade :=
  [trade_at "T1" "2024-02-10T09:00:45.000Z" 100;
   trade_at "T1" "2024-02-10T09:00:45.000Z" 101].

(** ** Predicates on histories *)

(** The events the retrying client adds to a history. *)
Definition net_event (e : Event) : Prop :=
  match e with
  | EvFetch _ | EvSleep _ => True
  | _ => False
  end.

(** ** Followers, requests and brokers used in examples *)

Definition follower_with (ident key : string) (multiplier : option Q)
           (cap : option Z) : FanOut.Follower :=
  {| FanOut.id := ident;
     FanOut.follower_name := "Follower " ++ ident;
     FanOut.status := "active";
     FanOut.client_id := Some ("client-" ++ ident);
     FanOut.api_key := Some key;
     FanOut.lot_multiplier := multiplier;
     FanOut.max_order_quantity := cap;
     FanOut.copy_trading_enabled := Some true |}.

Definition alice : FanOut.Follower :=
  follower_with "F1" "key-A" (Some 1%Q) (Some 100).

Definition bob : FanOut.Follower :=
  follower_with "F2" "key-B" (Some (1 # 2)%Q) (Some 100).

(** A store that holds the given followers and nothing else. *)
Definition fresh_store (fs : list FanOut.Follower) : FanOut.World :=
  {| FanOut.followers := fs;
     FanOut.copied_trade_history := [];
     FanOut.copy_trades := [];
     FanOut.trace := [] |}.

Definition copy_request (quantity : option Q) (trade : option string)
  : FanOut.Body :=
  {| FanOut.masterId := None;
     FanOut.followerId := None;
     FanOut.listenerFollowers := Some ["F1"; "F2"];
     FanOut.symbol := Some "INFY";
     FanOut.side := Some "Buy";
     FanOut.masterQty := quantity;
     FanOut.price := Some 1500%Q;
     FanOut.productType := None;
     FanOut.orderType := None;
     FanOut.tradeId := trade |}.

Definition order_accepted : Response :=
  {| res_status := 200;
     res_text := Ok "accepted";
     res_json := Ok (JObj [("ok", JBool true); ("order_id", JStr "B-7")]) |}.

(** An environment whose broker accepts every order. *)
Definition up_env : Env :=
  {| ALICE_ORDER_ENDPOINT := Some "https://broker.test/orders";
     ALICE_API_BASE_URL := None;
     ALICE_API_KEY := None;
     ALICE_API_SECRET := None;
     ALICE_AUTH_METHOD := None;
     getAccountToken := fun _ => None;
     fetch := fun _ _ => Responded order_accepted |}.

(** ** Further predicates on the normalizer *)







(** ** A follower without settings *)


(** ** Reading broker payloads: [extractArrayFromPayload], [normalizeSide] *)

Module Payload.

(** The wrapper keys, in the order they are tried. *)
Definition wrapper_keys : list string := ["orders"; "trades"; "result"; "data"].

(** The loop over the wrapper keys: the first one under which the payload
  holds an array. *)
Fixpoint first_array (keys : list string) (payload : JsVal) : list JsVal :=
match keys with
| [] => []
| k :: rest =>
    match get_opt k payload with
    | JArr items => items
    | _ => first_array rest payload
    end
end.

Definition extractArrayFromPayload (payload : JsVal) : list JsVal :=
if negb (truthy payload) then []
else match payload with
     | JArr items => items
     | _ => first_array wrapper_keys payload
     end.

Inductive Side : Type := Buy | Sell.

(** [a || b || ... || last] *)
Definition first_truthy (vs : list JsVal) (last : JsVal) : JsVal :=
fold_right (fun v rest => if truthy v then v else rest) last vs.

Definition side_keys : list string :=
["Trantype"; "tranType"; "transactionType"; "side"; "buySell"].

Definition is_sell (upper : string) : bool :=
String.eqb upper "S" || String.eqb upper "SELL"
|| String.eqb upper "SHORT".

Definition normalizeSide (h : Host) (o : JsRecord) : Result Side :=
bind (call_toString
        h (first_truthy (map (fun k => get k o) side_keys) (JStr "")))
     (fun text =>
        if is_sell (Str.toUpperCase text) then Ok Sell else Ok Buy).

End Payload.

(** ** The [catch] of the trades routes: the status of the answer *)

Module TradesRoute.

Definition all_digits (l : list ascii) : bool := forallb Str.is_digit l.

(** [msg.match(/HTTP (\d{3})/)]: the three digits of the leftmost match. *)
Fixpoint find_status (l : list ascii) : option (list ascii) :=
match l with
| [] => None
| c :: rest =>
    match l with
    | "H"%char :: "T"%char :: "T"%char :: "P"%char :: " "%char
        :: d1 :: d2 :: d3 :: _ =>
        if all_digits [d1; d2; d3] then Some [d1; d2; d3]
        else find_status rest
    | _ => find_status rest
    end
end.

(** [Number(m[1])] of three digits. *)
Definition digits_value (ds : list ascii) : nat :=
fold_left (fun acc d => (10 * acc + (nat_of_ascii d - 48))%nat) ds 0%nat.

(** [m ? Number(m[1]) : 500] *)
Definition error_status (msg : string) : nat :=
match find_status (list_ascii_of_string msg) with
| Some ds => digits_value ds
| None => 500%nat
end.

(** The statuses that allow no body. *)
Definition null_body_status (status : nat) : bool :=
existsb (Nat.eqb status) [101; 103; 204; 205; 304]%nat.

(** The answer of the [catch] block:
  [NextResponse.json({ error: msg }, { status })].  A response cannot be
  built with a status outside 200..599, nor with a body and a status that
  allows none: the constructor throws, and the error leaves the
  handler. *)
Definition error_response (message : option string)
: Result (nat * string) :=
let msg := match message with Some m => m | None => "Unknown error" end in
let status := error_status msg in
if negb ((200 <=? status) && (status <=? 599))%nat
then Threw "RangeError: status must be in the range of 200 to 599"
else if null_body_status status
     then Threw "TypeError: Invalid response status code"
     else Ok (status, msg).

End TradesRoute.

(** One three-digit status, written out and read back. *)
Definition reads_back (n : nat) : bool :=
  match list_ascii_of_string (Str.of_nat n) with
  | [d1; d2; d3] =>
      TradesRoute.all_digits [d1; d2; d3]
      && Nat.eqb (TradesRoute.digits_value [d1; d2; d3]) n
  | _ => false
  end.

(** ** The token store: [readTokensFile], [saveAccountToken],
    [getAccountToken] *)

Module Tokens.

(** The files the process sees.  A path has no file, a file that reads as a
  text, or a file whose read fails; a write goes through or fails.  After
  a write that went through the path reads as what was written. *)
Record Files : Type := {
read : string -> option (Result string);
can_write : string -> bool
}.

Definition write (path content : string) (fs : Files) : Files :=
if can_write fs path
then {| read := fun p => if String.eqb p path then Some (Ok content)
                         else read fs p;
        can_write := can_write fs |}
else fs.

Record Config : Type := {
ALICE_OAUTH_TOKENS_FILE : option string;
ALICE_MASTER_ACCOUNT : option string
}.

(** What the engine decides: the JSON reader and printer, what a plain
  object inherits under a name it does not own, and property reads and
  writes on an array. *)
Record Engine : Type := {
JSON_parse : string -> Result JsVal;
(** [JSON.stringify(tokens, null, 2)] of a plain object. *)
JSON_stringify : JsRecord -> string;
(** [({})[key]] *)
inherited : string -> JsVal;
(** [items[key]] on an array. *)
array_get : list JsVal -> string -> JsVal;
(** [items[key] = token] on an array followed by
    [JSON.stringify(items, null, 2)]: the text, or the error of the
    assignment. *)
array_assigned : list JsVal -> string -> string -> Result string
}.

(** [process.env.ALICE_OAUTH_TOKENS_FILE || '.alice.tokens.json'] *)
Definition TOKENS_FILE (cfg : Config) : string :=
match ALICE_OAUTH_TOKENS_FILE cfg with
| Some f => if Str.is_empty f then ".alice.tokens.json" else f
| None => ".alice.tokens.json"
end.

(** [process.env.ALICE_MASTER_ACCOUNT || 'Master'] *)
Definition master_key (cfg : Config) : string :=
match ALICE_MASTER_ACCOUNT cfg with
| Some k => if Str.is_empty k then "Master" else k
| None => "Master"
end.

(** What [readTokensFile] returns: a plain object or, when the file holds a
  JSON array, that array. *)
Inductive Store : Type :=
| Plain (fields : JsRecord)
| Listed (items : list JsVal).

(** One turn of the loop over the candidate files; [None] when the loop
  goes on to the next file. *)
Definition read_candidate (cfg : Config) (e : Engine) (fs : Files)
         (f : string) : option Store :=
if Str.is_empty f then None
else
  match read fs f with
  | None => None
  | Some (Threw _) => None
  | Some (Ok text) =>
      let raw := Str.trim text in
      if Str.is_empty raw then Some (Plain [])
      else
        match JSON_parse e (if Str.is_empty raw then "{}" else raw) with
        | Ok (JObj fields) => Some (Plain fields)
        | Ok (JArr items) => Some (Listed items)
        | Ok _ => None
        | Threw _ => Some (Plain [(master_key cfg, JStr raw)])
        end
  end.

Fixpoint first_store (cfg : Config) (e : Engine) (fs : Files)
       (candidates : list string) : Store :=
match candidates with
| [] => Plain []
| f :: rest =>
    match read_candidate cfg e fs f with
    | Some store => store
    | None => first_store cfg e fs rest
    end
end.

Definition readTokensFile (cfg : Config) (e : Engine) (fs : Files) : Store :=
first_store cfg e fs [TOKENS_FILE cfg; ".alice.token"].

(** [JSON.stringify] and [fs.writeFileSync] inside a [try]. *)
Definition writeTokensFile (cfg : Config) (text : string) (fs : Files)
: Files :=
write (TOKENS_FILE cfg) text fs.

Fixpoint replace (key : string) (v : JsVal) (fields : JsRecord) : JsRecord :=
match fields with
| [] => []
| (k, old) :: rest =>
    if String.eqb k key then (k, v) :: rest
    else (k, old) :: replace key v rest
end.

(** [tokens[key] = v] on a plain object: an own property is overwritten, a
  new one is added at the end, and the name [__proto__], when it is not
  an own property, reaches the setter of the prototype, which ignores a
  string. *)
Definition assign (key : string) (v : JsVal) (fields : JsRecord)
: JsRecord :=
if has_own key fields then replace key v fields
else if String.eqb key "__proto__" then fields
else (fields ++ [(key, v)])%list.

(** [tokens[key]] on a plain object. *)
Definition lookup (e : Engine) (key : string) (fields : JsRecord) : JsVal :=
if has_own key fields then get key fields else inherited e key.

Definition saveAccountToken (cfg : Config) (e : Engine)
         (accountId token : string) (fs : Files) : Result Files :=
if Str.is_empty accountId then Ok fs
else
  match readTokensFile cfg e fs with
  | Plain fields =>
      Ok (writeTokensFile
            cfg (JSON_stringify e (assign accountId (JStr token) fields))
            fs)
  | Listed items =>
      bind (array_assigned e items accountId token)
           (fun text => Ok (writeTokensFile cfg text fs))
  end.

Definition getAccountToken (cfg : Config) (e : Engine) (fs : Files)
         (accountId : string) : JsVal :=
if Str.is_empty accountId then JUndefined
else
  match readTokensFile cfg e fs with
  | Plain fields => lookup e accountId fields
  | Listed items => array_get e items accountId
  end.

End Tokens.

(** The printed object reads back as an object with the same properties. *)
Definition reads_back_as (e : Tokens.Engine) (fields : JsRecord) : Prop :=
  exists fields',
    Str.trim (Tokens.JSON_stringify e fields) <> ""
    /\ Tokens.JSON_parse e (Str.trim (Tokens.JSON_stringify e fields))
       = Ok (JObj fields')
    /\ forall k, has_own k fields' = has_own k fields
                 /\ get k fields' = get k fields.

(** An engine that prints every object as one word and reads that word as
    the store with one account. *)
Definition one_word_engine : Tokens.Engine :=
  {| Tokens.JSON_parse := fun s =>
       if String.eqb s "saved" then Ok (JObj [("ACC1", JStr "t-1")])
       else Threw "SyntaxError: Unexpected token";
     Tokens.JSON_stringify := fun _ => "  saved ";
     Tokens.inherited := fun _ => JUndefined;
     Tokens.array_get := fun _ _ => JUndefined;
     Tokens.array_assigned := fun _ _ _ => Ok "[]" |}.

Definition no_files : Tokens.Files :=
  {| Tokens.read := fun _ => None; Tokens.can_write := fun _ => true |}.

Definition plain_config : Tokens.Config :=
  {| Tokens.ALICE_OAUTH_TOKENS_FILE := None;
     Tokens.ALICE_MASTER_ACCOUNT := None |}.

(** Only the file of the single token is there. *)
Definition legacy_files : Tokens.Files :=
  {| Tokens.read := fun p =>
       if String.eqb p ".alice.token" then Some (Ok " abc123 ") else None;
     Tokens.can_write := fun _ => true |}.

(** ** The time column of the trades table: [formatTime] *)

Module Display.




End Display.





(** ** The trades of an account: [getTradesForAccount] *)

Module Account.

Record Settings : Type := {
ALICE_MASTER_ACCOUNT : option string;
ALICE_ORDERS_BOOK_ENDPOINT : option string;
ALICE_OAUTH_TRADES_ENDPOINT : option string;
(** [Date.now()] after the given history: the clock moves with the
    requests and stands still while a payload is mapped. *)
clock : list Event -> Z
}.

Record AliceTrade : Type := {
id : JsVal;
timestamp : string;
account : string;
symbol : JsVal;
type : JsVal;
side : JsVal;
quantity : JsNum;
price : JsNum;
status : JsVal;
exchange : JsVal;
tradingSymbol : JsVal;
clientOrderId : JsVal;
brokerOrderId : JsVal;
orderType : JsVal;
orderStatus : JsVal;
filledQuantity : JsNum;
avgTradedPrice : JsNum;
exchangeTimestamp : JsVal;
lotSize : JsNum;
product : JsVal;
raw : JsVal
}.

Definition nullish (v : JsVal) : bool :=
match v with
| JUndefined | JNull => true
| _ => false
end.

(** [a ?? b ?? ... ?? last] *)
Definition coalesce (vs : list JsVal) (last : JsVal) : JsVal :=
fold_right (fun v rest => if nullish v then rest else v) last vs.

(** The properties of an element of a payload.  Reading a property of
  [null] or [undefined] raises a TypeError; a number, a text, a boolean
  or an array has none of the properties that are read here. *)
Definition properties (v : JsVal) : Result JsRecord :=
match v with
| JUndefined | JNull =>
    Threw "TypeError: Cannot read properties of null"
| JObj fields => Ok fields
| _ => Ok []
end.

(** [Number(v)] *)
Definition ToNumber (h : Host) (v : JsVal) : Result JsNum :=
match v with
| JUndefined => Ok NaN
| JNull => Ok (Fin 0)
| JBool b => Ok (Fin (if b then 1 else 0))
| JNum n => Ok n
| JStr s => Ok (Number_of_string h s)
| JArr _ | JObj _ =>
    bind (ToString h v) (fun s => Ok (Number_of_string h s))
end.

(** A whole number in a template literal. *)
Definition number_text (z : Z) : string :=
NilZero.string_of_int (Z.to_int z).

Definition zero : JsVal := JNum (Fin 0).

Definition side_text (s : Payload.Side) : JsVal :=
match s with
| Payload.Buy => JStr "Buy"
| Payload.Sell => JStr "Sell"
end.

Definition status_keys : list string :=
["Status"; "status"; "orderStatus"; "OrderStatus"].

(** The test of the filter for completed orders. *)
Definition completed (h : Host) (o : JsVal) : Result bool :=
bind (properties o)
     (fun d =>
        bind (call_toString
                h (Payload.first_truthy (map (fun k => get k d) status_keys)
                                        (JStr "")))
             (fun text =>
                let status := Str.toLowerCase text in
                Ok (String.eqb status "complete"
                    || String.eqb status "filled"
                    || String.eqb status "completed"))).

(** [Array.prototype.filter] with a test that may throw. *)
Fixpoint filter_result {A} (test : A -> Result bool) (l : list A)
: Result (list A) :=
match l with
| [] => Ok []
| x :: rest =>
    bind (test x)
         (fun keep =>
            bind (filter_result test rest)
                 (fun kept => Ok (if keep then x :: kept else kept)))
end.

(** [Array.prototype.map] with the index, for a function that may throw. *)
Fixpoint map_indexed {A B} (f : nat -> A -> Result B) (idx : nat)
       (l : list A) : Result (list B) :=
match l with
| [] => Ok []
| x :: rest =>
    bind (f idx x)
         (fun y =>
            bind (map_indexed f (S idx) rest)
                 (fun ys => Ok (y :: ys)))
end.

(** The trade of a completed order of the order book. *)
Definition order_trade (h : Host) (resolvedAccount fetchStartTime : string)
         (idx : nat) (o : JsVal) : Result AliceTrade :=
bind (properties o) (fun d =>
let f := fun key => get key d in
bind (Timestamp.parseTradeTimestamp h d (Some fetchStartTime))
     (fun tradeTime =>
bind (Payload.normalizeSide h d) (fun side_ =>
bind (ToNumber h (coalesce [f "quantity"] zero)) (fun quantity_ =>
bind (ToNumber h (coalesce [f "Prc"; f "Price"; f "FillPrice";
                            f "fillPrice"; f "AvgPrice";
                            f "averageTradedPrice"] zero)) (fun price_ =>
bind (ToNumber h (coalesce [f "quantity"] zero)) (fun filled_ =>
bind (ToNumber h (coalesce [f "AvgPrice"; f "averageTradedPrice";
                            f "Price"] zero)) (fun avg_ =>
bind (ToNumber h (coalesce [f "lotsize"; f "lotSize"] zero)) (fun lot_ =>
Ok {| id := coalesce [f "NOrdNo"; f "orderId"; f "BrokerOrderId"]
                     (JStr ("A-ORD-" ++ number_text (now h) ++ "-"
                              ++ Str.of_nat idx));
      timestamp := tradeTime;
      account := resolvedAccount;
      symbol := coalesce [f "Trsym"; f "symbol"; f "instrument";
                          f "tradingSymbol"] (JStr "");
      type := coalesce [f "OrderType"; f "orderType"] (JStr "Market");
      side := side_text side_;
      quantity := quantity_;
      price := price_;
      status := JStr "Filled";
      exchange := coalesce [f "Exch"; f "exchange"] (JStr "");
      tradingSymbol := coalesce [f "Trsym"; f "tradingSymbol"] (JStr "");
      clientOrderId := coalesce [f "clientOrderId"; f "ClientOrderId";
                                 f "ClientId"] (JStr "");
      brokerOrderId := coalesce [f "NOrdNo"; f "brokerOrderId"] (JStr "");
      orderType := coalesce [f "OrderType"; f "orderType"] (JStr "");
      orderStatus := coalesce [f "orderStatus"; f "Status"; f "status"]
                              (JStr "Filled");
      filledQuantity := filled_;
      avgTradedPrice := avg_;
      exchangeTimestamp := coalesce [f "exchangeTimestamp"; f "orderTime";
                                     f "FillTime"; f "fillTime"] (JStr "");
      lotSize := lot_;
      product := coalesce [f "product"; f "Product"] (JStr "");
      raw := o |})))))))).

(** [d.transactionType === 'SELL' ? 'Sell' : 'Buy'] *)
Definition sell_or_buy (v : JsVal) : JsVal :=
match v with
| JStr s => if String.eqb s "SELL" then JStr "Sell" else JStr "Buy"
| _ => JStr "Buy"
end.

(** The trade of an element of the trades endpoint. *)
Definition record_trade (h : Host) (resolvedAccount : string) (idx : nat)
         (v : JsVal) : Result AliceTrade :=
bind (properties v) (fun d =>
let f := fun key => get key d in
bind (Timestamp.parseTradeTimestamp h d None) (fun tradeTime =>
bind (ToNumber h (coalesce [f "quantity"] zero)) (fun quantity_ =>
bind (ToNumber h (coalesce [f "price"; f "rate"; f "fillPrice";
                            f "averageTradedPrice"; f "avgTradedPrice"]
                           zero)) (fun price_ =>
bind (ToNumber h (coalesce [f "quantity"] zero)) (fun filled_ =>
bind (ToNumber h (coalesce [f "averageTradedPrice"; f "avgTradedPrice"]
                           zero)) (fun avg_ =>
bind (ToNumber h (coalesce [f "lotsize"; f "lotSize"] zero)) (fun lot_ =>
Ok {| id := coalesce [f "id"; f "tradeId"]
                     (JStr ("A-" ++ number_text (now h) ++ "-"
                              ++ Str.of_nat idx));
      timestamp := tradeTime;
      account := resolvedAccount;
      symbol := coalesce [f "symbol"; f "instrument"; f "scrip";
                          f "ticker"] (JStr "");
      type := coalesce [f "type"] (JStr "Market");
      side := coalesce [f "side"; f "buySell"]
                       (sell_or_buy (f "transactionType"));
      quantity := quantity_;
      price := price_;
      status := coalesce [f "status"] (JStr "Filled");
      exchange := coalesce [f "exchange"; f "Exchange"] (JStr "");
      tradingSymbol := coalesce [f "tradingSymbol"; f "Trsym"] (JStr "");
      clientOrderId := coalesce [f "clientOrderId"; f "ClientOrderId"]
                                (JStr "");
      brokerOrderId := coalesce [f "brokerOrderId"; f "BrokerOrderId";
                                 f "NOrdNo"] (JStr "");
      orderType := coalesce [f "orderType"; f "OrderType"] (JStr "");
      orderStatus := coalesce [f "orderStatus"; f "Status"; f "status"]
                              (JStr "");
      filledQuantity := filled_;
      avgTradedPrice := avg_;
      exchangeTimestamp := coalesce [f "exchangeTimestamp"; f "time"]
                                    (JStr "");
      lotSize := lot_;
      product := coalesce [f "product"] (JStr "");
      raw := v |}))))))).

Definition default_orders_book : string :=
"https://ant.aliceblueonline.com/open-api/od/v1/orders/book".

Definition default_trades : string :=
"https://ant.aliceblueonline.com/open-api/od/v1/trades".

(** [s || d] *)
Definition or_default (s : option string) (d : string) : string :=
if truthy_str s then Broker.str_or_empty s else d.

(** [accountId || process.env.ALICE_MASTER_ACCOUNT || 'Master'] *)
Definition resolve (cfg : Settings) (accountId : option string) : string :=
or_default accountId (or_default (ALICE_MASTER_ACCOUNT cfg) "Master").

(** [fetchWithRetry(url, { headers })] with the bearer token. *)
Definition get_request (url token : string) : Request :=
{| req_url := url; req_method := "GET";
   req_auth := Some (Bearer token); req_body := None |}.

Definition ordersBookEndpoint (cfg : Settings) : string :=
or_default (ALICE_ORDERS_BOOK_ENDPOINT cfg) default_orders_book.

Definition tradesEndpoint (cfg : Settings) : string :=
or_default (ALICE_OAUTH_TRADES_ENDPOINT cfg) default_trades.

(** [await res.json().catch(() => ({}))] *)
Definition json_or_empty (res : Response) : JsVal :=
match res_json res with
| Ok parsed => parsed
| Threw _ => JObj []
end.

(** The host at a reading of the clock. *)
Definition at_time (t : Z) (h : Host) : Host :=
{| Date_parse := Date_parse h;
   Number_of_string := Number_of_string h;
   Number_toString := Number_toString h;
   LocalTZA := LocalTZA h;
   now := t |}.

(** The body of the outer [try]. *)
Definition orders_book (cfg : Settings) (env : Env) (h : Host)
         (resolvedAccount token : string) (tr : list Event)
: Result (list AliceTrade) * list Event :=
let fetchStartTime := JsDate.toISOString (clock cfg tr) in
match Retry.fetchWithRetry
        env (get_request (ordersBookEndpoint cfg) token)
        Retry.default_retries Retry.default_backoff tr with
| (Threw m, tr') => (Threw m, tr')
| (Ok res, tr') =>
    let orders := Payload.extractArrayFromPayload (json_or_empty res) in
    let h' := at_time (clock cfg tr') h in
    (bind (filter_result (completed h') orders)
          (fun completedOrders =>
             map_indexed (order_trade h' resolvedAccount fetchStartTime)
                         0 completedOrders),
     tr')
end.

(** The body of the inner [try]. *)
Definition trades_fallback (cfg : Settings) (env : Env) (h : Host)
         (resolvedAccount token : string) (tr : list Event)
: Result (list AliceTrade) * list Event :=
match Retry.fetchWithRetry
        env (get_request (tradesEndpoint cfg) token)
        Retry.default_retries Retry.default_backoff tr with
| (Threw m, tr') => (Threw m, tr')
| (Ok res, tr') =>
    let trades := Payload.extractArrayFromPayload (json_or_empty res) in
    let h' := at_time (clock cfg tr') h in
    (map_indexed (record_trade h' resolvedAccount) 0 trades, tr')
end.

Definition getTradesForAccount (cfg : Settings) (env : Env) (h : Host)
         (accountId : option string) (tr : list Event)
: list AliceTrade * list Event :=
let resolvedAccount := resolve cfg accountId in
let token := Broker.account_token env resolvedAccount in
if negb (truthy_str token) then ([], tr)
else
  let bearer := Broker.str_or_empty token in
  match orders_book cfg env h resolvedAccount bearer tr with
  | (Ok mapped, tr1) => (mapped, tr1)
  | (Threw _, tr1) =>
      match trades_fallback cfg env h resolvedAccount bearer tr1 with
      | (Ok mapped, tr2) => (mapped, tr2)
      | (Threw _, tr2) => ([], tr2)
      end
  end.

End Account.

(** An element of a payload that can be read and printed: not [null], and
    when it is an object, every value in it is printable. *)
Definition readable_element (o : JsVal) : bool :=
  match o with
  | JUndefined | JNull => false
  | JObj fields => forallb (fun kv => printable (snd kv)) fields
  | _ => true
  end.

(** The filter for completed orders as a test. *)
Definition is_completed (h : Host) (o : JsVal) : bool :=
  match Account.completed h o with
  | Ok keep => keep
  | Threw _ => false
  end.

(** What the fallback of [getTradesForAccount] returns. *)
Definition fallback_result (cfg : Account.Settings) (env : Env) (h : Host)
           (resolvedAccount token : string) (tr : list Event)
  : list Account.AliceTrade * list Event :=
  match Account.trades_fallback cfg env h resolvedAccount token tr with
  | (Ok mapped, tr2) => (mapped, tr2)
  | (Threw _, tr2) => ([], tr2)
  end.

(** What a trade of the order book says about the order it came from. *)
Definition from_order (h : Host) (resolvedAccount fetchStartTime : string)
           (o : JsVal) (t : Account.AliceTrade) : Prop :=
  Account.raw t = o
  /\ Account.account t = resolvedAccount
  /\ Account.status t = JStr "Filled"
  /\ exists d,
       o = JObj d
       /\ Timestamp.parseTradeTimestamp h d (Some fetchStartTime)
          = Ok (Account.timestamp t).

(** What a trade of the trades endpoint says about its element. *)
Definition from_record (h : Host) (resolvedAccount : string)
           (v : JsVal) (t : Account.AliceTrade) : Prop :=
  Account.raw t = v
  /\ Account.account t = resolvedAccount
  /\ exists d,
       Account.properties v = Ok d
       /\ Timestamp.parseTradeTimestamp h d None = Ok (Account.timestamp t).

(** A broker that answers every request with an order book of three
    entries, one of them open. *)
Definition infy_order : JsVal :=
  JObj [("NOrdNo", JStr "N-1"); ("Trsym", JStr "INFY");
        ("Status", JStr "Complete"); ("Trantype", JStr "S");
        ("FillTime", JStr "2024-02-10 14:30:45")].

Definition open_order : JsVal :=
  JObj [("NOrdNo", JStr "N-2"); ("Trsym", JStr "TCS");
        ("Status", JStr "open")].

Definition tcs_order : JsVal :=
  JObj [("NOrdNo", JStr "N-3"); ("Trsym", JStr "TCS");
        ("status", JStr "FILLED")].

Definition book_response (orders : list JsVal) : Response :=
  {| res_status := 200;
     res_text := Ok "";
     res_json := Ok (JObj [("orders", JArr orders)]) |}.

Definition book_env (orders : list JsVal) : Env :=
  {| ALICE_ORDER_ENDPOINT := None;
     ALICE_API_BASE_URL := None;
     ALICE_API_KEY := None;
     ALICE_API_SECRET := None;
     ALICE_AUTH_METHOD := None;
     getAccountToken := fun _ => Some "session-1";
     fetch := fun _ _ => Responded (book_response orders) |}.

(** A broker whose order book is down and whose trades endpoint answers. *)
Definition trades_only_env (trades : list JsVal) : Env :=
  {| ALICE_ORDER_ENDPOINT := None;
     ALICE_API_BASE_URL := None;
     ALICE_API_KEY := None;
     ALICE_API_SECRET := None;
     ALICE_AUTH_METHOD := None;
     getAccountToken := fun _ => Some "session-1";
     fetch := fun _ r =>
       if String.eqb (req_url r) Account.default_trades
       then Responded {| res_status := 200; res_text := Ok "";
                         res_json := Ok (JArr trades) |}
       else Rejected "connect ECONNREFUSED" |}.

(** A broker that cannot be reached, with a token in the store. *)
Definition unreachable_env : Env :=
  {| ALICE_ORDER_ENDPOINT := None;
     ALICE_API_BASE_URL := None;
     ALICE_API_KEY := None;
     ALICE_API_SECRET := None;
     ALICE_AUTH_METHOD := None;
     getAccountToken := fun _ => Some "session-1";
     fetch := fun _ _ => Rejected "connect ECONNREFUSED" |}.

Definition plain_settings : Account.Settings :=
  {| Account.ALICE_MASTER_ACCOUNT := None;
     Account.ALICE_ORDERS_BOOK_ENDPOINT := None;
     Account.ALICE_OAUTH_TRADES_ENDPOINT := None;
     Account.clock := fun tr => 1707555645000 + 1000 * Z.of_nat (List.length tr) |}.

(** ** The trades table: the mapping step of [fetchTrades] *)

Module Table.

Record RemoteTrade : Type := {
id : string;
timestamp : JsVal;
account : JsVal;
symbol : JsVal;
type : JsVal;
side : JsVal;
quantity : JsNum;
tradedQty : JsNum;
price : JsNum;
status : JsVal
}.

Fixpoint remove_spaces (s : string) : string :=
match s with
| EmptyString => EmptyString
| String c rest =>
    if Str.is_space c then remove_spaces rest
    else String c (remove_spaces rest)
end.

(** [baseId.replace(/\s+/g, "")]: only a string has the method. *)
Definition replace_spaces (baseId : JsVal) : Result string :=
match baseId with
| JStr s => Ok (remove_spaces s)
| _ => Threw "TypeError: baseId.replace is not a function"
end.

(** The parts of a template literal, each converted to a string. *)
Fixpoint template (h : Host) (parts : list (JsVal + string))
: Result string :=
match parts with
| [] => Ok ""
| inr text :: rest => bind (template h rest) (fun r => Ok (text ++ r))
| inl v :: rest =>
    bind (ToString h v)
         (fun s => bind (template h rest) (fun r => Ok (s ++ r)))
end.

(** The callback of [incoming.map]. *)
Definition map_trade (h : Host) (t : JsVal) : Result RemoteTrade :=
bind (Account.properties t) (fun d =>
let f := fun key => get key d in
let symbol_ :=
  Payload.first_truthy [f "symbol"; f "instrument"; f "scrip"] (JStr "") in
bind (Account.ToNumber h (Account.coalesce [f "quantity"; f "qty"]
                                           Account.zero))
     (fun quantity_ =>
bind (Account.ToNumber h (Account.coalesce [f "price"; f "fillPrice"]
                                           Account.zero))
     (fun price_ =>
let timestamp_ :=
  Payload.first_truthy [f "timestamp"]
                       (JStr (JsDate.toISOString (now h))) in
let side_ := Payload.first_truthy [f "side"; f "buySell"] (JStr "Buy") in
bind (if truthy (f "id") then Ok (f "id")
      else
        bind (template
                h [inl (Payload.first_truthy [f "account"] (JStr "A"));
                   inr "-"; inl symbol_; inr "-"; inl (JNum price_);
                   inr "-"; inl (JNum quantity_); inr "-"; inl side_;
                   inr "-"; inl timestamp_])
             (fun text => Ok (JStr text)))
     (fun baseId =>
bind (replace_spaces baseId) (fun id_ =>
bind (Account.ToNumber
        h (Account.coalesce [f "tradedQty"; f "filledQty"]
                            (JNum quantity_)))
     (fun tradedQty_ =>
Ok {| id := id_;
      timestamp := timestamp_;
      account := Payload.first_truthy [f "account"; f "accountName"]
                                      (JStr "Master");
      symbol := symbol_;
      type := Payload.first_truthy [f "type"; f "product"]
                                   (JStr "Market");
      side := side_;
      quantity := quantity_;
      tradedQty := tradedQty_;
      price := price_;
      status := Payload.first_truthy [f "status"] (JStr "Filled") |})))))).

(** [Array.prototype.map] for a callback that may throw. *)
Fixpoint map_result {A B} (f : A -> Result B) (l : list A)
: Result (list B) :=
match l with
| [] => Ok []
| x :: rest =>
    bind (f x)
         (fun y => bind (map_result f rest) (fun ys => Ok (y :: ys)))
end.

(** The trades mapped from the answer of the route; an error is what the
  [catch] block puts in the error state. *)
Definition mapped (h : Host) (answer : FetchOutcome)
: Result (list RemoteTrade) :=
match answer with
| Rejected m => Threw m
| Responded tradeRes =>
    if negb (Retry.res_ok tradeRes)
    then Threw ("Status " ++ Str.of_nat (res_status tradeRes))
    else
      bind (Account.properties (Account.json_or_empty tradeRes))
           (fun payload =>
              match Account.coalesce [get "trades" payload] (JArr []) with
              | JArr incoming => map_result (map_trade h) incoming
              | _ => Threw "TypeError: incoming.map is not a function"
              end)
end.

End Table.

Definition no_space (s : string) : bool :=
  forallb (fun c => negb (Str.is_space c)) (list_ascii_of_string s).

(** The route answers 200 with the given trades. *)
Definition table_answer (trades : list JsVal) : FetchOutcome :=
  Responded {| res_status := 200; res_text := Ok "";
               res_json := Ok (JObj [("trades", JArr trades)]) |}.

(** ** The trade-book route: the callbacks over the order book *)

Module TradeBook.

Record Trade : Type := {
id : JsVal;
timestamp : JsVal;
account : string;
symbol : JsVal;
type : JsVal;
side : JsVal;
quantity : JsNum;
tradedQty : JsNum;
price : JsNum;
status : JsVal
}.

(** The test of [orders.filter]. *)
Definition completed (h : Host) (o : JsVal) : Result bool :=
bind (Account.properties o)
     (fun d =>
        bind (call_toString
                h (Payload.first_truthy [get "Status" d; get "status" d]
                                        (JStr "")))
             (fun text =>
                Ok (String.eqb (Str.toLowerCase text) "complete"))).



End TradeBook.

Definition tcs_order_upper : JsVal :=
  JObj [("NOrdNo", JStr "N-3"); ("Status", JStr "FILLED")].

(** An event of a call that asks the order book and the trades endpoint
    with one token: a pause, or a fetch of one of the two requests. *)
Definition asks_only (first second : Request) (e : Event) : Prop :=
  match e with
  | EvSleep _ => True
  | EvFetch r => r = first \/ r = second
  | _ => False
  end.

(** ** The pool of [lib/db.ts] *)

Module Mysql.

(** The statements of the fan-out route, by what they select or insert. *)
Inductive Statement : Type :=
| SelectFollowerById
| SelectFollowersIn
| SelectActiveFollowers
| SelectCopied
| InsertCopied
| InsertCopyTrade (status : FanOut.Status).

(** [db.query(sql, params)] *)
Record Call : Type := {
statement : Statement;
params : list JsVal
}.

(** What the promise of [query] settles to.  The pool is the one of
  [mysql2/promise]: it resolves to the array [[rows, fields]], of length
  2 for every statement, or rejects with an error. *)
Inductive Outcome : Type :=
| Resolved (rows fields : JsVal)
| Rejected (message : string).

(** The database answers from the calls made so far, newest first;
  nothing is assumed about it. *)
Definition Pool : Type := list Call -> Call -> Outcome.

End Mysql.

(** ** The fan-out endpoint over the pool:
    [POST /api/followers/execute-copy-trade]

    [FanOut] above reads the handler over a store whose [query] hands back
    the rows, at requests of the shape the client sends.  [Route] reads it
    over the pool that [getDatabase] returns, at any request. *)

Module Route.

(** An entry of [results]. *)
Record Entry : Type := {
followerId : JsVal;
followerName : JsVal;
status : FanOut.Status;
reason : string
}.

Record Answer : Type := {
http_status : nat;
ok : bool;
message : string;
copyTradeId : option string;
masterTradeId : option JsVal;
results : list Entry;
summary : option FanOut.Summary
}.

(** [{ ok: false, message }] with a status. *)
Definition reject (code : nat) (msg : string) : Answer :=
{| http_status := code; ok := false; message := msg;
   copyTradeId := None; masterTradeId := None;
   results := []; summary := None |}.

(** [results] and the three counters. *)
Record Acc : Type := {
a_results : list Entry;
a_success : nat;
a_skipped : nat;
a_failed : nat
}.

Definition acc0 : Acc :=
{| a_results := []; a_success := 0; a_skipped := 0; a_failed := 0 |}.

Definition push_skipped (e : Entry) (acc : Acc) : Acc :=
{| a_results := (a_results acc ++ [e])%list;
   a_success := a_success acc;
   a_skipped := S (a_skipped acc);
   a_failed := a_failed acc |}.

Definition push_failed (e : Entry) (acc : Acc) : Acc :=
{| a_results := (a_results acc ++ [e])%list;
   a_success := a_success acc;
   a_skipped := a_skipped acc;
   a_failed := S (a_failed acc) |}.

(** Property read [v.key]: a TypeError on [null] and [undefined]; an array
  and a primitive have none of the properties read here. *)
Definition prop (key : string) (v : JsVal) : Result JsVal :=
bind (Account.properties v) (fun d => Ok (get key d)).

(** The method call [v.toUpperCase()]: only a string has the method. *)
Definition toUpperCase (v : JsVal) : Result string :=
match v with
| JStr s => Ok (Str.toUpperCase s)
| _ => Threw "TypeError: toUpperCase is not a function"
end.

(** The fields the handler takes from the body. *)
Record Fields : Type := {
masterId : JsVal;
f_followerId : JsVal;
listenerFollowers : JsVal;
symbol : JsVal;
side : JsVal;
masterQty : JsVal;
price : JsVal;
tradeId : JsVal
}.

(** [name = text] in a destructuring pattern: the default stands in for
  [undefined] only. *)
Definition defaulted (text : string) (v : JsVal) : JsVal :=
match v with
| JUndefined => JStr text
| _ => v
end.

(** [const { masterId = 'master_account', followerId, ... } = body]:
  a TypeError when the body is [null]. *)
Definition destructure (body : JsVal) : Result Fields :=
bind (Account.properties body)
     (fun d =>
        Ok {| masterId := defaulted "master_account" (get "masterId" d);
              f_followerId := get "followerId" d;
              listenerFollowers := get "listenerFollowers" d;
              symbol := get "symbol" d;
              side := get "side" d;
              masterQty := get "masterQty" d;
              price := get "price" d;
              tradeId := get "tradeId" d |}).

(** The query for the followers: by id, by the listed ids, or all active
  ones. *)
Definition followers_call (b : Fields) : Mysql.Call :=
if truthy (f_followerId b)
then {| Mysql.statement := Mysql.SelectFollowerById;
        Mysql.params := [f_followerId b] |}
else match listenerFollowers b with
     | JArr _ =>
         {| Mysql.statement := Mysql.SelectFollowersIn;
            Mysql.params := [listenerFollowers b] |}
     | _ =>
         {| Mysql.statement := Mysql.SelectActiveFollowers;
            Mysql.params := [] |}
     end.

Section Turn.

Variables (h : Host) (pool : Mysql.Pool) (nonce : string) (b : Fields).

(** The [try] block of the loop for one element of [followers]: the
message of what it throws if it throws, the accumulators and the calls
as it leaves them.  When the ledger query resolves, [existingCopy] is
the array [[rows, fields]]: it is truthy and its length is 2, so the
test of line 128 holds and the turn ends at [continue]; lines 141-241
need that test to fail. *)
Definition try_block (follower : JsVal) (acc : Acc) (tr : list Mysql.Call)
: option string * Acc * list Mysql.Call :=
match prop "id" follower with
| Threw m => (Some m, acc, tr)
| Ok id =>
  let call := {| Mysql.statement := Mysql.SelectCopied;
                 Mysql.params := [tradeId b; id] |} in
  match pool tr call with
  | Mysql.Rejected m => (Some m, acc, call :: tr)
  | Mysql.Resolved _ _ =>
      match prop "follower_name" follower with
      | Threw m => (Some m, acc, call :: tr)
      | Ok name =>
          let acc' :=
            push_skipped {| followerId := id; followerName := name;
                            status := FanOut.SKIPPED;
                            reason := FanOut.duplicate_reason |} acc in
          match Table.template
                  h [inr "[COPY-TRADE] Skipping duplicate: ";
                     inl (tradeId b); inr " to "; inl id] with
          | Threw m => (Some m, acc', call :: tr)
          | Ok _ => (None, acc', call :: tr)
          end
      end
  end
end.

(** The [catch] block of the loop: it logs the failure in [copy_trades]
and adds a FAILED entry.  What it throws itself leaves the loop. *)
Definition catch_block (follower : JsVal) (message : string) (acc : Acc)
       (tr : list Mysql.Call) : Result Acc * list Mysql.Call :=
match
bind (prop "id" follower) (fun id =>
bind (Table.template
        h [inr "[COPY-TRADE] Error trading with follower "; inl id;
           inr ":"]) (fun _ =>
bind (Table.template h [inr nonce; inr "_"; inl id]) (fun logId =>
bind (toUpperCase (symbol b)) (fun sym =>
bind (toUpperCase (side b)) (fun sd =>
Ok (id,
    {| Mysql.statement := Mysql.InsertCopyTrade FanOut.FAILED;
       Mysql.params := [JStr logId; masterId b; id; JStr sym; JStr sd;
                        masterQty b; JNum (Fin 0); price b;
                        JStr message] |}))))))
with
| Threw m => (Threw m, tr)
| Ok (id, call) =>
  match pool tr call with
  | Mysql.Rejected m => (Threw m, call :: tr)
  | Mysql.Resolved _ _ =>
      match prop "follower_name" follower with
      | Threw m => (Threw m, call :: tr)
      | Ok name =>
          (Ok (push_failed {| followerId := id; followerName := name;
                              status := FanOut.FAILED;
                              reason := message |} acc),
           call :: tr)
      end
  end
end.

(** One turn of [for (const follower of followers)]. *)
Definition turn (follower : JsVal) (acc : Acc) (tr : list Mysql.Call)
: Result Acc * list Mysql.Call :=
match try_block follower acc tr with
| (None, acc', tr') => (Ok acc', tr')
| (Some message, acc', tr') => catch_block follower message acc' tr'
end.

Fixpoint loop (followers : list JsVal) (acc : Acc) (tr : list Mysql.Call)
: Result Acc * list Mysql.Call :=
match followers with
| [] => (Ok acc, tr)
| follower :: rest =>
  match turn follower acc tr with
  | (Ok acc', tr') => loop rest acc' tr'
  | (Threw m, tr') => (Threw m, tr')
  end
end.

End Turn.

Definition done_message (acc : Acc) : string :=
"Copy trade executed: " ++ Str.of_nat (a_success acc) ++ " successful, "
  ++ Str.of_nat (a_skipped acc) ++ " skipped (already copied), "
  ++ Str.of_nat (a_failed acc) ++ " failed".

Definition report (nonce : string) (b : Fields) (total : nat) (acc : Acc)
: Answer :=
{| http_status := 200; ok := true;
   message := done_message acc;
   copyTradeId := Some nonce;
   masterTradeId := Some (tradeId b);
   results := a_results acc;
   summary := Some {| FanOut.successCount := a_success acc;
                      FanOut.failedCount := a_failed acc;
                      FanOut.skippedDuplicateCount := a_skipped acc;
                      FanOut.totalFollowers := total |} |}.

(** The handler.  [request] is what [req.json()] settles to and [nonce] the
  identifier drawn from the clock and the random generator.  Every error
  that reaches the outer [catch] is answered 500 with its message.
  [getDatabase] hands over the pool itself, so the check of its result
  never fires.  [followers] is what the query resolves to, the array
  [[rows, fields]]: the loop runs over these two elements. *)
Definition POST (h : Host) (pool : Mysql.Pool) (nonce : string)
         (request : Result JsVal) (tr : list Mysql.Call)
: Answer * list Mysql.Call :=
match bind request destructure with
| Threw m => (reject 500 m, tr)
| Ok b =>
    if negb (truthy (symbol b)) || negb (truthy (side b))
       || negb (truthy (masterQty b)) || negb (truthy (price b))
    then (reject 400 FanOut.missing_fields, tr)
    else if negb (truthy (tradeId b))
    then (reject 400 FanOut.missing_tradeId, tr)
    else
      let call := followers_call b in
      match pool tr call with
      | Mysql.Rejected m => (reject 500 m, call :: tr)
      | Mysql.Resolved rows fields =>
          let followers := [rows; fields] in
          match followers with
          | [] => (reject 400 FanOut.no_followers, call :: tr)
          | _ :: _ =>
              match loop h pool nonce b followers acc0 (call :: tr) with
              | (Threw m, tr') => (reject 500 m, tr')
              | (Ok acc, tr') =>
                  match Table.template
                          h [inr "[COPY-TRADE] Summary for ";
                             inl (symbol b); inr " "; inl (side b)] with
                  | Threw m => (reject 500 m, tr')
                  | Ok _ =>
                      (report nonce b (List.length followers) acc, tr')
                  end
              end
          end
      end
end.

End Route.

(** ** Predicates and examples for the route over the pool *)

(** The request passes the two presence checks. *)
Definition accepted (b : Route.Fields) : bool :=
  truthy (Route.symbol b) && truthy (Route.side b)
  && truthy (Route.masterQty b) && truthy (Route.price b)
  && truthy (Route.tradeId b).

(** The values the handler writes to its log can be printed. *)
Definition loggable (b : Route.Fields) : bool :=
  printable (Route.tradeId b) && printable (Route.symbol b)
  && printable (Route.side b).

Definition is_select (s : Mysql.Statement) : bool :=
  match s with
  | Mysql.SelectFollowerById | Mysql.SelectFollowersIn
  | Mysql.SelectActiveFollowers | Mysql.SelectCopied => true
  | _ => false
  end.

(** A pool that answers every SELECT, each time with an array of rows and
    an array of column descriptions. *)
Definition answers_selects (pool : Mysql.Pool) : Prop :=
  forall past call,
    is_select (Mysql.statement call) = true ->
    exists rows fields,
      pool past call = Mysql.Resolved (JArr rows) (JArr fields).

(** The ledger lookup made for an element of [followers] that is an
    array: the array has no [id]. *)
Definition copied_lookup (b : Route.Fields) : Mysql.Call :=
  {| Mysql.statement := Mysql.SelectCopied;
     Mysql.params := [Route.tradeId b; JUndefined] |}.

(** The entry pushed for such an element when the lookup resolves. *)
Definition duplicate_skip : Route.Entry :=
  {| Route.followerId := JUndefined;
     Route.followerName := JUndefined;
     Route.status := FanOut.SKIPPED;
     Route.reason := FanOut.duplicate_reason |}.

(** The answer with two such entries. *)
Definition two_skipped (nonce : string) (b : Route.Fields) : Route.Answer :=
  {| Route.http_status := 200;
     Route.ok := true;
     Route.message :=
       "Copy trade executed: 0 successful, 2 skipped (already copied), 0 failed";
     Route.copyTradeId := Some nonce;
     Route.masterTradeId := Some (Route.tradeId b);
     Route.results := [duplicate_skip; duplicate_skip];
     Route.summary := Some {| FanOut.successCount := 0;
                              FanOut.failedCount := 0;
                              FanOut.skippedDuplicateCount := 2;
                              FanOut.totalFollowers := 2 |} |}.


(** The typed request as the JSON the client sends: an absent field is
    left out. *)
Definition field (key : string) (v : option JsVal) : JsRecord :=
  match v with
  | Some x => [(key, x)]
  | None => []
  end.

Definition to_json (body : FanOut.Body) : JsVal :=
  JObj (field "masterId" (option_map JStr (FanOut.masterId body))
        ++ field "followerId" (option_map JStr (FanOut.followerId body))
        ++ field "listenerFollowers"
                 (option_map (fun ids => JArr (map JStr ids))
                             (FanOut.listenerFollowers body))
        ++ field "symbol" (option_map JStr (FanOut.symbol body))
        ++ field "side" (option_map JStr (FanOut.side body))
        ++ field "masterQty"
                 (option_map (fun q => JNum (Fin q)) (FanOut.masterQty body))
        ++ field "price"
                 (option_map (fun q => JNum (Fin q)) (FanOut.price body))
        ++ field "productType" (option_map JStr (FanOut.productType body))
        ++ field "orderType" (option_map JStr (FanOut.orderType body))
        ++ field "tradeId" (option_map JStr (FanOut.tradeId body)))%list.

(** A row of [followers LEFT JOIN follower_credentials] as the driver
    hands it over. *)
Definition follower_row (ident : string) (multiplier cap : Q) : JsVal :=
  JObj [("id", JStr ident);
        ("follower_name", JStr ("Follower " ++ ident));
        ("client_id", JStr ("client-" ++ ident));
        ("api_key", JStr ("key-" ++ ident));
        ("lot_multiplier", JNum (Fin multiplier));
        ("max_order_quantity", JNum (Fin cap));
        ("copy_trading_enabled", JNum (Fin 1))].

Definition column (name : string) : JsVal := JObj [("name", JStr name)].

Definition follower_columns : JsVal :=
  JArr (map column ["id"; "follower_name"; "client_id"; "api_key";
                    "lot_multiplier"; "max_order_quantity";
                    "copy_trading_enabled"]).

(** A database whose follower queries give the rows [followers] and whose
    ledger lookups give the rows [ledger]; an INSERT goes through. *)
Definition answering (followers ledger : list JsVal) : Mysql.Pool :=
  fun _ call =>
    match Mysql.statement call with
    | Mysql.SelectCopied => Mysql.Resolved (JArr ledger) (JArr [column "id"])
    | Mysql.InsertCopied | Mysql.InsertCopyTrade _ =>
        Mysql.Resolved (JObj [("affectedRows", JNum (Fin 1))]) JUndefined
    | _ => Mysql.Resolved (JArr followers) follower_columns
    end.



(** The request of the worked examples: a trade of [quantity] lots copied
    to the follower F1. *)
Definition copy_to_F1 (quantity : Q) : JsVal :=
  JObj [("followerId", JStr "F1"); ("symbol", JStr "INFY");
        ("side", JStr "Buy"); ("masterQty", JNum (Fin quantity));
        ("price", JNum (Fin 1500)); ("tradeId", JStr "T-1")].

Definition lookup_F1 : Mysql.Call :=
  {| Mysql.statement := Mysql.SelectFollowerById;
     Mysql.params := [JStr "F1"] |}.

Definition lookup_T1 : Mysql.Call :=
  {| Mysql.statement := Mysql.SelectCopied;
     Mysql.params := [JStr "T-1"; JUndefined] |}.

(** A field of the typed request as the handler reads it from the JSON. *)
Definition or_undefined (v : option JsVal) : JsVal :=
  match v with
  | Some x => x
  | None => JUndefined
  end.

(** What the handler takes from [copy_to_F1 quantity]. *)
Definition fields_to_F1 (quantity : Q) : Route.Fields :=
  {| Route.masterId := JStr "master_account";
     Route.f_followerId := JStr "F1";
     Route.listenerFollowers := JUndefined;
     Route.symbol := JStr "INFY";
     Route.side := JStr "Buy";
     Route.masterQty := JNum (Fin quantity);
     Route.price := JNum (Fin 1500);
     Route.tradeId := JStr "T-1" |}.

(** A request that names no follower. *)
Definition sell_three : JsVal :=
  JObj [("symbol", JStr "INFY"); ("side", JStr "Sell");
        ("masterQty", JNum (Fin 3)); ("price", JNum (Fin 1500));
        ("tradeId", JStr "T-9")].

Definition fields_of_sell_three : Route.Fields :=
  {| Route.masterId := JStr "master_account";
     Route.f_followerId := JUndefined;
     Route.listenerFollowers := JUndefined;
     Route.symbol := JStr "INFY";
     Route.side := JStr "Sell";
     Route.masterQty := JNum (Fin 3);
     Route.price := JNum (Fin 1500);
     Route.tradeId := JStr "T-9" |}.

(** * Properties *)

(** ** Timestamp normalizer *)

Section TimestampFacts.

Variable h : Host.


(** The premise is exact: a candidate is passed over only if it is
    [unparsed]. *)
Lemma skipped_unparsed (v : JsVal) :
  Timestamp.try_candidate h v = Timestamp.Skipped -> unparsed h v.
Proof.
  assert (Hchain : forall s,
             Timestamp.parse_value h s = None -> no_format_accepts h s).
  { intros s. unfold Timestamp.parse_value, no_format_accepts.
    destruct (Timestamp.parse_ist h s); [discriminate|].
    destruct (Timestamp.parse_date h s); [discriminate|].
    destruct (Timestamp.parse_unix h s); [discriminate|].
    simpl. intros ->. repeat split. }
  assert (Hconv : forall s,
             call_toString h v = Ok s ->
             match (if Str.is_empty (Str.trim s) then Timestamp.Skipped
                    else match Timestamp.parse_value h (Str.trim s) with
                         | Some iso => Timestamp.Parsed iso
                         | None => Timestamp.Skipped
                         end) with
             | Timestamp.Skipped => True
             | _ => False
             end ->
             unparsed h v).
  { intros s Hs Hskip. right. right. exists s. split; [exact Hs|].
    destruct (Str.trim s) as [|c rest] eqn:Et; [now left|].
    right. simpl in Hskip. apply Hchain.
    destruct (Timestamp.parse_value h (String c rest));
      [contradiction | reflexivity]. }
  unfold Timestamp.try_candidate.
  destruct v as [ | | b | n | str | items | fields];
    try (intros _; now (left + (right; left))).
  3: destruct str;
    [intros _; right; right; exists ""; split; [reflexivity | now left]|].
  all: match goal with
       | |- context [call_toString h ?v] =>
           destruct (call_toString h v) as [s|m] eqn:Es; [|discriminate]
       end;
    intros Hskip; apply (Hconv s eq_refl); now rewrite Hskip.
Qed.


Lemma ToString_printable :
  forall v, printable v = true -> exists s, ToString h v = Ok s.
Proof.
  induction v as [ | | b | n | str | items IH | fields] using JsVal_nested_ind;
    intros Hp; simpl; eauto.
  - simpl in Hp.
    induction IH as [|x rest Hx _ IHrest]; [eauto|].
    apply andb_true_iff in Hp. destruct Hp as [Hpx Hrest].
    destruct (IHrest Hrest) as [sr Hsr].
    assert (Hhead : exists sx,
               match x with
               | JUndefined | JNull => Ok ""
               | _ => ToString h x
               end = Ok sx).
    { destruct (Hx Hpx) as [sx Hsx]. destruct x; eauto. }
    destruct Hhead as [sx Hsx].
    rewrite Hsx. simpl.
    destruct rest; [eauto|].
    rewrite Hsr. simpl. eauto.
  - simpl in Hp. apply negb_true_iff in Hp. rewrite Hp. eauto.
Qed.

Lemma call_toString_printable (v : JsVal) :
  printable v = true -> v <> JUndefined -> v <> JNull ->
  exists s, call_toString h v = Ok s.
Proof.
  intros Hp Hu Hn.
  destruct v; try congruence; try (apply (ToString_printable _ Hp)).
  simpl in *. apply negb_true_iff in Hp. rewrite Hp. eauto.
Qed.

Lemma try_candidate_printable (v : JsVal) :
  printable v = true ->
  forall m, Timestamp.try_candidate h v <> Timestamp.Raised m.
Proof.
  intros Hp m.
  destruct v as [ | | b | n | str | items | fields];
    try (simpl; discriminate).
  all: unfold Timestamp.try_candidate.
  3: destruct str; [discriminate|].
  all: match goal with
       | |- context [call_toString h ?v] =>
           destruct (call_toString_printable v Hp) as [s ->];
           [discriminate | discriminate | ]
       end.
  all: destruct (Str.is_empty (Str.trim s)); [discriminate|];
    destruct (Timestamp.parse_value h (Str.trim s)); discriminate.
Qed.

Lemma scan_printable (d : JsRecord) (keys : list string) :
  (forall key, In key keys -> printable (get key d) = true) ->
  exists found, Timestamp.scan h d keys = Ok found.
Proof.
  induction keys as [|key rest IH]; intros Hall; [simpl; eauto|].
  simpl.
  destruct (Timestamp.try_candidate h (get key d)) as [iso | | m] eqn:E.
  - eauto.
  - apply IH. intros k Hk. apply Hall. now right.
  - exfalso. eapply try_candidate_printable; [|exact E].
    apply Hall. now left.
Qed.

End TimestampFacts.




(** On a host whose local zone is UTC the fixed pattern is read as
    UTC+5:30. *)
Lemma fill_time_on_utc_host (h : Host) (fallbackTime : option string) :
  Timestamp.parseTradeTimestamp (in_zone 0 h) fill_time_record fallbackTime
  = Ok "2024-02-10T09:00:45.000Z".
Proof. reflexivity. Qed.

(** C8.  On a host whose local zone is UTC+5:30 the record
    {"FillTime":"2024-02-10 14:30:45"} is normalized to
    "2024-02-10T03:30:45.000Z": the components are read in the local zone of
    the host and 5:30 is subtracted once more. *)
Theorem fill_time_on_kolkata_host (h : Host) (fallbackTime : option string) :
  Timestamp.parseTradeTimestamp (in_zone 19800000 h) fill_time_record
                                fallbackTime
  = Ok "2024-02-10T03:30:45.000Z".
Proof. reflexivity. Qed.

(** C10, as stated, fails: a candidate field holding an object with an own
    [toString] property makes the normalizer throw. *)
Lemma normalizer_throws_on_shadowed_toString :
  ~ (forall (h : Host) (d : JsRecord) (fallbackTime : option string),
        exists s, Timestamp.parseTradeTimestamp h d fallbackTime = Ok s).
Proof.
  intros H. destruct (H strict_host shadowed_record None) as [s Hs].
  discriminate Hs.
Qed.

(** C10, amended.  For every record whose candidate fields hold values that
    convert to a string, and every optional fallback, the normalizer returns
    a string and does not throw. *)
Theorem normalizer_total_on_printable
        (h : Host) (d : JsRecord) (fallbackTime : option string) :
  (forall key, In key Timestamp.candidate_keys ->
               printable (get key d) = true) ->
  exists s, Timestamp.parseTradeTimestamp h d fallbackTime = Ok s.
Proof.
  intros Hall. unfold Timestamp.parseTradeTimestamp.
  destruct (scan_printable h d _ Hall) as [found ->]. simpl.
  destruct found as [iso|]; [eauto|].
  destruct fallbackTime as [fb|]; [|eauto].
  destruct (Timestamp.truthy_string (Some fb)); eauto.
Qed.

Lemma normalizer_total_on_printable_witness :
  exists s, Timestamp.parseTradeTimestamp
              strict_host
              [("FillTime", JArr [JNull; JNum (Fin 1); JObj []]);
               ("time", JStr "14:30")] None = Ok s.
Proof.
  apply (normalizer_total_on_printable strict_host).
  intros key Hin. unfold Timestamp.candidate_keys in Hin.
  repeat (destruct Hin as [<- | Hin]; [reflexivity|]).
  destruct Hin.
Defined.

(** ** Retrying client *)

Section RetryFacts.

Variable env : Env.
Variable req : Request.
Variables retries backoff : nat.
Variable tr : list Event.


(** The loop entered at attempt [a] with enough turns left stops at some
    attempt [n]: the attempts in between failed, attempt [n] decides. *)
Lemma loop_stops (fuel a : nat) :
  (a <= retries)%nat -> (retries - a < fuel)%nat ->
  exists n, (a <= n <= retries)%nat
    /\ (forall k, (a <= k < n)%nat -> exists err, Retry.verdict (fetch env (history req backoff tr k) req) = Threw err)
    /\ Retry.loop env req retries backoff fuel a (history req backoff tr a)
       = Some (Retry.verdict (fetch env (history req backoff tr n) req), EvFetch req :: history req backoff tr n)
    /\ ((n < retries)%nat -> exists res, Retry.verdict (fetch env (history req backoff tr n) req) = Ok res).
Proof.
  revert a. induction fuel as [|fuel IH]; intros a Ha Hfuel; [lia|].
  simpl. apply Nat.leb_le in Ha as Hle. rewrite Hle.
  destruct (Retry.verdict (fetch env (history req backoff tr a) req)) as [res|err] eqn:E.
  - exists a. split; [lia|]. split; [intros k Hk; lia|].
    split; [now rewrite E|].
    intros _. exists res. exact E.
  - destruct (Nat.eqb_spec a retries) as [Heq | Hne].
    + exists a. split; [lia|]. split; [intros k Hk; lia|].
      split; [now rewrite E|].
      intros Hlt. lia.
    + destruct (IH (S a)) as (n & Hn & Hfail & Hrun & Hlast); try lia.
      exists n. split; [lia|]. split; [|split; [exact Hrun | exact Hlast]].
      intros k Hk. destruct (Nat.eq_dec k a) as [-> | Hka].
      * exists err. exact E.
      * apply Hfail. lia.
Qed.

Lemma fetchWithRetry_stops :
  exists n, (n <= retries)%nat
    /\ (forall k, (k < n)%nat -> exists err, Retry.verdict (fetch env (history req backoff tr k) req) = Threw err)
    /\ Retry.fetchWithRetry env req retries backoff tr
       = (Retry.verdict (fetch env (history req backoff tr n) req), EvFetch req :: history req backoff tr n)
    /\ ((n < retries)%nat -> exists res, Retry.verdict (fetch env (history req backoff tr n) req) = Ok res).
Proof.
  destruct (loop_stops (retries + 2) 0) as (n & Hn & Hfail & Hrun & Hlast);
    try lia.
  exists n. split; [lia|]. split; [intros k Hk; apply Hfail; lia|].
  split; [|exact Hlast].
  unfold Retry.fetchWithRetry.
  change (history req backoff tr 0%nat) with tr in Hrun. now rewrite Hrun.
Qed.

Lemma count_fetches_history (k : nat) :
  count_fetches (history req backoff tr k) = (k + count_fetches tr)%nat.
Proof.
  induction k as [|k IH]; [reflexivity|].
  unfold count_fetches in *. simpl. now rewrite IH.
Qed.

Lemma pauses_history (k : nat) :
  pauses (history req backoff tr k) = (pauses tr ++ map (Retry.delay backoff) (seq 0 k))%list.
Proof.
  induction k as [|k IH]; [simpl; now rewrite app_nil_r|].
  rewrite seq_S, map_app, app_assoc, <- IH.
  unfold pauses. simpl. reflexivity.
Qed.

(** The events a call adds are fetches and pauses only. *)
Lemma history_extends (k : nat) :
  exists added, history req backoff tr k = (added ++ tr)%list
    /\ Forall net_event added.
Proof.
  induction k as [|k (added & Hadd & Hall)].
  - exists []. split; [reflexivity | constructor].
  - exists (EvSleep (Retry.delay backoff k) :: EvFetch req :: added).
    split; [simpl; now rewrite Hadd|].
    repeat constructor. exact Hall.
Qed.

Lemma fetchWithRetry_extends :
  exists added,
    snd (Retry.fetchWithRetry env req retries backoff tr)
    = (added ++ tr)%list
    /\ Forall net_event added.
Proof.
  destruct fetchWithRetry_stops as (n & _ & _ & Hrun & _).
  destruct (history_extends n) as (added & Hadd & Hnet).
  exists (EvFetch req :: added). rewrite Hrun. simpl. rewrite Hadd.
  split; [reflexivity|]. constructor; [exact I | exact Hnet].
Qed.

End RetryFacts.

(** C4, as stated, fails: with the default [retries = 3] an endpoint that
    always answers 500 is fetched four times, not three. *)
Lemma default_client_makes_a_fourth_attempt :
  ~ (count_fetches
       (snd (Retry.fetchWithRetry down_env ping Retry.default_retries
                                  Retry.default_backoff []))
     <= 3)%nat.
Proof. vm_compute. lia. Qed.

(** What the caller sees after the fourth failure. *)
Lemma default_client_exhausted :
  Retry.fetchWithRetry down_env ping Retry.default_retries
                       Retry.default_backoff []
  = (Threw "HTTP 500: down",
     [EvFetch ping; EvSleep 2000; EvFetch ping; EvSleep 1000;
      EvFetch ping; EvSleep 500; EvFetch ping]).
Proof. reflexivity. Qed.

(** C4, amended.  A call makes at most [retries + 1] attempts (four by
    default).  It stops at some attempt [n <= retries]: every attempt before
    [n] failed (a response outside 2xx or a network error) and was followed
    by a pause of [backoff * 2^k] milliseconds; attempt [n] either succeeded
    and its response is returned, or [n = retries] and its error is thrown,
    which for a response outside 2xx is "HTTP <status>: <body>". *)
Theorem fetchWithRetry_bounded_backoff
        (env : Env) (req : Request) (retries backoff : nat)
        (tr : list Event) :
  exists n,
    (n <= retries)%nat
    /\ (forall k, (k < n)%nat ->
          exists err,
            Retry.verdict (fetch env (history req backoff tr k) req)
            = Threw err)
    /\ Retry.fetchWithRetry env req retries backoff tr
       = (Retry.verdict (fetch env (history req backoff tr n) req),
          EvFetch req :: history req backoff tr n)
    /\ count_fetches (EvFetch req :: history req backoff tr n)
       = (S n + count_fetches tr)%nat
    /\ pauses (EvFetch req :: history req backoff tr n)
       = (pauses tr ++ map (fun k => (backoff * 2 ^ k)%nat) (seq 0 n))%list
    /\ ((n < retries)%nat ->
        exists res,
          Retry.verdict (fetch env (history req backoff tr n) req) = Ok res)
    /\ (forall res,
          fetch env (history req backoff tr n) req = Responded res ->
          Retry.res_ok res = false ->
          n = retries
          /\ fst (Retry.fetchWithRetry env req retries backoff tr)
             = Threw ("HTTP " ++ Str.of_nat (res_status res) ++ ": "
                              ++ match res_text res with
                                 | Ok body => body
                                 | Threw _ => ""
                                 end)).
Proof.
  destruct (fetchWithRetry_stops env req retries backoff tr)
    as (n & Hn & Hfail & Hrun & Hlast).
  exists n. split; [exact Hn|]. split; [exact Hfail|]. split; [exact Hrun|].
  split; [|split; [|split; [exact Hlast|intros res H H0; split]]].
  - change (count_fetches (EvFetch req :: history req backoff tr n))
      with (S (count_fetches (history req backoff tr n))).
    now rewrite count_fetches_history.
  - change (pauses (EvFetch req :: history req backoff tr n))
      with (pauses (history req backoff tr n)).
    apply pauses_history.
  - destruct (Nat.eq_dec n retries) as [E|E]; [exact E|].
    destruct Hlast as [r Hr]; [lia|].
    unfold Retry.verdict in Hr. rewrite H, H0 in Hr. discriminate.
  - rewrite Hrun. simpl. unfold Retry.verdict. rewrite H, H0. reflexivity.
Qed.

(** ** De-duplication and ordering of a batch *)

Section BatchFacts.

Lemma has_cons (seen : list string) (k k' : string) :
  Batch.has (k' :: seen) k = String.eqb k k' || Batch.has seen k.
Proof. reflexivity. Qed.

Lemma filter_seen_fresh (l : list Batch.Trade) :
  forall seen t, In t (Batch.filter_seen seen l) ->
                 Batch.has seen (Batch.id t) = false.
Proof.
  induction l as [|x rest IH]; intros seen t Hin; [destruct Hin|].
  simpl in Hin. destruct (Batch.has seen (Batch.id x)) eqn:E.
  - now apply IH.
  - destruct Hin as [<- | Hin]; [exact E|].
    apply IH in Hin. rewrite has_cons in Hin.
    now apply orb_false_iff in Hin.
Qed.

Lemma filter_seen_NoDup (l : list Batch.Trade) :
  forall seen, NoDup (map Batch.id (Batch.filter_seen seen l)).
Proof.
  induction l as [|x rest IH]; intros seen; [constructor|].
  simpl. destruct (Batch.has seen (Batch.id x)); [apply IH|].
  simpl. constructor; [|apply IH].
  intros Hin. apply in_map_iff in Hin. destruct Hin as (t & Hid & Hin).
  apply filter_seen_fresh in Hin. rewrite has_cons, Hid in Hin.
  rewrite String.eqb_refl in Hin. discriminate.
Qed.

Lemma filter_seen_first (l : list Batch.Trade) :
  forall seen k, Batch.has seen k = false ->
                 first_with k (Batch.filter_seen seen l) = first_with k l.
Proof.
  unfold first_with.
  induction l as [|x rest IH]; intros seen k Hk; [reflexivity|].
  simpl. unfold with_id at 2.
  destruct (Batch.has seen (Batch.id x)) eqn:E.
  - destruct (String.eqb_spec (Batch.id x) k) as [<- | Hne].
    + congruence.
    + now apply IH.
  - simpl. unfold with_id at 1.
    destruct (String.eqb_spec (Batch.id x) k) as [Heq | Hne];
      [reflexivity|].
    apply IH. rewrite has_cons, Hk, orb_false_r.
    apply String.eqb_neq. congruence.
Qed.

Lemma filter_seen_order (l : list Batch.Trade) :
  forall seen, kept_in_order (Batch.filter_seen seen l) l.
Proof.
  induction l as [|x rest IH]; intros seen; [constructor|].
  simpl. destruct (Batch.has seen (Batch.id x)); constructor; apply IH.
Qed.

(** *** The map of [fetchTrades] *)

Lemma assoc_map_set (k k' : string) (v : Batch.Trade) m :
  assoc k' (Batch.map_set k v m)
  = if String.eqb k k' then Some v else assoc k' m.
Proof.
  unfold assoc. induction m as [|[k0 v0] m IH]; simpl.
  - destruct (String.eqb k k'); reflexivity.
  - destruct (String.eqb_spec k0 k) as [-> | Hne]; simpl.
    + destruct (String.eqb k k'); reflexivity.
    + destruct (String.eqb_spec k0 k') as [-> | Hne'].
      * apply String.eqb_neq in Hne. rewrite String.eqb_sym in Hne.
        now rewrite Hne.
      * exact IH.
Qed.

Lemma map_set_keys (k : string) (v : Batch.Trade) m x :
  In x (map fst (Batch.map_set k v m)) -> x = k \/ In x (map fst m).
Proof.
  induction m as [|[k0 v0] m IH]; simpl.
  - intros [<- | []]. now left.
  - destruct (String.eqb_spec k0 k) as [-> | Hne]; simpl.
    + intros [<- | Hin]; auto.
    + intros [<- | Hin]; auto. destruct (IH Hin); auto.
Qed.

Lemma map_set_NoDup (k : string) (v : Batch.Trade) m :
  NoDup (map fst m) -> NoDup (map fst (Batch.map_set k v m)).
Proof.
  induction m as [|[k0 v0] m IH]; simpl; intros Hnd.
  - constructor; [intros []|constructor].
  - inversion Hnd as [|? ? Hnotin Hnd']; subst.
    destruct (String.eqb_spec k0 k) as [-> | Hne]; simpl.
    + now constructor.
    + constructor; [|now apply IH].
      intros Hin. apply map_set_keys in Hin. destruct Hin; congruence.
Qed.

Lemma map_set_well_keyed (t : Batch.Trade) m :
  well_keyed m -> well_keyed (Batch.map_set (Batch.id t) t m).
Proof.
  unfold well_keyed.
  induction m as [|[k0 v0] m IH]; simpl; intros Hwk.
  - now repeat constructor.
  - inversion Hwk as [|? ? Hhead Htail]; subst.
    destruct (String.eqb_spec k0 (Batch.id t)) as [-> | Hne].
    + constructor; [reflexivity | exact Htail].
    + constructor; [exact Hhead | now apply IH].
Qed.

Lemma find_app_last (k : string) (l : list Batch.Trade) (x : Batch.Trade) :
  find (with_id k) (l ++ [x])
  = match find (with_id k) l with
    | Some t => Some t
    | None => if with_id k x then Some x else None
    end.
Proof.
  induction l as [|y l IH]; simpl; [reflexivity|].
  destruct (with_id k y); [reflexivity | exact IH].
Qed.

Lemma fold_map_set (l : list Batch.Trade) :
  forall m, NoDup (map fst m) -> well_keyed m ->
    let m' := fold_left (fun m t => Batch.map_set (Batch.id t) t m) l m in
    NoDup (map fst m') /\ well_keyed m'
    /\ forall k, assoc k m' = match last_with k l with
                              | Some t => Some t
                              | None => assoc k m
                              end.
Proof.
  induction l as [|x rest IH]; intros m Hnd Hwk; simpl.
  - split; [assumption|]. split; [assumption|].
    intros k. unfold last_with. simpl. reflexivity.
  - destruct (IH (Batch.map_set (Batch.id x) x m)) as (Hnd' & Hwk' & Hk).
    + now apply map_set_NoDup.
    + now apply map_set_well_keyed.
    + split; [assumption|]. split; [assumption|].
      intros k. rewrite Hk. unfold last_with. simpl.
      rewrite find_app_last.
      destruct (find (with_id k) (rev rest)); [reflexivity|].
      rewrite assoc_map_set. unfold with_id.
      destruct (String.eqb (Batch.id x) k); reflexivity.
Qed.

Lemma assoc_values m (k : string) :
  well_keyed m -> first_with k (map snd m) = assoc k m.
Proof.
  unfold first_with, assoc, well_keyed.
  induction m as [|[k0 v0] m IH]; simpl; intros Hwk; [reflexivity|].
  inversion Hwk as [|? ? Hhead Htail]; subst. simpl in Hhead.
  unfold with_id at 1. rewrite Hhead.
  destruct (String.eqb k0 k); [reflexivity | now apply IH].
Qed.

Lemma keys_of_values m :
  well_keyed m -> map Batch.id (map snd m) = map fst m.
Proof.
  unfold well_keyed. induction 1 as [|[k0 v0] m Hhead _ IH]; simpl;
    [reflexivity|].
  simpl in Hhead. now rewrite Hhead, IH.
Qed.

(** *** The sort *)

Lemma insert_perm cmp (x : Batch.Trade) (l : list Batch.Trade) :
  Permutation (Batch.insert cmp x l) (x :: l).
Proof.
  induction l as [|y l IH]; simpl; [reflexivity|].
  destruct (cmp x y <=? 0); [reflexivity|].
  rewrite IH. apply perm_swap.
Qed.

Lemma sort_perm cmp (l : list Batch.Trade) :
  Permutation (Batch.sort cmp l) l.
Proof.
  induction l as [|x l IH]; simpl; [reflexivity|].
  rewrite insert_perm. now constructor.
Qed.

Lemma first_with_unique (l : list Batch.Trade) (t : Batch.Trade) :
  NoDup (map Batch.id l) -> In t l -> first_with (Batch.id t) l = Some t.
Proof.
  unfold first_with.
  induction l as [|x l IH]; simpl; intros Hnd Hin; [destruct Hin|].
  inversion Hnd as [|? ? Hnotin Hnd']; subst. unfold with_id at 1.
  destruct Hin as [-> | Hin]; [now rewrite String.eqb_refl|].
  destruct (String.eqb_spec (Batch.id x) (Batch.id t)) as [Heq | Hne].
  - exfalso. apply Hnotin. rewrite Heq. now apply in_map.
  - now apply IH.
Qed.

Lemma first_with_perm (l l' : list Batch.Trade) (k : string) :
  NoDup (map Batch.id l) -> Permutation l l' ->
  first_with k l' = first_with k l.
Proof.
  intros Hnd Hperm.
  assert (Hnd' : NoDup (map Batch.id l'))
    by (eapply Permutation_NoDup; [apply Permutation_map; exact Hperm|];
        exact Hnd).
  destruct (first_with k l) as [t|] eqn:E.
  - apply find_some in E. destruct E as [Hin Hid].
    unfold with_id in Hid. apply String.eqb_eq in Hid. subst k.
    apply first_with_unique; [exact Hnd'|].
    eapply Permutation_in; eassumption.
  - destruct (first_with k l') as [t|] eqn:E'; [|reflexivity].
    apply find_some in E'. destruct E' as [Hin Hid].
    eapply find_none in E;
      [|eapply Permutation_in; [symmetry; exact Hperm | exact Hin]].
    congruence.
Qed.

Variable h : Host.

Lemma compare_desc_le (a b : Batch.Trade) :
  readable h a -> readable h b ->
  (Batch.compare_desc h a b <= 0 <-> not_older h a b).
Proof.
  unfold readable, Batch.compare_desc, not_older. intros Ha Hb.
  destruct (Batch.getTime h a) as [ta|]; [|congruence].
  destruct (Batch.getTime h b) as [tb|]; [|congruence].
  split.
  - intros Hle. exists ta, tb. repeat split. lia.
  - intros (ta' & tb' & Ea & Eb & Hle).
    injection Ea as <-. injection Eb as <-. lia.
Qed.

Lemma not_older_trans (a b c : Batch.Trade) :
  not_older h a b -> not_older h b c -> not_older h a c.
Proof.
  intros (ta & tb & Ea & Eb & Hab) (tb' & tc & Eb' & Ec & Hbc).
  rewrite Eb in Eb'. injection Eb' as <-.
  exists ta, tc. repeat split; try assumption. lia.
Qed.

Lemma not_older_total (a b : Batch.Trade) :
  readable h a -> readable h b -> ~ Batch.compare_desc h a b <= 0 ->
  not_older h b a.
Proof.
  unfold readable, Batch.compare_desc, not_older. intros Ha Hb.
  destruct (Batch.getTime h a) as [ta|]; [|congruence].
  destruct (Batch.getTime h b) as [tb|]; [|congruence].
  intros Hgt. exists tb, ta. repeat split. lia.
Qed.

Lemma insert_sorted (x : Batch.Trade) (l : list Batch.Trade) :
  readable h x -> Forall (readable h) l -> newest_first h l ->
  newest_first h (Batch.insert (Batch.compare_desc h) x l).
Proof.
  unfold newest_first. intros Hx Hl Hs.
  induction Hs as [|y l Hs IH Hy]; simpl.
  - repeat constructor.
  - inversion Hl as [|? ? Hry Hrl]; subst.
    destruct (Z.leb_spec (Batch.compare_desc h x y) 0) as [Hle | Hgt].
    + apply compare_desc_le in Hle; try assumption.
      constructor; [now constructor|].
      constructor; [exact Hle|].
      eapply Forall_impl; [|exact Hy].
      intros z Hyz. eapply not_older_trans; eassumption.
    + constructor; [now apply IH|].
      apply Forall_forall. intros z Hz.
      eapply Permutation_in in Hz; [|apply insert_perm].
      destruct Hz as [<- | Hz].
      * apply not_older_total; try assumption. lia.
      * eapply Forall_forall in Hy; eassumption.
Qed.

Lemma sort_sorted (l : list Batch.Trade) :
  Forall (readable h) l ->
  newest_first h (Batch.sort (Batch.compare_desc h) l).
Proof.
  induction 1 as [|x l Hx Hl IH]; simpl; [constructor|].
  apply insert_sorted; try assumption.
  eapply Permutation_Forall; [symmetry; apply sort_perm | exact Hl].
Qed.

Lemma uniqueMap_facts (mapped : list Batch.Trade) :
  NoDup (map fst (Batch.uniqueMap mapped))
  /\ well_keyed (Batch.uniqueMap mapped)
  /\ forall k, assoc k (Batch.uniqueMap mapped) = last_with k mapped.
Proof.
  destruct (fold_map_set mapped [] (NoDup_nil _) (Forall_nil _))
    as (Hnd & Hwk & Hk).
  split; [assumption|]. split; [assumption|].
  intros k. unfold Batch.uniqueMap. rewrite Hk.
  destruct (last_with k mapped); reflexivity.
Qed.

Lemma values_in_batch (mapped : list Batch.Trade) (t : Batch.Trade) :
  In t (map snd (Batch.uniqueMap mapped)) -> In t mapped.
Proof.
  destruct (uniqueMap_facts mapped) as (Hnd & Hwk & Hk).
  intros Hin.
  assert (Hfirst : first_with (Batch.id t)
                              (map snd (Batch.uniqueMap mapped)) = Some t).
  { apply first_with_unique; [|exact Hin].
    now rewrite keys_of_values. }
  rewrite assoc_values, Hk in Hfirst by assumption.
  apply find_some in Hfirst. destruct Hfirst as [Hrev _].
  now apply in_rev.
Qed.

End BatchFacts.

(** C7, as stated, fails on both steps: [getMasterTrades] leaves the batch in
    arrival order, and [fetchTrades] keeps the last record of an identifier,
    not the first. *)
Lemma neither_step_keeps_first_and_sorts :
  ~ newest_first two_instant_host (Batch.deduped older_first)
  /\ first_with "T1" (Batch.sorted two_instant_host repeated)
     <> first_with "T1" repeated.
Proof.
  split.
  - intros Hs. inversion Hs as [|? ? _ Hall]; subst.
    inversion Hall as [|? ? (ta & tb & Ea & Eb & Hle) _]; subst.
    vm_compute in Ea, Eb. injection Ea as <-. injection Eb as <-. lia.
  - vm_compute. intros E. discriminate E.
Qed.

(** C7, amended.  [getMasterTrades] returns the batch without repeated
    identifiers, the first record of each identifier kept, in arrival order
    and unsorted.  [fetchTrades] returns a list without repeated identifiers
    that holds the last record of each identifier and, when every timestamp
    is readable, is sorted newest first. *)
Theorem batch_dedup_and_order (h : Host) (mapped : list Batch.Trade) :
  (NoDup (map Batch.id (Batch.deduped mapped))
   /\ (forall k, first_with k (Batch.deduped mapped) = first_with k mapped)
   /\ kept_in_order (Batch.deduped mapped) mapped)
  /\ (NoDup (map Batch.id (Batch.sorted h mapped))
      /\ (forall k, first_with k (Batch.sorted h mapped)
                    = last_with k mapped)
      /\ ((forall t, In t mapped -> Batch.getTime h t <> None) ->
          newest_first h (Batch.sorted h mapped))).
Proof.
  split; [split; [|split]|].
  - apply filter_seen_NoDup.
  - intros k. now apply filter_seen_first.
  - apply filter_seen_order.
  - destruct (uniqueMap_facts mapped) as (Hnd & Hwk & Hk).
    assert (Hvals : NoDup (map Batch.id (map snd (Batch.uniqueMap mapped))))
      by now rewrite keys_of_values.
    split; [|split].
    + eapply Permutation_NoDup; [|exact Hvals].
      apply Permutation_map. symmetry. apply sort_perm.
    + intros k. unfold Batch.sorted.
      rewrite (first_with_perm _ _ k Hvals)
        by (symmetry; apply sort_perm).
      now rewrite assoc_values, Hk.
    + intros Hread. apply sort_sorted.
      apply Forall_forall. intros t Hin. apply Hread.
      now apply values_in_batch.
Qed.

Lemma batch_dedup_and_order_witness :
  newest_first two_instant_host
               (Batch.sorted two_instant_host (older_first ++ repeated)).
Proof.
  apply (batch_dedup_and_order two_instant_host (older_first ++ repeated)).
  intros t Hin. simpl in Hin.
  repeat (destruct Hin as [<- | Hin]; [discriminate|]).
  destruct Hin.
Defined.

Section HandlerFacts.

Import FanOut.

Variable env : Env.

Lemma POST_rejects (nonce : string) (body : Body) (w : World) (msg : string) :
  validate body = inl msg -> POST env nonce body w = (reject 400 msg, w).
Proof. unfold POST. now intros ->. Qed.

End HandlerFacts.



(** C9.  A masterQty or a price that is present and equal to 0 is read as
    missing: the call answers 400 "Missing required trade fields: symbol,
    side, masterQty, price" and nothing is fanned out. *)
Theorem zero_quantity_or_price_is_rejected
        (env : Env) (nonce : string) (body : FanOut.Body) (w : FanOut.World) :
  (exists q, FanOut.masterQty body = Some q /\ (q == 0)%Q)
  \/ (exists p, FanOut.price body = Some p /\ (p == 0)%Q) ->
  FanOut.POST env nonce body w
  = ({| FanOut.http_status := 400;
        FanOut.ok := false;
        FanOut.message :=
          "Missing required trade fields: symbol, side, masterQty, price";
        FanOut.copyTradeId := None;
        FanOut.masterTradeId := None;
        FanOut.results := [];
        FanOut.summary := None |}, w).
Proof.
  intros Hzero.
  assert (Hv : FanOut.validate body = inl FanOut.missing_fields).
  { unfold FanOut.validate.
    destruct (FanOut.symbol body) as [sym|], (FanOut.side body) as [sd|],
      (FanOut.masterQty body) as [qty|], (FanOut.price body) as [prc|];
      try reflexivity.
    assert (Hfalse : truthy_num (Some qty) = false
                     \/ truthy_num (Some prc) = false).
    { destruct Hzero as [(q & Hq & Hz) | (p & Hp & Hz)].
      - left. injection Hq as ->. simpl.
        apply Qeq_bool_iff in Hz. now rewrite Hz.
      - right. injection Hp as ->. simpl.
        apply Qeq_bool_iff in Hz. now rewrite Hz. }
    destruct Hfalse as [-> | ->]; simpl;
      rewrite ?orb_true_r; reflexivity. }
  now rewrite (POST_rejects env _ _ _ _ Hv).
Qed.

Lemma zero_quantity_or_price_is_rejected_witness :
  FanOut.http_status
    (fst (FanOut.POST up_env "run-1" (copy_request (Some 0%Q) (Some "T-1"))
                      (fresh_store [alice; bob]))) = 400%nat
  /\ snd (FanOut.POST up_env "run-1" (copy_request (Some 0%Q) (Some "T-1"))
                      (fresh_store [alice; bob]))
     = fresh_store [alice; bob].
Proof.
  rewrite (zero_quantity_or_price_is_rejected
             up_env "run-1" (copy_request (Some 0%Q) (Some "T-1"))
             (fresh_store [alice; bob])).
  - split; reflexivity.
  - left. exists 0%Q. split; reflexivity.
Defined.


(** * Further properties *)

(** ** Timestamp normalizer: order of the candidates, zones, Unix times *)

Section NormalizerOrder.

Variable h : Host.




End NormalizerOrder.





(** ** Retrying client: what a call costs when it is exhausted *)

Lemma sum_of_delays (backoff n : nat) :
  (list_sum (map (Retry.delay backoff) (seq 0 n)) + backoff
   = backoff * 2 ^ n)%nat.
Proof.
  induction n as [|n IH]; [simpl; lia|].
  rewrite seq_S, map_app, list_sum_app. simpl.
  unfold Retry.delay at 2. lia.
Qed.

(** X4.  Against an endpoint that fails whatever came before, a call makes
    [retries + 1] fetches, pauses [retries] times for
    [backoff * (2^retries - 1)] milliseconds in all, and throws the error of
    the last attempt; it does not pause after that attempt. *)
Theorem exhausted_call_fetches_and_pauses
        (env : Env) (req : Request) (retries backoff : nat)
        (tr : list Event) :
  (forall past, exists err, Retry.verdict (fetch env past req) = Threw err) ->
  exists err,
    Retry.fetchWithRetry env req retries backoff tr
    = (Threw err, EvFetch req :: history req backoff tr retries)
    /\ Retry.verdict (fetch env (history req backoff tr retries) req)
       = Threw err
    /\ count_fetches
         (snd (Retry.fetchWithRetry env req retries backoff tr))
       = (S retries + count_fetches tr)%nat
    /\ (list_sum
          (pauses (snd (Retry.fetchWithRetry env req retries backoff tr)))
        + backoff
        = list_sum (pauses tr) + backoff * 2 ^ retries)%nat.
Proof.
  intros Hdown.
  destruct (fetchWithRetry_stops env req retries backoff tr)
    as (n & Hn & _ & Hrun & Hlast).
  assert (n = retries) as ->.
  { destruct (Nat.eq_dec n retries) as [E | E]; [exact E|].
    destruct Hlast as [res Hres]; [lia|].
    destruct (Hdown (history req backoff tr n)) as [err Herr]. congruence. }
  destruct (Hdown (history req backoff tr retries)) as [err Herr].
  exists err. rewrite Hrun, Herr. split; [reflexivity|].
  split; [reflexivity|]. split.
  - change (count_fetches (snd (?a, ?b))) with (count_fetches b).
    change (count_fetches (EvFetch req :: history req backoff tr retries))
      with (S (count_fetches (history req backoff tr retries))).
    now rewrite count_fetches_history.
  - change (pauses (snd (?a, EvFetch req :: ?b))) with (pauses b).
    rewrite pauses_history, list_sum_app.
    pose proof (sum_of_delays backoff retries). lia.
Qed.

Lemma exhausted_call_fetches_and_pauses_witness :
  exists err,
    Retry.fetchWithRetry down_env ping 3 500 []
    = (Threw err, EvFetch ping :: history ping 500 [] 3)
    /\ list_sum (pauses (snd (Retry.fetchWithRetry down_env ping 3 500 [])))
       = 3500%nat.
Proof.
  destruct (exhausted_call_fetches_and_pauses down_env ping 3 500 [])
    as (err & Hrun & _ & _ & Hsum).
  - intros past. exists "HTTP 500: down". reflexivity.
  - exists err. split; [exact Hrun | reflexivity].
Defined.

(** * The history of a call of the client *)

Lemma history_shape (req : Request) (backoff : nat) (tr : list Event)
      (k : nat) :
  exists added,
    history req backoff tr k = (added ++ tr)%list
    /\ Forall (fun e => match e with
                        | EvSleep _ => True
                        | EvFetch r => r = req
                        | _ => False
                        end) added.
Proof.
  induction k as [|k (added & Hadd & Hall)].
  - exists []. split; [reflexivity | constructor].
  - exists (EvSleep (Retry.delay backoff k) :: EvFetch req :: added).
    split; [simpl; now rewrite Hadd|].
    constructor; [exact I|]. constructor; [reflexivity | exact Hall].
Qed.



(** * Reading broker payloads *)

Section PayloadFacts.

Import Payload.

Lemma first_array_finds (payload : JsVal) (pre : list string) (k : string)
    (post : list string) (items : list JsVal) :
get_opt k payload = JArr items ->
(forall k' xs, In k' pre -> get_opt k' payload <> JArr xs) ->
first_array (pre ++ k :: post) payload = items.
Proof.
intros Hk Hpre. induction pre as [|k' pre IH]; simpl.
- now rewrite Hk.
- assert (Hnot : forall xs, get_opt k' payload <> JArr xs)
    by (intros xs; apply Hpre; now left).
  destruct (get_opt k' payload) eqn:E;
    try (apply IH; intros k2 xs Hin; apply Hpre; now right).
  now destruct (Hnot items0).
Qed.








End PayloadFacts.

(** * The status of a failed trades request *)

Section RouteStatus.

Import TradesRoute.

Lemma three_digits_read_back :
forallb reads_back (seq 100 900) = true.
Proof. vm_compute. reflexivity. Qed.

Lemma status_digits (n : nat) :
(100 <= n <= 999)%nat ->
exists d1 d2 d3,
  Str.of_nat n = String d1 (String d2 (String d3 EmptyString))
  /\ all_digits [d1; d2; d3] = true
  /\ digits_value [d1; d2; d3] = n.
Proof.
intros Hn.
assert (Hin : In n (seq 100 900)) by (apply in_seq; lia).
pose proof (proj1 (forallb_forall reads_back (seq 100 900))
              three_digits_read_back n Hin) as Hr.
unfold reads_back in Hr.
rewrite <- (string_of_list_ascii_of_string (Str.of_nat n)).
destruct (list_ascii_of_string (Str.of_nat n))
  as [|d1 [|d2 [|d3 [|d4 l]]]]; try discriminate.
apply andb_prop in Hr as [Hd Hv]. apply Nat.eqb_eq in Hv.
exists d1, d2, d3. repeat split; auto.
Qed.

Lemma error_status_http (n : nat) (rest : string) :
(100 <= n <= 999)%nat ->
error_status ("HTTP " ++ Str.of_nat n ++ rest) = n.
Proof.
intros Hn. destruct (status_digits n Hn) as (d1 & d2 & d3 & Hs & Hd & Hv).
unfold error_status. rewrite Hs.
cbn [append list_ascii_of_string find_status].
rewrite Hd. exact Hv.
Qed.

End RouteStatus.

(** X13.  A payload that is not itself an array is unwrapped under the first
    of the keys orders, trades, result, data that holds an array: that
    array is the result, whatever the later keys hold. *)
Theorem first_wrapper_key_with_an_array_wins
        (payload : JsVal) (pre : list string) (k : string)
        (post : list string) (items : list JsVal) :
  Payload.wrapper_keys = (pre ++ k :: post)%list ->
  get_opt k payload = JArr items ->
  (forall k' xs, In k' pre -> get_opt k' payload <> JArr xs) ->
  Payload.extractArrayFromPayload payload = items.
Proof.
  intros Hkeys Hk Hpre. unfold Payload.extractArrayFromPayload.
  destruct payload; try discriminate. simpl negb. cbv iota.
  rewrite Hkeys. now apply first_array_finds.
Qed.

Lemma first_wrapper_key_with_an_array_wins_witness :
  Payload.extractArrayFromPayload
    (JObj [("trades", JStr "none"); ("data", JArr [JStr "fill"]);
           ("orders", JNull)])
  = [JStr "fill"].
Proof.
  apply (first_wrapper_key_with_an_array_wins
           _ ["orders"; "trades"; "result"] "data" []).
  - reflexivity.
  - reflexivity.
  - intros k' xs [<- | [<- | [<- | []]]]; discriminate.
Defined.



(** X15.  When the sync route fails with the error of a broker response
    that was not ok, its answer carries the broker's status (300..599,
    other than 304, which allows no body) and the error's message: the
    status written into the message by the retrying client is the one the
    route reads back, whatever the body of the broker's response says. *)
Theorem broker_status_is_passed_on (res : Response) :
  (300 <= res_status res <= 599)%nat ->
  res_status res <> 304%nat ->
  TradesRoute.error_response (Some (Retry.http_error res))
  = Ok (res_status res, Retry.http_error res).
Proof.
  intros Hs H304. unfold TradesRoute.error_response, Retry.http_error.
  rewrite error_status_http by lia.
  destruct (Nat.leb_spec 200 (res_status res)); [|lia].
  destruct (Nat.leb_spec (res_status res) 599); [|lia].
  cbn [andb negb]. unfold TradesRoute.null_body_status. cbn [existsb].
  repeat match goal with
         | |- context [Nat.eqb (res_status res) ?n] =>
             destruct (Nat.eqb_spec (res_status res) n); [lia|]
         end.
  reflexivity.
Qed.

Lemma broker_status_is_passed_on_witness :
  TradesRoute.error_response
    (Some (Retry.http_error
             {| res_status := 503;
                res_text := Ok "upstream said HTTP 404";
                res_json := Threw "no json" |}))
  = Ok (503%nat, "HTTP 503: upstream said HTTP 404").
Proof.
  apply (broker_status_is_passed_on
           {| res_status := 503;
              res_text := Ok "upstream said HTTP 404";
              res_json := Threw "no json" |}).
  - simpl. lia.
  - discriminate.
Defined.

(** * The token store *)

Section TokenStore.

Import Tokens.

Variables (cfg : Config) (e : Engine).

Lemma TOKENS_FILE_named : Str.is_empty (TOKENS_FILE cfg) = false.
Proof.
unfold TOKENS_FILE. destruct (ALICE_OAUTH_TOKENS_FILE cfg) as [f|];
  [|reflexivity].
destruct (Str.is_empty f) eqn:E; [reflexivity | exact E].
Qed.

Lemma master_key_named : Str.is_empty (master_key cfg) = false.
Proof.
unfold master_key. destruct (ALICE_MASTER_ACCOUNT cfg) as [k|];
  [|reflexivity].
destruct (Str.is_empty k) eqn:E; [reflexivity | exact E].
Qed.

Lemma is_empty_false (s : string) : s <> "" -> Str.is_empty s = false.
Proof. destruct s; [intros H; now destruct H | reflexivity]. Qed.

Lemma has_own_replace (k key : string) (v : JsVal) (fields : JsRecord) :
has_own k (replace key v fields) = has_own k fields.
Proof.
induction fields as [|[k' old] rest IH]; [reflexivity|].
simpl. destruct (String.eqb k' key); simpl; [reflexivity|].
now rewrite IH.
Qed.

Lemma get_replace_same (key : string) (v : JsVal) (fields : JsRecord) :
has_own key fields = true -> get key (replace key v fields) = v.
Proof.
induction fields as [|[k' old] rest IH]; [discriminate|].
simpl. destruct (String.eqb k' key) eqn:E; simpl.
- now rewrite E.
- rewrite E. exact IH.
Qed.

Lemma get_replace_other (k key : string) (v : JsVal) (fields : JsRecord) :
k <> key -> get k (replace key v fields) = get k fields.
Proof.
intros Hk. induction fields as [|[k' old] rest IH]; [reflexivity|].
simpl. destruct (String.eqb_spec k' key) as [-> | Hne]; simpl.
- destruct (String.eqb_spec key k) as [-> | _]; [now destruct Hk|].
  reflexivity.
- now rewrite IH.
Qed.

Lemma has_own_app (k : string) (a b : JsRecord) :
has_own k (a ++ b)%list = has_own k a || has_own k b.
Proof.
induction a as [|[k' v] a IH]; [reflexivity|].
simpl. now rewrite IH, orb_assoc.
Qed.

Lemma get_app (k : string) (a b : JsRecord) :
get k (a ++ b)%list = if has_own k a then get k a else get k b.
Proof.
induction a as [|[k' v] a IH]; [reflexivity|].
simpl. destruct (String.eqb k' k); [reflexivity | exact IH].
Qed.

(** The assigned name reads as the assigned value. *)
Lemma lookup_assign_same (key : string) (v : JsVal) (fields : JsRecord) :
key <> "__proto__" -> lookup e key (assign key v fields) = v.
Proof.
intros Hproto. unfold lookup, assign.
destruct (has_own key fields) eqn:Hown.
- rewrite has_own_replace, Hown. now apply get_replace_same.
- destruct (String.eqb_spec key "__proto__") as [-> | _];
    [now destruct Hproto|].
  rewrite has_own_app, get_app, Hown. simpl.
  now rewrite String.eqb_refl.
Qed.

(** Every other name reads as before. *)
Lemma lookup_assign_other (k key : string) (v : JsVal) (fields : JsRecord) :
k <> key -> lookup e k (assign key v fields) = lookup e k fields.
Proof.
intros Hk. unfold lookup, assign.
destruct (has_own key fields) eqn:Hown.
- now rewrite has_own_replace, get_replace_other.
- destruct (String.eqb key "__proto__"); [reflexivity|].
  rewrite has_own_app, get_app. simpl.
  destruct (String.eqb_spec key k) as [-> | _]; [now destruct Hk|].
  simpl. rewrite orb_false_r. now destruct (has_own k fields).
Qed.

(** The store after a write that went through. *)
Lemma read_written (fs : Files) (fields : JsRecord) :
can_write fs (TOKENS_FILE cfg) = true ->
reads_back_as e fields ->
exists fields',
  readTokensFile
    cfg e (writeTokensFile cfg (JSON_stringify e fields) fs)
  = Plain fields'
  /\ forall k, lookup e k fields' = lookup e k fields.
Proof.
intros Hw (fields' & Hne & Hparse & Hsame).
exists fields'. split.
- unfold readTokensFile, writeTokensFile, write. rewrite Hw.
  cbn [first_store]. unfold read_candidate at 1.
  rewrite TOKENS_FILE_named. cbn [read]. rewrite String.eqb_refl.
  rewrite (is_empty_false _ Hne), Hparse. reflexivity.
- intros k. unfold lookup. destruct (Hsame k) as [-> ->]. reflexivity.
Qed.

Lemma getAccountToken_plain (fs : Files) (fields : JsRecord)
    (accountId : string) :
readTokensFile cfg e fs = Plain fields ->
getAccountToken cfg e fs accountId
= if Str.is_empty accountId then JUndefined
  else lookup e accountId fields.
Proof. intros H. unfold getAccountToken. now rewrite H. Qed.

End TokenStore.

(** * The time column *)

Section TimeColumn.

Import Display.




End TimeColumn.

(** X16.  A token saved for an account is the token read for that account
    afterwards, and the token of every other account reads as before the
    save, when the store is a plain object, the write goes through and the
    printed store reads back. *)
Theorem saved_token_is_read_back
        (cfg : Tokens.Config) (e : Tokens.Engine) (fs : Tokens.Files)
        (accountId token : string) (fields : JsRecord) :
  accountId <> "" -> accountId <> "__proto__" ->
  Tokens.readTokensFile cfg e fs = Tokens.Plain fields ->
  Tokens.can_write fs (Tokens.TOKENS_FILE cfg) = true ->
  reads_back_as e (Tokens.assign accountId (JStr token) fields) ->
  exists fs',
    Tokens.saveAccountToken cfg e accountId token fs = Ok fs'
    /\ Tokens.getAccountToken cfg e fs' accountId = JStr token
    /\ forall other,
         other <> accountId ->
         Tokens.getAccountToken cfg e fs' other
         = Tokens.getAccountToken cfg e fs other.
Proof.
  intros Hid Hproto Hread Hw Hback.
  destruct (read_written cfg e fs _ Hw Hback) as (fields' & Hread' & Hsame).
  eexists. split; [|split].
  - unfold Tokens.saveAccountToken.
    rewrite (is_empty_false _ Hid), Hread. reflexivity.
  - rewrite (getAccountToken_plain cfg e _ fields') by exact Hread'.
    rewrite (is_empty_false _ Hid), Hsame.
    now apply lookup_assign_same.
  - intros other Hother.
    rewrite (getAccountToken_plain cfg e _ fields') by exact Hread'.
    rewrite (getAccountToken_plain cfg e fs fields) by exact Hread.
    destruct (Str.is_empty other); [reflexivity|].
    rewrite Hsame. now apply lookup_assign_other.
Qed.

Lemma saved_token_is_read_back_witness :
  exists fs',
    Tokens.saveAccountToken plain_config one_word_engine "ACC1" "t-1" no_files
    = Ok fs'
    /\ Tokens.getAccountToken plain_config one_word_engine fs' "ACC1"
       = JStr "t-1"
    /\ forall other,
         other <> "ACC1" ->
         Tokens.getAccountToken plain_config one_word_engine fs' other
         = Tokens.getAccountToken plain_config one_word_engine no_files other.
Proof.
  apply (saved_token_is_read_back
           plain_config one_word_engine no_files "ACC1" "t-1" []).
  - discriminate.
  - discriminate.
  - reflexivity.
  - reflexivity.
  - exists [("ACC1", JStr "t-1")]. split; [discriminate|].
    split; [reflexivity|]. intros k. split; reflexivity.
Defined.

(** X17.  When the tokens file is not there and the file .alice.token holds
    a text that is not JSON, the trimmed text is the token of the master
    account (ALICE_MASTER_ACCOUNT, or Master), and no other account has a
    token. *)
Theorem single_token_file_is_the_master_token
        (cfg : Tokens.Config) (e : Tokens.Engine) (fs : Tokens.Files)
        (text : string) :
  Tokens.read fs (Tokens.TOKENS_FILE cfg) = None ->
  Tokens.read fs ".alice.token" = Some (Ok text) ->
  Str.trim text <> "" ->
  (exists m, Tokens.JSON_parse e (Str.trim text) = Threw m) ->
  Tokens.getAccountToken cfg e fs (Tokens.master_key cfg)
  = JStr (Str.trim text)
  /\ forall other,
       other <> "" -> other <> Tokens.master_key cfg ->
       Tokens.getAccountToken cfg e fs other = Tokens.inherited e other.
Proof.
  intros Hnone Hfile Hne [m Hparse].
  assert (Hread : Tokens.readTokensFile cfg e fs
                  = Tokens.Plain
                      [(Tokens.master_key cfg, JStr (Str.trim text))]).
  { unfold Tokens.readTokensFile. cbn [Tokens.first_store].
    unfold Tokens.read_candidate.
    rewrite TOKENS_FILE_named, Hnone. cbn [Str.is_empty].
    rewrite Hfile, (is_empty_false _ Hne), Hparse. reflexivity. }
  split.
  - rewrite (getAccountToken_plain cfg e fs _ _ Hread).
    rewrite master_key_named. unfold Tokens.lookup. simpl.
    now rewrite String.eqb_refl.
  - intros other Hother Hkey.
    rewrite (getAccountToken_plain cfg e fs _ _ Hread).
    rewrite (is_empty_false _ Hother). unfold Tokens.lookup. simpl.
    destruct (String.eqb_spec (Tokens.master_key cfg) other) as [Heq | _];
      [now destruct Hkey|].
    reflexivity.
Qed.

Lemma single_token_file_is_the_master_token_witness :
  Tokens.getAccountToken plain_config one_word_engine legacy_files "Master"
  = JStr "abc123"
  /\ forall other,
       other <> "" -> other <> "Master" ->
       Tokens.getAccountToken plain_config one_word_engine legacy_files other
       = JUndefined.
Proof.
  apply (single_token_file_is_the_master_token
           plain_config one_word_engine legacy_files " abc123 ").
  - reflexivity.
  - reflexivity.
  - discriminate.
  - eexists. reflexivity.
Defined.






(** * The trades of an account *)

Section AccountFacts.

Import Account.

Variable h : Host.

Lemma printable_get (d : JsRecord) (key : string) :
forallb (fun kv => printable (snd kv)) d = true ->
printable (get key d) = true.
Proof.
induction d as [|[k v] d IH]; [reflexivity|].
simpl. intros Hall. apply andb_prop in Hall as [Hv Hd].
destruct (String.eqb k key); auto.
Qed.

Lemma first_truthy_cases (vs : list JsVal) (last : JsVal) :
Payload.first_truthy vs last = last
\/ (In (Payload.first_truthy vs last) vs
    /\ truthy (Payload.first_truthy vs last) = true).
Proof.
induction vs as [|v vs IH]; [now left|].
simpl. destruct (truthy v) eqn:E.
- right. split; [now left | exact E].
- destruct IH as [-> | [Hin Ht]]; [now left|].
  right. split; [now right | exact Ht].
Qed.

Lemma coalesce_cases (vs : list JsVal) (last : JsVal) :
coalesce vs last = last \/ In (coalesce vs last) vs.
Proof.
induction vs as [|v vs IH]; [now left|].
simpl. destruct (nullish v).
- destruct IH as [-> | Hin]; [now left | right; now right].
- right. now left.
Qed.

Lemma ToNumber_printable (v : JsVal) :
printable v = true -> exists n, ToNumber h v = Ok n.
Proof.
intros Hp. destruct v; simpl; eauto.
- destruct (ToString_printable h _ Hp) as [s Hs].
  change (ToString h (JArr items)) with
    (ToString h (JArr items)) in Hs.
  simpl in Hs. rewrite Hs. simpl. eauto.
- simpl in Hp. apply negb_true_iff in Hp. rewrite Hp. simpl. eauto.
Qed.

Lemma parse_total (d : JsRecord) (fallbackTime : option string) :
forallb (fun kv => printable (snd kv)) d = true ->
exists iso, Timestamp.parseTradeTimestamp h d fallbackTime = Ok iso.
Proof.
intros Hd. unfold Timestamp.parseTradeTimestamp.
destruct (scan_printable h d Timestamp.candidate_keys) as [found ->].
- intros key _. now apply printable_get.
- simpl. destruct found as [iso|]; [eauto|].
  destruct fallbackTime as [fb|]; [|eauto].
  destruct (Timestamp.truthy_string (Some fb)); eauto.
Qed.

Lemma first_truthy_text (d : JsRecord) (keys : list string) :
forallb (fun kv => printable (snd kv)) d = true ->
exists s,
  call_toString
    h (Payload.first_truthy (map (fun k => get k d) keys) (JStr ""))
  = Ok s.
Proof.
intros Hd.
destruct (first_truthy_cases (map (fun k => get k d) keys) (JStr ""))
  as [-> | [Hin Ht]]; [simpl; eauto|].
apply call_toString_printable.
- apply in_map_iff in Hin as (k & <- & _). now apply printable_get.
- intros E. rewrite E in Ht. discriminate.
- intros E. rewrite E in Ht. discriminate.
Qed.

Lemma readable_properties (o : JsVal) :
readable_element o = true ->
exists d, properties o = Ok d
          /\ forallb (fun kv => printable (snd kv)) d = true.
Proof.
destruct o; simpl; try discriminate; eauto.
Qed.

Lemma completed_total (o : JsVal) :
readable_element o = true -> exists keep, completed h o = Ok keep.
Proof.
intros Hr. destruct (readable_properties o Hr) as (d & Hd & Hp).
unfold completed. rewrite Hd. cbn [bind].
destruct (first_truthy_text d status_keys Hp) as [s ->]. simpl. eauto.
Qed.

(** Only an object passes the filter. *)
Lemma completed_object (o : JsVal) :
completed h o = Ok true -> exists d, o = JObj d.
Proof.
destruct o; try discriminate; eauto; intros H; vm_compute in H;
  discriminate.
Qed.

Lemma filter_result_readable (l : list JsVal) :
Forall (fun o => readable_element o = true) l ->
filter_result (completed h) l = Ok (filter (is_completed h) l).
Proof.
induction 1 as [|o l Ho _ IH]; [reflexivity|].
simpl. unfold is_completed at 1.
destruct (completed_total o Ho) as [keep ->]. cbn [bind].
rewrite IH. cbn [bind]. now destruct keep.
Qed.

Lemma filter_result_throws {A} (test : A -> Result bool) (l : list A)
    (x : A) :
In x l -> (exists m, test x = Threw m) ->
exists m, filter_result test l = Threw m.
Proof.
intros Hin [m Hm]. induction l as [|y l IH]; [destruct Hin|].
simpl. destruct Hin as [-> | Hin].
- rewrite Hm. simpl. eauto.
- destruct (test y) as [keep|m']; simpl; [|eauto].
  destruct (IH Hin) as [m2 ->]. simpl. eauto.
Qed.

Lemma map_indexed_all {A B} (f : nat -> A -> Result B) (P : A -> Prop)
    (Q : A -> B -> Prop) (l : list A) :
Forall P l ->
(forall idx x, P x -> exists y, f idx x = Ok y /\ Q x y) ->
forall idx, exists ys, map_indexed f idx l = Ok ys /\ Forall2 Q l ys.
Proof.
intros Hall Hf. induction Hall as [|x l Hx _ IH]; intros idx.
- exists []. split; [reflexivity | constructor].
- destruct (Hf idx x Hx) as (y & Hy & Hq).
  destruct (IH (S idx)) as (ys & Hys & Hqs).
  exists (y :: ys). simpl. rewrite Hy. simpl. rewrite Hys. simpl.
  split; [reflexivity | now constructor].
Qed.

Lemma coalesce_fields_printable (d : JsRecord) (vs : list JsVal)
    (last : JsVal) :
forallb (fun kv => printable (snd kv)) d = true ->
(forall v, In v vs -> exists k, v = get k d) ->
printable last = true ->
printable (coalesce vs last) = true.
Proof.
intros Hd Hvs Hlast.
destruct (coalesce_cases vs last) as [-> | Hin]; [exact Hlast|].
destruct (Hvs _ Hin) as [k ->]. now apply printable_get.
Qed.

Ltac read_fields :=
let v := fresh "v" in
let Hv := fresh "Hv" in
intros v Hv; simpl in Hv;
repeat (destruct Hv as [<- | Hv]; [eexists; reflexivity|]);
destruct Hv.

Ltac convert_numbers d Hd :=
repeat match goal with
       | |- context [ToNumber ?h (coalesce ?vs zero)] =>
           let n := fresh "n" in
           let Hn := fresh "Hn" in
           destruct (ToNumber_printable (coalesce vs zero)) as [n Hn];
           [ apply (coalesce_fields_printable d vs zero Hd);
             [read_fields | reflexivity]
           | rewrite Hn; cbv beta iota ]
       end.

Lemma order_trade_readable (acc start : string) (idx : nat) (o : JsVal) :
readable_element o = true /\ (exists d, o = JObj d) ->
exists t, order_trade h acc start idx o = Ok t
          /\ from_order h acc start o t.
Proof.
intros [Hr [d ->]]. simpl in Hr.
unfold order_trade, bind. cbn [properties]. cbv beta iota zeta.
destruct (parse_total d (Some start) Hr) as [iso Hiso]. rewrite Hiso.
cbv beta iota.
destruct (first_truthy_text d Payload.side_keys Hr) as [s Hs].
unfold Payload.normalizeSide, bind. rewrite Hs. cbv beta iota.
destruct (Payload.is_sell (Str.toUpperCase s)); cbv beta iota;
  convert_numbers d Hr;
  (eexists; split; [reflexivity|]);
  unfold from_order; simpl; repeat split; eauto.
Qed.

Lemma record_trade_readable (acc : string) (idx : nat) (v : JsVal) :
readable_element v = true ->
exists t, record_trade h acc idx v = Ok t /\ from_record h acc v t.
Proof.
intros Hr. destruct (readable_properties v Hr) as (d & Hd & Hp).
unfold record_trade, bind. rewrite Hd. cbv beta iota zeta.
destruct (parse_total d None Hp) as [iso Hiso]. rewrite Hiso.
cbv beta iota.
convert_numbers d Hp.
eexists. split; [reflexivity|].
unfold from_record. simpl. repeat split; eauto.
Qed.

End AccountFacts.

Section EndpointsDown.

Variables (env : Env) (backoff retries : nat).

Hypothesis down :
forall past req, exists err, Retry.verdict (fetch env past req) = Threw err.

Lemma fetchWithRetry_down (req : Request) (tr : list Event) :
exists err,
  Retry.fetchWithRetry env req retries backoff tr
  = (Threw err, EvFetch req :: history req backoff tr retries).
Proof.
destruct (fetchWithRetry_stops env req retries backoff tr)
  as (n & Hn & _ & Hrun & Hlast).
assert (n = retries) as ->.
{ destruct (Nat.eq_dec n retries) as [E | E]; [exact E|].
  destruct Hlast as [res Hres]; [lia|].
  destruct (down (history req backoff tr n) req) as [err Herr].
  congruence. }
destruct (down (history req backoff tr retries) req) as [err Herr].
exists err. now rewrite Hrun, Herr.
Qed.

End EndpointsDown.

Lemma count_fetches_fetch (req : Request) (tr : list Event) :
  count_fetches (EvFetch req :: tr) = S (count_fetches tr).
Proof. reflexivity. Qed.

(** X20.  When the order book answers and every entry can be read, the
    trades of the account are the entries whose status is complete, filled
    or completed in any case, one trade per entry and in the order of the
    book; each carries the resolved account, the status Filled, its entry
    as raw, and the timestamp the normalizer gives for the entry with the
    start of the fetch as fallback.  The trades endpoint is not asked, also
    when no entry is completed. *)
Theorem completed_orders_become_trades
        (cfg : Account.Settings) (env : Env) (h : Host)
        (accountId : option string) (tr tr1 : list Event)
        (token : string) (res : Response) :
  Broker.account_token env (Account.resolve cfg accountId) = Some token ->
  token <> "" ->
  Retry.fetchWithRetry
    env (Account.get_request (Account.ordersBookEndpoint cfg) token)
    Retry.default_retries Retry.default_backoff tr
  = (Ok res, tr1) ->
  Forall (fun o => readable_element o = true)
         (Payload.extractArrayFromPayload (Account.json_or_empty res)) ->
  exists trades,
    Account.getTradesForAccount cfg env h accountId tr = (trades, tr1)
    /\ Forall2
         (from_order (Account.at_time (Account.clock cfg tr1) h)
                     (Account.resolve cfg accountId)
                     (JsDate.toISOString (Account.clock cfg tr)))
         (filter (is_completed (Account.at_time (Account.clock cfg tr1) h))
                 (Payload.extractArrayFromPayload
                    (Account.json_or_empty res)))
         trades.
Proof.
  intros Htoken Hne Hfetch Hread.
  set (h1 := Account.at_time (Account.clock cfg tr1) h).
  set (orders := Payload.extractArrayFromPayload (Account.json_or_empty res))
    in *.
  assert (Hkept : Forall (fun o => readable_element o = true
                                   /\ exists d, o = JObj d)
                         (filter (is_completed h1) orders)).
  { apply Forall_forall. intros o Hin. apply filter_In in Hin as [Hin Hc].
    split; [exact (proj1 (Forall_forall _ _) Hread o Hin)|].
    apply (completed_object h1). unfold is_completed in Hc.
    destruct (Account.completed h1 o) as [[]|]; try discriminate.
    reflexivity. }
  destruct (map_indexed_all
              (Account.order_trade
                 h1 (Account.resolve cfg accountId)
                 (JsDate.toISOString (Account.clock cfg tr)))
              _ _ _ Hkept
              (fun idx o Ho =>
                 order_trade_readable h1 _ _ idx o Ho) 0%nat)
    as (trades & Hmap & Hall).
  exists trades. split; [|exact Hall].
  unfold Account.getTradesForAccount, Account.orders_book.
  rewrite Htoken. cbn [truthy_str Broker.str_or_empty].
  rewrite (is_empty_false _ Hne). cbn [negb].
  rewrite Hfetch. fold orders. fold h1.
  rewrite (filter_result_readable h1 orders Hread). cbn [bind].
  now rewrite Hmap.
Qed.

Lemma completed_orders_become_trades_witness :
  exists trades,
    Account.getTradesForAccount
      plain_settings (book_env [infy_order; open_order; tcs_order])
      strict_host None []
    = (trades,
       [EvFetch (Account.get_request Account.default_orders_book
                                     "session-1")])
    /\ Forall2
         (from_order (Account.at_time 1707555646000 strict_host)
                     "Master" "2024-02-10T09:00:45.000Z")
         [infy_order; tcs_order] trades.
Proof.
  apply (completed_orders_become_trades
           plain_settings (book_env [infy_order; open_order; tcs_order])
           strict_host None []
           [EvFetch (Account.get_request Account.default_orders_book
                                         "session-1")]
           "session-1" (book_response [infy_order; open_order; tcs_order])).
  - reflexivity.
  - discriminate.
  - reflexivity.
  - repeat constructor.
Defined.

(** X21.  One [null] entry in the order book discards the whole book: the
    filter throws on it, and the result is what the trades endpoint
    gives. *)
Theorem null_order_diverts_to_the_trades_endpoint
        (cfg : Account.Settings) (env : Env) (h : Host)
        (accountId : option string) (tr tr1 : list Event)
        (token : string) (res : Response) :
  Broker.account_token env (Account.resolve cfg accountId) = Some token ->
  token <> "" ->
  Retry.fetchWithRetry
    env (Account.get_request (Account.ordersBookEndpoint cfg) token)
    Retry.default_retries Retry.default_backoff tr
  = (Ok res, tr1) ->
  In JNull (Payload.extractArrayFromPayload (Account.json_or_empty res)) ->
  Account.getTradesForAccount cfg env h accountId tr
  = fallback_result cfg env h (Account.resolve cfg accountId) token tr1.
Proof.
  intros Htoken Hne Hfetch Hnull.
  unfold Account.getTradesForAccount, Account.orders_book, fallback_result.
  rewrite Htoken. cbn [truthy_str Broker.str_or_empty].
  rewrite (is_empty_false _ Hne). cbn [negb].
  rewrite Hfetch.
  destruct (filter_result_throws
              (Account.completed (Account.at_time (Account.clock cfg tr1) h))
              _ JNull Hnull) as [m ->]; [eexists; reflexivity|].
  reflexivity.
Qed.

Lemma null_order_diverts_to_the_trades_endpoint_witness :
  Account.getTradesForAccount
    plain_settings (book_env [infy_order; JNull]) strict_host None []
  = fallback_result
      plain_settings (book_env [infy_order; JNull]) strict_host "Master"
      "session-1"
      [EvFetch (Account.get_request Account.default_orders_book
                                    "session-1")].
Proof.
  apply (null_order_diverts_to_the_trades_endpoint
           plain_settings (book_env [infy_order; JNull]) strict_host None []
           [EvFetch (Account.get_request Account.default_orders_book
                                         "session-1")]
           "session-1" (book_response [infy_order; JNull])).
  - reflexivity.
  - discriminate.
  - reflexivity.
  - right. now left.
Defined.

(** X22.  When the order book cannot be fetched and the trades endpoint
    answers with entries that can be read, every entry becomes a trade,
    whatever its status: one trade per entry, in order, with the resolved
    account, the entry as raw, and the timestamp the normalizer gives
    without a fallback. *)
Theorem trades_endpoint_keeps_every_entry
        (cfg : Account.Settings) (env : Env) (h : Host)
        (accountId : option string) (tr tr1 tr2 : list Event)
        (token message : string) (res : Response) :
  Broker.account_token env (Account.resolve cfg accountId) = Some token ->
  token <> "" ->
  Retry.fetchWithRetry
    env (Account.get_request (Account.ordersBookEndpoint cfg) token)
    Retry.default_retries Retry.default_backoff tr
  = (Threw message, tr1) ->
  Retry.fetchWithRetry
    env (Account.get_request (Account.tradesEndpoint cfg) token)
    Retry.default_retries Retry.default_backoff tr1
  = (Ok res, tr2) ->
  Forall (fun o => readable_element o = true)
         (Payload.extractArrayFromPayload (Account.json_or_empty res)) ->
  exists trades,
    Account.getTradesForAccount cfg env h accountId tr = (trades, tr2)
    /\ Forall2
         (from_record (Account.at_time (Account.clock cfg tr2) h)
                      (Account.resolve cfg accountId))
         (Payload.extractArrayFromPayload (Account.json_or_empty res))
         trades.
Proof.
  intros Htoken Hne Hbook Hfetch Hread.
  set (h2 := Account.at_time (Account.clock cfg tr2) h).
  destruct (map_indexed_all
              (Account.record_trade h2 (Account.resolve cfg accountId))
              _ _ _ Hread
              (fun idx v Hv => record_trade_readable h2 _ idx v Hv) 0%nat)
    as (trades & Hmap & Hall).
  exists trades. split; [|exact Hall].
  unfold Account.getTradesForAccount, Account.orders_book,
    Account.trades_fallback.
  rewrite Htoken. cbn [truthy_str Broker.str_or_empty].
  rewrite (is_empty_false _ Hne). cbn [negb].
  rewrite Hbook, Hfetch. fold h2. now rewrite Hmap.
Qed.

Lemma trades_endpoint_keeps_every_entry_witness :
  exists trades,
    Account.getTradesForAccount
      plain_settings (trades_only_env [open_order; JStr "n/a"])
      strict_host None []
    = (trades,
       EvFetch (Account.get_request Account.default_trades "session-1")
         :: EvFetch (Account.get_request Account.default_orders_book
                                         "session-1")
         :: history (Account.get_request Account.default_orders_book
                                         "session-1")
                    500 [] 3)
    /\ Forall2
         (from_record (Account.at_time 1707555653000 strict_host) "Master")
         [open_order; JStr "n/a"] trades.
Proof.
  apply (trades_endpoint_keeps_every_entry
           plain_settings (trades_only_env [open_order; JStr "n/a"])
           strict_host None []
           (EvFetch (Account.get_request Account.default_orders_book
                                         "session-1")
              :: history (Account.get_request Account.default_orders_book
                                              "session-1")
                         500 [] 3)
           (EvFetch (Account.get_request Account.default_trades "session-1")
              :: EvFetch (Account.get_request Account.default_orders_book
                                              "session-1")
              :: history (Account.get_request Account.default_orders_book
                                              "session-1")
                         500 [] 3)
           "session-1" "connect ECONNREFUSED"
           {| res_status := 200; res_text := Ok "";
              res_json := Ok (JArr [open_order; JStr "n/a"]) |}).
  - reflexivity.
  - discriminate.
  - reflexivity.
  - reflexivity.
  - repeat constructor.
Defined.

(** X23.  With a token and a broker that fails every request, the trades of
    an account are the empty list and nothing is thrown, after four
    attempts on the order book and four on the trades endpoint. *)
Theorem unreachable_broker_gives_no_trades
        (cfg : Account.Settings) (env : Env) (h : Host)
        (accountId : option string) (tr : list Event) (token : string) :
  Broker.account_token env (Account.resolve cfg accountId) = Some token ->
  token <> "" ->
  (forall past req,
      exists err, Retry.verdict (fetch env past req) = Threw err) ->
  fst (Account.getTradesForAccount cfg env h accountId tr) = []
  /\ count_fetches (snd (Account.getTradesForAccount cfg env h accountId tr))
     = (8 + count_fetches tr)%nat.
Proof.
  intros Htoken Hne Hdown.
  unfold Account.getTradesForAccount, Account.orders_book,
    Account.trades_fallback.
  rewrite Htoken. cbn [truthy_str Broker.str_or_empty].
  rewrite (is_empty_false _ Hne). cbn [negb].
  destruct (fetchWithRetry_down
              env Retry.default_backoff Retry.default_retries Hdown
              (Account.get_request (Account.ordersBookEndpoint cfg) token) tr)
    as [err1 ->].
  destruct (fetchWithRetry_down
              env Retry.default_backoff Retry.default_retries Hdown
              (Account.get_request (Account.tradesEndpoint cfg) token)
              (EvFetch
                 (Account.get_request (Account.ordersBookEndpoint cfg) token)
                 :: history
                      (Account.get_request (Account.ordersBookEndpoint cfg)
                                           token)
                      Retry.default_backoff tr Retry.default_retries))
    as [err2 ->].
  split; [reflexivity|].
  cbn [snd].
  rewrite count_fetches_fetch, count_fetches_history.
  rewrite count_fetches_fetch, count_fetches_history.
  unfold Retry.default_retries. lia.
Qed.

Lemma unreachable_broker_gives_no_trades_witness :
  fst (Account.getTradesForAccount
         plain_settings unreachable_env strict_host (Some "ACC1") [])
  = []
  /\ count_fetches
       (snd (Account.getTradesForAccount
               plain_settings unreachable_env strict_host (Some "ACC1") []))
     = 8%nat.
Proof.
  apply (unreachable_broker_gives_no_trades
           plain_settings unreachable_env strict_host (Some "ACC1") []
           "session-1").
  - reflexivity.
  - discriminate.
  - intros past req. eexists. reflexivity.
Defined.

(** * The trades table *)

Section TableFacts.

Import Table.

Lemma remove_spaces_no_space (s : string) :
no_space (remove_spaces s) = true.
Proof.
induction s as [|c s IH]; [reflexivity|].
simpl. destruct (Str.is_space c) eqn:E; [exact IH|].
unfold no_space. simpl. rewrite E. exact IH.
Qed.

Lemma map_trade_id (h : Host) (t : JsVal) (trade : RemoteTrade) :
map_trade h t = Ok trade -> no_space (id trade) = true.
Proof.
unfold map_trade, bind. intros H.
repeat match type of H with
       | match ?x with _ => _ end = _ =>
           let E := fresh "E" in
           destruct x eqn:E; try discriminate
       end;
  injection H as <-; simpl;
  match goal with
  | E : replace_spaces ?b = Ok _ |- _ =>
      destruct b; try discriminate; injection E as <-
  end;
  apply remove_spaces_no_space.
Qed.

Lemma map_result_all {A B} (f : A -> Result B) (P : B -> Prop)
    (l : list A) (ys : list B) :
(forall x y, f x = Ok y -> P y) ->
map_result f l = Ok ys -> Forall P ys.
Proof.
intros Hf. revert ys. induction l as [|x l IH]; intros ys H.
- injection H as <-. constructor.
- simpl in H. destruct (f x) as [y|] eqn:Ey; [|discriminate].
  simpl in H. destruct (map_result f l) as [rest|]; [|discriminate].
  injection H as <-. constructor; [now apply (Hf x) | now apply IH].
Qed.

Lemma map_result_throws {A B} (f : A -> Result B) (l : list A) (x : A) :
In x l -> (exists m, f x = Threw m) ->
exists m, map_result f l = Threw m.
Proof.
intros Hin [m Hm]. induction l as [|y l IH]; [destruct Hin|].
simpl. destruct Hin as [-> | Hin].
- rewrite Hm. simpl. eauto.
- destruct (f y) as [b|m']; simpl; [|eauto].
  destruct (IH Hin) as [m2 ->]. simpl. eauto.
Qed.

Lemma map_trade_bad_id (h : Host) (d : JsRecord) :
truthy (get "id" d) = true ->
(forall s, get "id" d <> JStr s) ->
exists m, map_trade h (JObj d) = Threw m.
Proof.
intros Ht Hs. unfold map_trade, bind. cbn [Account.properties].
cbv beta iota zeta.
destruct (Account.ToNumber h (Account.coalesce _ Account.zero));
  [|eauto].
destruct (Account.ToNumber h (Account.coalesce _ Account.zero));
  [|eauto].
rewrite Ht.
destruct (get "id" d) eqn:E; simpl; eauto.
now destruct (Hs s).
Qed.

End TableFacts.

(** X24.  Whatever the route answers, the id of every trade the table maps
    holds no white space. *)
Theorem table_ids_hold_no_space
        (h : Host) (answer : FetchOutcome)
        (trades : list Table.RemoteTrade) :
  Table.mapped h answer = Ok trades ->
  Forall (fun trade => no_space (Table.id trade) = true) trades.
Proof.
  unfold Table.mapped. intros H.
  destruct answer as [tradeRes | m]; [|discriminate].
  destruct (negb (Retry.res_ok tradeRes)); [discriminate|].
  destruct (Account.properties (Account.json_or_empty tradeRes))
    as [payload|]; [|discriminate].
  cbn [bind] in H.
  destruct (Account.coalesce [get "trades" payload] (JArr []))
    as [ | | | | | incoming | ]; try discriminate.
  apply (map_result_all (Table.map_trade h) _ incoming trades);
    [|exact H].
  intros t trade. apply map_trade_id.
Qed.

Lemma table_ids_hold_no_space_witness :
  Forall (fun trade => no_space (Table.id trade) = true)
         [ {| Table.id := "T1";
              Table.timestamp := JStr "2024-02-10T09:00:45.000Z";
              Table.account := JStr "Master";
              Table.symbol := JStr "";
              Table.type := JStr "Market";
              Table.side := JStr "Buy";
              Table.quantity := Fin 0;
              Table.tradedQty := Fin 0;
              Table.price := Fin 0;
              Table.status := JStr "Filled" |} ].
Proof.
  apply (table_ids_hold_no_space
           strict_host
           (table_answer
              [JObj [("id", JStr " T 1 ");
                     ("timestamp", JStr "2024-02-10T09:00:45.000Z")]])).
  reflexivity.
Defined.

(** X25.  One trade whose id is there and is not a string, a number for
    one, fails the whole refresh: the table maps no trade and shows the
    error. *)
Theorem id_that_is_no_string_fails_the_refresh
        (h : Host) (tradeRes : Response) (payload d : JsRecord)
        (incoming : list JsVal) :
  Retry.res_ok tradeRes = true ->
  res_json tradeRes = Ok (JObj payload) ->
  get "trades" payload = JArr incoming ->
  In (JObj d) incoming ->
  truthy (get "id" d) = true ->
  (forall s, get "id" d <> JStr s) ->
  exists m, Table.mapped h (Responded tradeRes) = Threw m.
Proof.
  intros Hok Hjson Htrades Hin Ht Hs.
  unfold Table.mapped, Account.json_or_empty.
  rewrite Hok, Hjson. cbn [negb Account.properties bind].
  unfold Account.coalesce. cbn [fold_right]. rewrite Htrades.
  cbn [Account.nullish].
  apply (map_result_throws (Table.map_trade h) incoming (JObj d) Hin).
  now apply map_trade_bad_id.
Qed.

Lemma id_that_is_no_string_fails_the_refresh_witness :
  exists m,
    Table.mapped
      strict_host
      (table_answer [JObj [("id", JStr "T1")];
                     JObj [("id", JNum (Fin 42))]])
    = Threw m.
Proof.
  apply (id_that_is_no_string_fails_the_refresh
           strict_host
           {| res_status := 200; res_text := Ok "";
              res_json :=
                Ok (JObj [("trades",
                           JArr [JObj [("id", JStr "T1")];
                                 JObj [("id", JNum (Fin 42))]])]) |}
           [("trades", JArr [JObj [("id", JStr "T1")];
                             JObj [("id", JNum (Fin 42))]])]
           [("id", JNum (Fin 42))]
           [JObj [("id", JStr "T1")]; JObj [("id", JNum (Fin 42))]]).
  - reflexivity.
  - reflexivity.
  - reflexivity.
  - right. now left.
  - reflexivity.
  - intros s. discriminate.
Defined.

(** * Two readers of the order book *)

Section TwoReaders.

Variable h : Host.




End TwoReaders.



(** X27.  An order whose Status reads filled or completed, in any case, is
    a trade of the account and is left out by the trade-book route, which
    keeps the status complete only. *)
Theorem trade_book_leaves_out_filled_orders
        (h : Host) (d : JsRecord) (s : string) :
  get "Status" d = JStr s ->
  Str.toLowerCase s = "filled" \/ Str.toLowerCase s = "completed" ->
  Account.completed h (JObj d) = Ok true
  /\ TradeBook.completed h (JObj d) = Ok false.
Proof.
  intros Hstatus Hs.
  assert (Hne : truthy (JStr s) = true)
    by (destruct s; [destruct Hs; discriminate | reflexivity]).
  unfold Account.completed, TradeBook.completed, Account.status_keys.
  cbn [Account.properties bind map].
  unfold Payload.first_truthy. cbn [fold_right].
  rewrite Hstatus, Hne. cbn [call_toString ToString bind].
  destruct Hs as [-> | ->]; split; reflexivity.
Qed.

Lemma trade_book_leaves_out_filled_orders_witness :
  Account.completed strict_host tcs_order_upper = Ok true
  /\ TradeBook.completed strict_host tcs_order_upper = Ok false.
Proof.
  apply (trade_book_leaves_out_filled_orders
           strict_host
           [("NOrdNo", JStr "N-3"); ("Status", JStr "FILLED")] "FILLED").
  - reflexivity.
  - left. reflexivity.
Defined.

(** * Bounds on the requests to the broker *)

Section FetchBounds.

Variable env : Env.

Lemma count_fetches_app (a b : list Event) :
count_fetches (a ++ b) = (count_fetches a + count_fetches b)%nat.
Proof. unfold count_fetches. now rewrite filter_app, length_app. Qed.

(** A call of the client adds fetches of its own request and pauses, and
  no more than [retries + 1] fetches. *)
Lemma fetchWithRetry_shape (req : Request) (retries backoff : nat)
    (tr : list Event) :
exists added,
  snd (Retry.fetchWithRetry env req retries backoff tr)
  = (added ++ tr)%list
  /\ (count_fetches added <= S retries)%nat
  /\ Forall (fun e => match e with
                      | EvSleep _ => True
                      | EvFetch r => r = req
                      | _ => False
                      end) added.
Proof.
destruct (fetchWithRetry_stops env req retries backoff tr)
  as (n & Hn & _ & Hrun & _).
destruct (history_shape req backoff tr n) as (added & Hadd & Hall).
exists (EvFetch req :: added). rewrite Hrun. cbn [snd].
split; [rewrite Hadd; reflexivity|].
split; [|constructor; [reflexivity | exact Hall]].
pose proof (count_fetches_history req backoff tr n) as Hcount.
rewrite Hadd, count_fetches_app in Hcount.
rewrite count_fetches_fetch. lia.
Qed.

End FetchBounds.

(** X28.  Whatever the broker does, getTradesForAccount sends at most eight
    requests, and every one of them is a GET with the bearer token of the
    resolved account to the order-book endpoint or to the trades
    endpoint. *)
Theorem account_trades_cost_at_most_eight_fetches
        (cfg : Account.Settings) (env : Env) (h : Host)
        (accountId : option string) (tr : list Event) :
  exists added,
    snd (Account.getTradesForAccount cfg env h accountId tr)
    = (added ++ tr)%list
    /\ (count_fetches added <= 8)%nat
    /\ Forall
         (asks_only
            (Account.get_request
               (Account.ordersBookEndpoint cfg)
               (Broker.str_or_empty
                  (Broker.account_token env (Account.resolve cfg accountId))))
            (Account.get_request
               (Account.tradesEndpoint cfg)
               (Broker.str_or_empty
                  (Broker.account_token env (Account.resolve cfg accountId)))))
         added.
Proof.
  unfold Account.getTradesForAccount.
  set (token := Broker.str_or_empty
                  (Broker.account_token env (Account.resolve cfg accountId))).
  destruct (negb (truthy_str (Broker.account_token env _)));
    [exists []; split; [reflexivity|]; split;
     [unfold count_fetches; simpl; lia | constructor]|].
  unfold Account.orders_book.
  destruct (fetchWithRetry_shape
              env (Account.get_request (Account.ordersBookEndpoint cfg) token)
              Retry.default_retries Retry.default_backoff tr)
    as (added1 & Hadd1 & Hcount1 & Hall1).
  assert (Hfirst : Forall (asks_only
                             (Account.get_request
                                (Account.ordersBookEndpoint cfg) token)
                             (Account.get_request
                                (Account.tradesEndpoint cfg) token)) added1).
  { eapply Forall_impl; [|exact Hall1].
    intros [r | ms | q | fid qty]; simpl; auto. }
  unfold Retry.default_retries in Hcount1.
  destruct (Retry.fetchWithRetry
              env (Account.get_request (Account.ordersBookEndpoint cfg) token)
              Retry.default_retries Retry.default_backoff tr)
    as [[res | m] tr1]; cbn [snd] in Hadd1; subst tr1.
  - destruct (bind _ _) as [mapped | m].
    + exists added1. split; [reflexivity|]. split; [lia | exact Hfirst].
    + unfold Account.trades_fallback.
      destruct (fetchWithRetry_shape
                  env (Account.get_request (Account.tradesEndpoint cfg) token)
                  Retry.default_retries Retry.default_backoff
                  (added1 ++ tr)%list)
        as (added2 & Hadd2 & Hcount2 & Hall2).
      unfold Retry.default_retries in Hcount2.
      assert (Hsecond : Forall (asks_only
                                  (Account.get_request
                                     (Account.ordersBookEndpoint cfg) token)
                                  (Account.get_request
                                     (Account.tradesEndpoint cfg) token))
                               added2).
      { eapply Forall_impl; [|exact Hall2].
        intros [r | ms | q | fid qty]; simpl; auto. }
      destruct (Retry.fetchWithRetry
                  env (Account.get_request (Account.tradesEndpoint cfg) token)
                  Retry.default_retries Retry.default_backoff
                  (added1 ++ tr)%list)
        as [[res2 | m2] tr2]; cbn [snd] in Hadd2; subst tr2.
      * destruct (Account.map_indexed _ _ _);
          exists (added2 ++ added1)%list; cbn [snd];
          rewrite app_assoc, count_fetches_app;
          (split; [reflexivity|]; split; [lia | now apply Forall_app]).
      * exists (added2 ++ added1)%list; cbn [snd];
          rewrite app_assoc, count_fetches_app;
          (split; [reflexivity|]; split; [lia | now apply Forall_app]).
  - unfold Account.trades_fallback.
    destruct (fetchWithRetry_shape
                env (Account.get_request (Account.tradesEndpoint cfg) token)
                Retry.default_retries Retry.default_backoff
                (added1 ++ tr)%list)
      as (added2 & Hadd2 & Hcount2 & Hall2).
    unfold Retry.default_retries in Hcount2.
    assert (Hsecond : Forall (asks_only
                                (Account.get_request
                                   (Account.ordersBookEndpoint cfg) token)
                                (Account.get_request
                                   (Account.tradesEndpoint cfg) token))
                             added2).
    { eapply Forall_impl; [|exact Hall2].
      intros [r | ms | q | fid qty]; simpl; auto. }
    destruct (Retry.fetchWithRetry
                env (Account.get_request (Account.tradesEndpoint cfg) token)
                Retry.default_retries Retry.default_backoff
                (added1 ++ tr)%list)
      as [[res2 | m2] tr2]; cbn [snd] in Hadd2; subst tr2.
    + destruct (Account.map_indexed _ _ _);
        exists (added2 ++ added1)%list; cbn [snd];
        rewrite app_assoc, count_fetches_app;
        (split; [reflexivity|]; split; [lia | now apply Forall_app]).
    + exists (added2 ++ added1)%list; cbn [snd];
        rewrite app_assoc, count_fetches_app;
        (split; [reflexivity|]; split; [lia | now apply Forall_app]).
Qed.

(** * The fan-out endpoint over the pool *)

Section RouteFacts.

Variables (h : Host) (pool : Mysql.Pool) (nonce : string) (b : Route.Fields).

Lemma template_printable (parts : list (JsVal + string)) :
(forall v, In (inl v) parts -> printable v = true) ->
exists s, Table.template h parts = Ok s.
Proof.
induction parts as [|[v | text] rest IH]; intros Hall; simpl; [eauto| |].
- destruct (ToString_printable h v) as [s ->]; [apply Hall; now left|].
  destruct IH as [r ->]; [intros x Hx; apply Hall; now right|].
  simpl. eauto.
- destruct IH as [r ->]; [intros x Hx; apply Hall; now right|].
  simpl. eauto.
Qed.

(** The turn of an element of [followers] that is an array, when the ledger
  lookup resolves. *)
Lemma turn_skips (items : list JsVal) (rows fields : JsVal) (acc : Route.Acc)
    (tr : list Mysql.Call) :
printable (Route.tradeId b) = true ->
pool tr (copied_lookup b) = Mysql.Resolved rows fields ->
Route.turn h pool nonce b (JArr items) acc tr
= (Ok (Route.push_skipped duplicate_skip acc), copied_lookup b :: tr).
Proof.
intros Hp Hpool. unfold Route.turn, Route.try_block.
change (Route.prop "id" (JArr items)) with (Ok (A := JsVal) JUndefined).
change (Route.prop "follower_name" (JArr items))
  with (Ok (A := JsVal) JUndefined).
cbv beta iota. fold (copied_lookup b). rewrite Hpool.
destruct (template_printable
            [inr "[COPY-TRADE] Skipping duplicate: ";
             inl (Route.tradeId b); inr " to "; inl JUndefined])
  as [s ->]; [|reflexivity].
intros v [Hv | [Hv | [Hv | [Hv | []]]]]; try discriminate;
  injection Hv as <-; [exact Hp | reflexivity].
Qed.


Lemma followers_call_selects :
is_select (Mysql.statement (Route.followers_call b)) = true.
Proof.
unfold Route.followers_call.
destruct (truthy (Route.f_followerId b)); [reflexivity|].
now destruct (Route.listenerFollowers b).
Qed.

Lemma accepted_fields :
accepted b = true ->
truthy (Route.symbol b) = true /\ truthy (Route.side b) = true
/\ truthy (Route.masterQty b) = true /\ truthy (Route.price b) = true
/\ truthy (Route.tradeId b) = true.
Proof.
unfold accepted. intros H.
repeat (apply andb_prop in H; destruct H as [H ?]). auto.
Qed.

(** A request that passes the checks, against a pool that answers every
  SELECT. *)
Lemma POST_two_skipped (body : JsVal) (tr : list Mysql.Call) :
Route.destructure body = Ok b ->
accepted b = true -> loggable b = true ->
answers_selects pool ->
Route.POST h pool nonce (Ok body) tr
= (two_skipped nonce b,
   copied_lookup b :: copied_lookup b :: Route.followers_call b :: tr).
Proof.
intros Hb Hacc Hlog Hpool.
destruct (accepted_fields Hacc) as (H1 & H2 & H3 & H4 & H5).
unfold loggable in Hlog.
apply andb_prop in Hlog as [Hlog Hside].
apply andb_prop in Hlog as [Htrade Hsym].
unfold Route.POST. cbn [bind]. rewrite Hb, H1, H2, H3, H4, H5.
cbn [negb orb]. cbv zeta.
destruct (Hpool tr (Route.followers_call b) followers_call_selects)
  as (rows & fields & ->).
cbn [Route.loop].
destruct (Hpool (Route.followers_call b :: tr) (copied_lookup b) eq_refl)
  as (r1 & f1 & Hfirst).
rewrite (turn_skips rows _ _ _ _ Htrade Hfirst).
destruct (Hpool (copied_lookup b :: Route.followers_call b :: tr)
                (copied_lookup b) eq_refl)
  as (r2 & f2 & Hsecond).
rewrite (turn_skips fields _ _ _ _ Htrade Hsecond).
destruct (template_printable
            [inr "[COPY-TRADE] Summary for "; inl (Route.symbol b);
             inr " "; inl (Route.side b)]) as [s ->]; [|reflexivity].
intros v [Hv | [Hv | [Hv | [Hv | []]]]]; try discriminate;
  injection Hv as <-; assumption.
Qed.

End RouteFacts.

Lemma answering_answers (followers ledger : list JsVal) :
  answers_selects (answering followers ledger).
Proof.
  intros past [[] ps] Hsel; try discriminate;
    unfold answering, follower_columns; simpl; do 2 eexists; reflexivity.
Qed.


Lemma destructure_typed (body : FanOut.Body) :
  Route.destructure (to_json body)
  = Ok {| Route.masterId :=
            Route.defaulted
              "master_account"
              (or_undefined (option_map JStr (FanOut.masterId body)));
          Route.f_followerId :=
            or_undefined (option_map JStr (FanOut.followerId body));
          Route.listenerFollowers :=
            or_undefined
              (option_map (fun ids => JArr (map JStr ids))
                          (FanOut.listenerFollowers body));
          Route.symbol := or_undefined (option_map JStr (FanOut.symbol body));
          Route.side := or_undefined (option_map JStr (FanOut.side body));
          Route.masterQty :=
            or_undefined
              (option_map (fun q => JNum (Fin q)) (FanOut.masterQty body));
          Route.price :=
            or_undefined
              (option_map (fun q => JNum (Fin q)) (FanOut.price body));
          Route.tradeId :=
            or_undefined (option_map JStr (FanOut.tradeId body)) |}.
Proof.
  destruct body as [mi fi lf sy sd mq pr pt ot ti].
  destruct mi, fi, lf, sy, sd, mq, pr, pt, ot, ti; reflexivity.
Qed.

(** Past the presence checks the answer is 200 or 500. *)
Lemma POST_past_the_checks (h : Host) (pool : Mysql.Pool) (nonce : string)
      (body : JsVal) (b : Route.Fields) (tr : list Mysql.Call) :
  Route.destructure body = Ok b ->
  accepted b = true ->
  Route.http_status (fst (Route.POST h pool nonce (Ok body) tr)) <> 400%nat.
Proof.
  intros Hb Hacc.
  destruct (accepted_fields b Hacc) as (H1 & H2 & H3 & H4 & H5).
  unfold Route.POST. cbn [bind]. rewrite Hb, H1, H2, H3, H4, H5.
  cbn [negb orb]. cbv zeta.
  destruct (pool tr (Route.followers_call b)) as [rows fields | m];
    [|simpl; discriminate].
  destruct (Route.loop _ _ _ _ _ _ _) as [[acc | m] tr'];
    [|simpl; discriminate].
  destruct (Table.template _ _); simpl; discriminate.
Qed.

(** C1 (code_bug).  Two calls with the same valid request, against a
    database that answers every SELECT: the first call already reports two
    SKIPPED entries with the reason of the duplicate prevention, one for
    each element of the pair [[rows, fields]] the follower query resolves
    to, and so does the second.  Neither call reports a SUCCESS or a
    FAILED entry, and the six statements the two calls send are SELECTs:
    nothing is written to the ledger. *)
Theorem first_call_is_skipped_like_the_second
        (h : Host) (pool : Mysql.Pool) (nonce1 nonce2 : string)
        (body : JsVal) (b : Route.Fields) (tr : list Mysql.Call) :
  Route.destructure body = Ok b ->
  accepted b = true -> loggable b = true ->
  answers_selects pool ->
  let first := Route.POST h pool nonce1 (Ok body) tr in
  let second := Route.POST h pool nonce2 (Ok body) (snd first) in
  Route.results (fst first) = [duplicate_skip; duplicate_skip]
  /\ Route.results (fst second) = [duplicate_skip; duplicate_skip]
  /\ snd second
     = ([copied_lookup b; copied_lookup b; Route.followers_call b;
         copied_lookup b; copied_lookup b; Route.followers_call b]
          ++ tr)%list.
Proof.
  intros Hb Hacc Hlog Hpool. cbv zeta.
  rewrite (POST_two_skipped h pool nonce1 b body tr Hb Hacc Hlog Hpool).
  cbn [fst snd].
  rewrite (POST_two_skipped h pool nonce2 b body _ Hb Hacc Hlog Hpool).
  repeat split.
Qed.

Lemma first_call_is_skipped_like_the_second_witness :
  Route.results
    (fst (Route.POST strict_host (answering [follower_row "F1" 1 100] [])
                     "run-1" (Ok (copy_to_F1 10)) []))
  = [duplicate_skip; duplicate_skip]
  /\ Route.results
       (fst (Route.POST
               strict_host (answering [follower_row "F1" 1 100] [])
               "run-2" (Ok (copy_to_F1 10))
               (snd (Route.POST
                       strict_host (answering [follower_row "F1" 1 100] [])
                       "run-1" (Ok (copy_to_F1 10)) []))))
     = [duplicate_skip; duplicate_skip]
  /\ snd (Route.POST
            strict_host (answering [follower_row "F1" 1 100] [])
            "run-2" (Ok (copy_to_F1 10))
            (snd (Route.POST
                    strict_host (answering [follower_row "F1" 1 100] [])
                    "run-1" (Ok (copy_to_F1 10)) [])))
     = [lookup_T1; lookup_T1; lookup_F1; lookup_T1; lookup_T1; lookup_F1].
Proof.
  apply (first_call_is_skipped_like_the_second
           strict_host (answering [follower_row "F1" 1 100] [])
           "run-1" "run-2" (copy_to_F1 10) (fields_to_F1 10) []).
  - reflexivity.
  - reflexivity.
  - reflexivity.
  - apply answering_answers.
Defined.

(** C3 (code_bug).  The three worked examples, each against a database that
    holds the follower F1 with the multiplier and the cap of the example
    and an empty ledger: 10 lots at 0.5 with cap 100, 10 lots at 2 with cap
    15, 1 lot at 0.1.  Each is answered with two SKIPPED entries whose
    reason is the duplicate prevention; no quantity is computed, none of
    the entries says that the quantity is too small, and the statements
    sent are the three SELECTs. *)
Theorem worked_examples_compute_no_quantity :
  Route.POST strict_host (answering [follower_row "F1" (1 # 2) 100] [])
             "run-1" (Ok (copy_to_F1 10)) []
  = ({| Route.http_status := 200;
        Route.ok := true;
        Route.message :=
          "Copy trade executed: 0 successful, 2 skipped (already copied), 0 failed";
        Route.copyTradeId := Some "run-1";
        Route.masterTradeId := Some (JStr "T-1");
        Route.results := [duplicate_skip; duplicate_skip];
        Route.summary := Some {| FanOut.successCount := 0;
                                 FanOut.failedCount := 0;
                                 FanOut.skippedDuplicateCount := 2;
                                 FanOut.totalFollowers := 2 |} |},
      [lookup_T1; lookup_T1; lookup_F1])
  /\ Route.results
       (fst (Route.POST
               strict_host (answering [follower_row "F1" 2 15] [])
               "run-2" (Ok (copy_to_F1 10)) []))
     = [duplicate_skip; duplicate_skip]
  /\ Route.results
       (fst (Route.POST
               strict_host (answering [follower_row "F1" (1 # 10) 1000] [])
               "run-3" (Ok (copy_to_F1 1)) []))
     = [duplicate_skip; duplicate_skip].
Proof. repeat split. Qed.



(** X5.  Whatever the database holds, a request that passes the presence
    checks and whose values can be printed is answered 200 with exactly two
    entries when every SELECT is answered: both SKIPPED with the reason of
    the duplicate prevention and without follower id and name, under the
    counts 0 successful, 2 skipped, 0 failed of 2 followers.  The handler
    sends the follower query and two ledger lookups with an undefined
    follower id, and no other statement. *)
Theorem answered_selects_give_two_skipped
        (h : Host) (pool : Mysql.Pool) (nonce : string) (body : JsVal)
        (b : Route.Fields) (tr : list Mysql.Call) :
  Route.destructure body = Ok b ->
  accepted b = true -> loggable b = true ->
  answers_selects pool ->
  Route.POST h pool nonce (Ok body) tr
  = (two_skipped nonce b,
     copied_lookup b :: copied_lookup b :: Route.followers_call b :: tr).
Proof. apply POST_two_skipped. Qed.

Lemma answered_selects_give_two_skipped_witness :
  Route.POST strict_host (answering [] []) "run-1" (Ok sell_three) []
  = ({| Route.http_status := 200;
        Route.ok := true;
        Route.message :=
          "Copy trade executed: 0 successful, 2 skipped (already copied), 0 failed";
        Route.copyTradeId := Some "run-1";
        Route.masterTradeId := Some (JStr "T-9");
        Route.results := [duplicate_skip; duplicate_skip];
        Route.summary := Some {| FanOut.successCount := 0;
                                 FanOut.failedCount := 0;
                                 FanOut.skippedDuplicateCount := 2;
                                 FanOut.totalFollowers := 2 |} |},
      [{| Mysql.statement := Mysql.SelectCopied;
          Mysql.params := [JStr "T-9"; JUndefined] |};
       {| Mysql.statement := Mysql.SelectCopied;
          Mysql.params := [JStr "T-9"; JUndefined] |};
       {| Mysql.statement := Mysql.SelectActiveFollowers;
          Mysql.params := [] |}]).
Proof.
  apply (answered_selects_give_two_skipped
           strict_host (answering [] []) "run-1" sell_three
           fields_of_sell_three []).
  - reflexivity.
  - reflexivity.
  - reflexivity.
  - apply answering_answers.
Defined.

(** X6.  On a typed request sent as JSON the handler over the pool makes
    the presence checks of the typed handler: the request the typed checks
    refuse is answered 400 with the same message before any statement is
    sent, and the request they let through is not answered 400. *)
Theorem typed_validation_carries_over
        (h : Host) (pool : Mysql.Pool) (nonce : string)
        (body : FanOut.Body) (tr : list Mysql.Call) :
  match FanOut.validate body with
  | inl msg =>
      Route.POST h pool nonce (Ok (to_json body)) tr
      = (Route.reject 400 msg, tr)
  | inr _ =>
      Route.http_status
        (fst (Route.POST h pool nonce (Ok (to_json body)) tr)) <> 400%nat
  end.
Proof.
  pose proof (destructure_typed body) as Hb.
  unfold FanOut.validate.
  destruct (FanOut.symbol body) as [sym|] eqn:Esym;
    destruct (FanOut.side body) as [sd|] eqn:Esd;
    destruct (FanOut.masterQty body) as [qty|] eqn:Eqty;
    destruct (FanOut.price body) as [prc|] eqn:Eprc;
    cbn [option_map or_undefined] in Hb;
    try (unfold Route.POST; cbn [bind]; rewrite Hb; cbn [Route.symbol
           Route.side Route.masterQty Route.price truthy negb orb];
         rewrite ?orb_true_r; reflexivity).
  cbn [truthy_str truthy_num].
  destruct (negb (negb (Str.is_empty sym)) || negb (negb (Str.is_empty sd))
            || negb (negb (Qeq_bool qty 0)) || negb (negb (Qeq_bool prc 0)))
    eqn:Echeck.
  - unfold Route.POST. cbn [bind]. rewrite Hb.
    cbn [Route.symbol Route.side Route.masterQty Route.price truthy].
    now rewrite Echeck.
  - apply orb_false_elim in Echeck as [Echeck Eprice].
    apply orb_false_elim in Echeck as [Echeck Eqtyz].
    apply orb_false_elim in Echeck as [Esymz Esdz].
    apply negb_false_iff in Esymz, Esdz, Eqtyz, Eprice.
    destruct (FanOut.tradeId body) as [tid|] eqn:Etid;
      cbn [option_map or_undefined] in Hb.
    + destruct (Str.is_empty tid) eqn:Eempty.
      * unfold Route.POST. cbn [bind]. rewrite Hb.
        cbn [Route.symbol Route.side Route.masterQty Route.price
             Route.tradeId truthy].
        rewrite Esymz, Esdz, Eqtyz, Eprice, Eempty. reflexivity.
      * eapply POST_past_the_checks; [exact Hb|].
        unfold accepted.
        cbn [Route.symbol Route.side Route.masterQty Route.price
             Route.tradeId truthy].
        now rewrite Esymz, Esdz, Eqtyz, Eprice, Eempty.
    + unfold Route.POST. cbn [bind]. rewrite Hb.
      cbn [Route.symbol Route.side Route.masterQty Route.price
           Route.tradeId truthy].
      rewrite Esymz, Esdz, Eqtyz, Eprice. reflexivity.
Qed.
